(** * Quiz-generator backend: upload, text extraction and content clean-up

    A shallow embedding of [src/services/contentExtractor.js], of the upload
    routes ([fileFilter], [upload], [POST /file], [POST /text]), of the
    error-handling middleware of the server, and of the quiz service
    ([src/services/quizGenerator.js]) with its routes
    ([src/routes/quizRoutes.js]), followed by the properties of the
    specification that concern them and by further properties of the code.

    JavaScript strings are sequences of UTF-16 code units; a code unit is a
    natural number ([N]) and a string a [list N].  This keeps the characters
    that [String.prototype.trim] strips but that are not ASCII (NBSP, the
    Unicode space separators, the BOM, LS and PS).  Numbers are doubles,
    given by their exact value.  What a request carries in its body is a
    value of any type of JSON, and a method called on a value that has no
    such method throws as the runtime does.

    A call runs alone from its start to its end: [await] is sequencing.
    The file system is a finite map from paths to contents, together with
    the set of paths whose removal the operating system refuses; every
    access to it and every line written to the console is recorded. *)

From Stdlib Require Import ZArith NArith List Ascii String DecimalString.
From Stdlib Require Import DecimalPos DecimalN DecimalFacts.
From Stdlib Require QArith.
From Stdlib.Strings Require Import Byte.
From stdpp Require Import gmap strings list.

Open Scope N_scope.

(** ** JavaScript strings *)

Abbreviation jsstring := (list N).

(** An ASCII literal of the source as a sequence of code units. *)
Definition lit (s : string) : jsstring :=
  map N_of_ascii (list_ascii_of_string s).

Definition SP : N := 32.
Definition TAB : N := 9.
Definition LF : N := 10.

(** The string ['\n']. *)
Definition nl : jsstring := [LF].

Module JsString.

(** The characters matched by the class [[ \t]] of the first regular
    expression of [cleanContent]. *)
Definition isBlank (c : N) : bool := (c =? SP) || (c =? TAB).

(** The characters matched by [\n]. *)
Definition isNewline (c : N) : bool := c =? LF.

(** [WhiteSpace] and [LineTerminator] of ECMA-262, the code units that
    [String.prototype.trim] removes: TAB, LF, VT, FF, CR, SP, NBSP, the
    space separators of Unicode (category Zs), LS, PS and the BOM. *)
Definition isWhiteSpace (c : N) : bool :=
  (c =? 9) || (c =? 10) || (c =? 11) || (c =? 12) || (c =? 13) ||
  (c =? 32) || (c =? 0xA0) || (c =? 0x1680) ||
  ((0x2000 <=? c) && (c <=? 0x200A)) ||
  (c =? 0x2028) || (c =? 0x2029) || (c =? 0x202F) || (c =? 0x205F) ||
  (c =? 0x3000) || (c =? 0xFEFF).

Fixpoint dropWhile (p : N -> bool) (s : jsstring) : jsstring :=
  match s with
  | [] => []
  | c :: r => if p c then dropWhile p r else s
  end.

Definition trimStart (s : jsstring) : jsstring := dropWhile isWhiteSpace s.

Definition trimEnd (s : jsstring) : jsstring :=
  rev (dropWhile isWhiteSpace (rev s)).

(** [String.prototype.trim]. *)
Definition trim (s : jsstring) : jsstring := trimEnd (trimStart s).

(** [s.split(sep)] for a separator of one code unit.  The result is never
    empty: the empty string splits into one empty piece. *)
Fixpoint split (sep : N) (s : jsstring) : list jsstring :=
  match s with
  | [] => [[]]
  | c :: r =>
      if c =? sep then [] :: split sep r
      else match split sep r with
           | l :: ls => (c :: l) :: ls
           | [] => [[c]]
           end
  end.

(** [pieces.join(sep)]. *)
Fixpoint join (sep : jsstring) (pieces : list jsstring) : jsstring :=
  match pieces with
  | [] => []
  | l :: rest =>
      match rest with
      | [] => l
      | _ :: _ => l ++ sep ++ join sep rest
      end
  end.

(** What a pending run of class characters becomes when the run ends: the
    replacement when the run is long enough for the pattern to match, the
    run itself otherwise. *)
Definition flushRun (min : nat) (repl run : jsstring) : jsstring :=
  if (min <=? length run)%nat then repl else run.

(** [s.replace(/[cls]{min,}/g, repl)] with [1 <= min], scanning from left
    to right; [run] is the maximal run of class characters that ends at
    the current position.  The quantifier is greedy, so a match is a
    maximal run of at least [min] characters, and a shorter run is
    copied. *)
Fixpoint replaceRunsFrom (cls : N -> bool) (min : nat) (repl : jsstring)
    (run s : jsstring) : jsstring :=
  match s with
  | [] => flushRun min repl run
  | c :: r =>
      if cls c then replaceRunsFrom cls min repl (run ++ [c]) r
      else flushRun min repl run ++ c :: replaceRunsFrom cls min repl [] r
  end.

Definition replaceRuns (cls : N -> bool) (min : nat) (repl s : jsstring)
    : jsstring :=
  replaceRunsFrom cls min repl [] s.

End JsString.

Import JsString.

(** ** [cleanContent] *)

(** [.replace(/[ \t]+/g, ' ')] *)
Definition collapseBlanks (s : jsstring) : jsstring :=
  replaceRuns isBlank 1 [SP] s.

(** [.replace(/\n{3,}/g, '\n\n')] *)
Definition collapseNewlines (s : jsstring) : jsstring :=
  replaceRuns isNewline 3 [LF; LF] s.

(** [.split('\n').map(line => line.trim()).join('\n')] *)
Definition trimLines (s : jsstring) : jsstring :=
  join [LF] (map trim (split LF s)).

(** The chain of calls of [cleanContent] on a string. *)
Definition normalizeText (s : jsstring) : jsstring :=
  trim (trimLines (collapseNewlines (collapseBlanks s))).

(** [!content] for an argument that is a string or is absent ([null] or
    [undefined], here [None]). *)
Definition falsy (content : option jsstring) : bool :=
  match content with
  | None => true
  | Some s => (length s =? 0)%nat
  end.

Definition cleanContent (content : option jsstring) : jsstring :=
  if falsy content then []
  else match content with
       | Some s => normalizeText s
       | None => []
       end.

(** ** Errors, effects and the world outside the program *)

(** A JavaScript [Error]: its message and the optional [status] property
    that the error-handling middleware looks at. *)
Record JsError := mkError { message : jsstring; status : option N }.

(** [new Error(msg)] *)
Definition newError (msg : jsstring) : JsError :=
  {| message := msg; status := None |}.

(** What the program does to its environment, in the order it does it. *)
Inductive Event :=
| FsWrite (p : jsstring)
| FsRead (p : jsstring)
| FsExists (p : jsstring)
| FsUnlink (p : jsstring)
| ConsoleLog (text : jsstring)
| ConsoleError (label : jsstring) (err : JsError).

(** The file system (the content of each existing file), the paths whose
    removal the operating system refuses (EPERM), and the events so far,
    oldest first. *)
Record World := mkWorld {
  files : gmap jsstring (list byte);
  protected : gset jsstring;
  trace : list Event
}.

Inductive Outcome (A : Type) :=
| Returned (a : A)
| Thrown (e : JsError).
Arguments Returned {A} a.
Arguments Thrown {A} e.

(** A computation returns or throws, and changes the world. *)
Definition M (A : Type) : Type := World -> Outcome A * World.

Definition ret {A} (a : A) : M A := fun w => (Returned a, w).

Definition throw {A} (e : JsError) : M A := fun w => (Thrown e, w).

Definition bind {A B} (m : M A) (k : A -> M B) : M B :=
  fun w =>
    match m w with
    | (Returned a, w') => k a w'
    | (Thrown e, w') => (Thrown e, w')
    end.

(** [try { m } catch (error) { handler error }] *)
Definition tryCatch {A} (m : M A) (handler : JsError -> M A) : M A :=
  fun w =>
    match m w with
    | (Returned a, w') => (Returned a, w')
    | (Thrown e, w') => handler e w'
    end.

Notation "'let*' x ':=' m 'in' k" := (bind m (fun x => k))
  (at level 10, x name, m at level 100, k at level 200).

Definition emit (ev : Event) : M unit :=
  fun w =>
    (Returned tt,
     {| files := files w; protected := protected w; trace := trace w ++ [ev] |}).

Definition setFiles (fs : gmap jsstring (list byte)) : M unit :=
  fun w =>
    (Returned tt,
     {| files := fs; protected := protected w; trace := trace w |}).

Definition getFiles : M (gmap jsstring (list byte)) :=
  fun w => (Returned (files w), w).

Definition getProtected : M (gset jsstring) :=
  fun w => (Returned (protected w), w).

(** Decimal rendering of a number inside a template string. *)
Definition decimal (n : N) : jsstring :=
  lit (NilZero.string_of_uint (N.to_uint n)).

(** [s.length] *)
Definition jsLength (s : jsstring) : N := N.of_nat (length s).

(** [a === b] on strings. *)
Definition strictEq (a b : jsstring) : bool := bool_decide (a = b).

(** [s.startsWith(prefix)] *)
Fixpoint startsWith (pre s : jsstring) : bool :=
  match pre, s with
  | [], _ => true
  | _ :: _, [] => false
  | a :: pre', b :: s' => (a =? b) && startsWith pre' s'
  end.

Module Fs.

Definition quoted (p : jsstring) : jsstring := lit "'" ++ p ++ lit "'".

Definition ENOENT (syscall p : jsstring) : JsError :=
  newError (lit "ENOENT: no such file or directory, " ++ syscall ++
            lit " " ++ quoted p).

Definition EPERM (syscall p : jsstring) : JsError :=
  newError (lit "EPERM: operation not permitted, " ++ syscall ++
            lit " " ++ quoted p).

(** [fs.existsSync(p)]: never throws. *)
Definition existsSync (p : jsstring) : M bool :=
  let* _ := emit (FsExists p) in
  let* fs := getFiles in
  ret (match fs !! p with Some _ => true | None => false end).

(** [fs.unlinkSync(p)]: throws when the file is absent or when its
    removal is refused. *)
Definition unlinkSync (p : jsstring) : M unit :=
  let* _ := emit (FsUnlink p) in
  let* fs := getFiles in
  let* prot := getProtected in
  match fs !! p with
  | None => throw (ENOENT (lit "unlink") p)
  | Some _ =>
      if bool_decide (p ∈ prot) then throw (EPERM (lit "unlink") p)
      else setFiles (delete p fs)
  end.

(** [fs.readFileSync(p)]: the bytes of the file. *)
Definition readFileSync (p : jsstring) : M (list byte) :=
  let* _ := emit (FsRead p) in
  let* fs := getFiles in
  match fs !! p with
  | None => throw (ENOENT (lit "open") p)
  | Some data => ret data
  end.

(** What the upload middleware does when it stores a file. *)
Definition writeFile (p : jsstring) (data : list byte) : M unit :=
  let* _ := emit (FsWrite p) in
  let* fs := getFiles in
  setFiles (<[p := data]> fs).

End Fs.

(** ** Numbers

    A number of the runtime is a double: not a number, an infinity, or a
    finite value, given here by its exact rational value.  The zero of
    either sign is the rational zero. *)
Module Double.

Inductive number :=
| NaN
| Inf (negative : bool)
| Num (q : QArith_base.Q).

Definition ofZ (z : Z) : number := Num (QArith_base.inject_Z z).

Definition ofN (n : N) : number := ofZ (Z.of_N n).

(** [-x] *)
Definition opp (x : number) : number :=
  match x with
  | NaN => NaN
  | Inf negative => Inf (negb negative)
  | Num q => Num (QArith_base.Qopp q)
  end.

(** The truth of a number: [NaN] and zero are falsy. *)
Definition truthy (x : number) : bool :=
  match x with
  | NaN => false
  | Inf _ => true
  | Num q => negb (QArith_base.Qeq_bool q (QArith_base.inject_Z 0))
  end.

(** [x < y]: false when either is [NaN]. *)
Definition ltb (x y : number) : bool :=
  match x, y with
  | NaN, _ | _, NaN => false
  | Inf true, Inf true => false
  | Inf true, _ => true
  | _, Inf true => false
  | Inf false, _ => false
  | _, Inf false => true
  | Num a, Num b => negb (QArith_base.Qle_bool b a)
  end.

(** The double nearest to a natural number, ties to the even mantissa:
    exact below 2^53, and infinite from 2^1024 on. *)
Definition round (n : N) : number :=
  if n <? 2 ^ 53 then ofN n
  else
    let e := N.log2 n - 52 in
    let q := N.shiftr n e in
    let r := N.land n (N.ones e) in
    let half := N.shiftl 1 (e - 1) in
    let q' := if (half <? r) || ((r =? half) && N.odd q) then q + 1 else q in
    let v := N.shiftl q' e in
    if v <? 2 ^ 1024 then ofN v else Inf false.

End Double.

(** ** The libraries the program delegates to *)

Record PdfData := mkPdfData { numpages : N; text : jsstring }.

(** [pdf-parse], the recognition engine of [tesseract.js], the UTF-8
    decoder of the runtime and the upload library [multer] are not part of
    the repository.  The first three are functions of the bytes they are
    given, and the first two can fail; [fitsLimit limit data] is the
    verdict of the upload library on a file part of these bytes when it is
    configured with [limits.fileSize = limit]. *)
Class Libraries := {
  pdfParse : list byte -> JsError + PdfData;
  recognize : list byte -> JsError + jsstring;
  utf8Decode : list byte -> jsstring;
  fitsLimit : Double.number -> list byte -> bool
}.

Definition liftLib {A} (r : JsError + A) : M A :=
  match r with
  | inl e => throw e
  | inr a => ret a
  end.

(** ** [ContentExtractor] *)

(** A file object as the upload middleware hands it over. *)
Record MulterFile := mkFile {
  path : jsstring;
  mimetype : jsstring;
  originalname : jsstring
}.

Module Emoji.
Definition page : jsstring := [0xD83D; 0xDCC4].
Definition memo : jsstring := [0xD83D; 0xDCDD].
Definition bin : jsstring := [0xD83D; 0xDDD1; 0xFE0F].
Definition lens : jsstring := [0xD83D; 0xDD0D].
Definition picture : jsstring := [0xD83D; 0xDDBC; 0xFE0F].
End Emoji.

Section ContentExtractor.
Context {libs : Libraries}.

Definition cleanupFile (filePath : jsstring) : M unit :=
  tryCatch
    (let* present := Fs.existsSync filePath in
     if present then
       let* _ := Fs.unlinkSync filePath in
       emit (ConsoleLog (Emoji.bin ++ lit " Cleaned up temporary file"))
     else ret tt)
    (fun error => emit (ConsoleError (lit "File cleanup error:") error)).

Definition extractFromPDF (filePath : jsstring) : M jsstring :=
  tryCatch
    (let* dataBuffer := Fs.readFileSync filePath in
     let* data := liftLib (pdfParse dataBuffer) in
     let* _ := emit (ConsoleLog
                 (Emoji.page ++ lit " PDF extracted: " ++
                  decimal (numpages data) ++ lit " pages, " ++
                  decimal (jsLength (text data)) ++ lit " characters")) in
     ret (text data))
    (fun error =>
       let* _ := emit (ConsoleError (lit "PDF extraction error:") error) in
       throw (newError (lit "Failed to extract text from PDF: " ++
                        message error))).

(** [Tesseract.recognize] opens the file itself; the progress logger it
    is given writes to the standard output and is left out. *)
Definition extractFromImage (filePath : jsstring) : M jsstring :=
  tryCatch
    (let* _ := emit (ConsoleLog
                 (Emoji.lens ++ lit " Running OCR on image...")) in
     let* image := Fs.readFileSync filePath in
     let* text := liftLib (recognize image) in
     let* _ := emit (ConsoleLog
                 (nl ++ Emoji.picture ++ lit " Image OCR complete: " ++
                  decimal (jsLength text) ++
                  lit " characters extracted")) in
     ret text)
    (fun error =>
       let* _ := emit (ConsoleError (lit "OCR extraction error:") error) in
       throw (newError (lit "Failed to extract text from image: " ++
                        message error))).

Definition extractFromText (filePath : jsstring) : M jsstring :=
  tryCatch
    (let* bytes := Fs.readFileSync filePath in
     let content := utf8Decode bytes in
     let* _ := emit (ConsoleLog
                 (Emoji.memo ++ lit " Text file read: " ++
                  decimal (jsLength content) ++ lit " characters")) in
     ret content)
    (fun error =>
       let* _ := emit (ConsoleError (lit "Text file read error:") error) in
       throw (newError (lit "Failed to read text file: " ++
                        message error))).

Definition extractFromFile (file : MulterFile) : M jsstring :=
  let filePath := path file in
  let mimeType := mimetype file in
  tryCatch
    (let* content :=
       if strictEq mimeType (lit "application/pdf") then
         extractFromPDF filePath
       else if startsWith (lit "image/") mimeType then
         extractFromImage filePath
       else if strictEq mimeType (lit "text/plain") then
         extractFromText filePath
       else
         throw (newError (lit "Unsupported file type: " ++ mimeType)) in
     let* _ := cleanupFile filePath in
     ret (cleanContent (Some content)))
    (fun error =>
       let* _ := cleanupFile filePath in
       throw error).

End ContentExtractor.

(** ** The upload route *)

(** The file part of a multipart request. *)
Record Part := mkPart {
  partName : jsstring;
  partType : jsstring;
  partData : list byte
}.

(** What the process reads from its surroundings: the variable
    [MAX_FILE_SIZE] when it is set, and the directory the uploads go to,
    [path.join(__dirname, '../../uploads')]. *)
Record Env := mkEnv {
  MAX_FILE_SIZE : option jsstring;
  uploadsDir : jsstring
}.

(** A request to [POST /file]: its file part when it has one, and the two
    values the storage engine draws for the file name, [Date.now()] and
    [Math.round(Math.random() * 1E9)]. *)
Record Request := mkRequest {
  part : option Part;
  now : N;
  rnd : N
}.

Module Js.

(** The value of a digit or letter in [parseInt]. *)
Definition digitValue (c : N) : option N :=
  if (48 <=? c) && (c <=? 57) then Some (c - 48)
  else if (97 <=? c) && (c <=? 122) then Some (c - 87)
  else if (65 <=? c) && (c <=? 90) then Some (c - 55)
  else None.

(** The value of the longest prefix of digits of the radix; [None] when
    there is no digit. *)
Fixpoint parseDigits (radix : N) (acc : option N) (s : jsstring)
    : option N :=
  match s with
  | [] => acc
  | c :: r =>
      match digitValue c with
      | Some d =>
          if d <? radix
          then parseDigits radix (Some (radix * default 0 acc + d)) r
          else acc
      | None => acc
      end
  end.

(** [parseInt(s)] without a radix, after ECMA-262: leading white space
    and a sign are skipped, [0x] selects radix 16, and the digits that
    follow are read as far as they go; the result is the double nearest
    to the integer they denote, or [NaN] when there is no digit. *)
Definition parseInt (s : jsstring) : Double.number :=
  let s1 := trimStart s in
  let '(negative, s2) :=
    match s1 with
    | 45 :: r => (true, r)
    | 43 :: r => (false, r)
    | _ => (false, s1)
    end in
  let '(radix, s3) :=
    match s2 with
    | 48 :: x :: r =>
        if (x =? 120) || (x =? 88) then (16, r) else (10, s2)
    | _ => (10, s2)
    end in
  match parseDigits radix None s3 with
  | None => Double.NaN
  | Some n => if negative then Double.opp (Double.round n) else Double.round n
  end.

(** [String(v)] for a value that is a string or [undefined]. *)
Definition toString (v : option jsstring) : jsstring :=
  match v with
  | Some s => s
  | None => lit "undefined"
  end.

(** [a || b] for numbers: [NaN] and zero are falsy. *)
Definition orNumber (a b : Double.number) : Double.number :=
  if Double.truthy a then a else b.

(** [a || b] for a status that is a number or [undefined]. *)
Definition orStatus (a : option N) (b : N) : N :=
  match a with
  | Some 0 => b
  | Some n => n
  | None => b
  end.

(** [a || b] for strings: the empty string is falsy. *)
Definition orString (a b : jsstring) : jsstring :=
  match a with
  | [] => b
  | _ :: _ => a
  end.

End Js.

(** ** Values

    What the body of a request holds once the body parsers of the server
    have read it: the values of JSON, and [undefined] for what is absent.
    The properties of an object are listed with their keys; the first
    binding of a key is the property. *)
#[local] Set Warnings "-register-all".
Inductive Value :=
| VUndefined
| VNull
| VBool (b : bool)
| VNum (x : Double.number)
| VStr (s : jsstring)
| VArr (items : list Value)
| VObj (fields : list (jsstring * Value)).

(** The conversions between strings and numbers that are taken from the
    runtime: [StringToNumber] of ECMA-262, and [Number::toString] for the
    numbers that are not integers below 10^21 in absolute value. *)
Class Engine := {
  stringToNumber : jsstring -> Double.number;
  formatNumber : QArith_base.Q -> jsstring
}.

(** A step that returns or throws, without any effect. *)
Definition andThen {A B} (r : JsError + A) (k : A -> JsError + B)
    : JsError + B :=
  match r with
  | inl e => inl e
  | inr a => k a
  end.

Notation "'let?' x ':=' r 'in' k" := (andThen r (fun x => k))
  (at level 10, x name, r at level 100, k at level 200).

(** An integer inside a template string, as the runtime prints integers
    below 10^21 in absolute value. *)
Definition numberText (n : Z) : jsstring :=
  if (n <? 0)%Z then lit "-" ++ decimal (Z.abs_N n) else decimal (Z.to_N n).

(** The errors that the runtime throws, in the wording of V8. *)
Module TypeError.

Definition nullishName (v : Value) : jsstring :=
  match v with
  | VNull => lit "null"
  | _ => lit "undefined"
  end.

(** A call of what is not a function; [callee] is the text of the
    expression that is called. *)
Definition notAFunction (callee : string) : JsError :=
  newError (lit callee ++ lit " is not a function").

(** A property read from [null] or [undefined]. *)
Definition cannotRead (base : Value) (property : string) : JsError :=
  newError (lit "Cannot read properties of " ++ nullishName base ++
            lit " (reading '" ++ lit property ++ lit "')").

(** A destructuring of [null] or [undefined]; [holder] is the text of the
    expression that is destructured. *)
Definition cannotDestructure (property holder : string) (base : Value)
    : JsError :=
  newError (lit "Cannot destructure property '" ++ lit property ++
            lit "' of '" ++ lit holder ++ lit "' as it is " ++
            nullishName base ++ lit ".").

(** An object that has no usable [toString]. *)
Definition cannotConvert : JsError :=
  newError (lit "Cannot convert object to primitive value").

End TypeError.

Module JsValue.

Definition nullish (v : Value) : bool :=
  match v with
  | VUndefined | VNull => true
  | _ => false
  end.

(** The truth of a value: [undefined], [null], [false], zero, [NaN] and
    the empty string are falsy. *)
Definition truthy (v : Value) : bool :=
  match v with
  | VUndefined | VNull => false
  | VBool b => b
  | VNum x => Double.truthy x
  | VStr s => negb (length s =? 0)%nat
  | VArr _ | VObj _ => true
  end.

(** [a || b] *)
Definition or (a b : Value) : Value := if truthy a then a else b.

(** [v = fallback] in a destructuring pattern: the fallback stands for
    [undefined] only. *)
Definition orDefault (v fallback : Value) : Value :=
  match v with
  | VUndefined => fallback
  | _ => v
  end.

Fixpoint lookup (key : jsstring) (fields : list (jsstring * Value))
    : Value :=
  match fields with
  | [] => VUndefined
  | (k, v) :: rest => if strictEq k key then v else lookup key rest
  end.

Definition has (key : jsstring) (fields : list (jsstring * Value)) : bool :=
  existsb (fun field => strictEq (fst field) key) fields.

(** [v.key] for a value that is neither [null] nor [undefined] and a key
    that no prototype defines. *)
Definition get (key : string) (v : Value) : Value :=
  match v with
  | VObj fields => lookup (lit key) fields
  | _ => VUndefined
  end.

(** [v.key] for a key that no prototype defines. *)
Definition read (key : string) (v : Value) : JsError + Value :=
  if nullish v then inl (TypeError.cannotRead v key) else inr (get key v).

(** [const { first, ... } = holder]: the properties by their keys. *)
Definition destructure (first holder : string) (v : Value)
    : JsError + (string -> Value) :=
  if nullish v then inl (TypeError.cannotDestructure first holder v)
  else inr (fun key => get key v).

(** [v.length] *)
Definition lengthOf (v : Value) : JsError + Value :=
  match v with
  | VUndefined | VNull => inl (TypeError.cannotRead v "length")
  | VStr s => inr (VNum (Double.ofN (jsLength s)))
  | VArr items => inr (VNum (Double.ofN (N.of_nat (length items))))
  | VObj fields => inr (lookup (lit "length") fields)
  | VBool _ | VNum _ => inr VUndefined
  end.

(** [v.trim()]; [name] is the text of the expression [v]. *)
Definition trimOf (name : string) (v : Value) : JsError + jsstring :=
  match v with
  | VStr s => inr (trim s)
  | VUndefined | VNull => inl (TypeError.cannotRead v "trim")
  | _ => inl (TypeError.notAFunction (name ++ ".trim"))
  end.

(** [!v || v.trim().length === 0] *)
Definition blank (name : string) (v : Value) : JsError + bool :=
  if negb (truthy v) then inr true
  else let? trimmed := trimOf name v in inr (jsLength trimmed =? 0).

(** [v.substring(0, n)] *)
Definition substringOf (name : string) (n : nat) (v : Value)
    : JsError + jsstring :=
  match v with
  | VStr s => inr (take n s)
  | VUndefined | VNull => inl (TypeError.cannotRead v "substring")
  | _ => inl (TypeError.notAFunction (name ++ ".substring"))
  end.

(** [l.includes(v)] for an array [l] of strings. *)
Definition includedIn (l : list jsstring) (v : Value) : bool :=
  match v with
  | VStr s => existsb (strictEq s) l
  | _ => false
  end.

(** The array on which a method of arrays is called; [name] is the text
    of the expression [v].  No other value has the methods [filter],
    [join] and [forEach]. *)
Definition arrayOf (name method : string) (v : Value)
    : JsError + list Value :=
  match v with
  | VArr items => inr items
  | VUndefined | VNull => inl (TypeError.cannotRead v method)
  | _ => inl (TypeError.notAFunction (name ++ "." ++ method))
  end.

(** The characters of a value that is a string. *)
Definition text (v : Value) : jsstring :=
  match v with
  | VStr s => s
  | _ => []
  end.

Section Conversions.
Context {engine : Engine}.

(** [Number::toString] *)
Definition numberToString (x : Double.number) : jsstring :=
  match x with
  | Double.NaN => lit "NaN"
  | Double.Inf false => lit "Infinity"
  | Double.Inf true => lit "-Infinity"
  | Double.Num q =>
      let r := Qreduction.Qred q in
      if (QArith_base.Qden r =? 1)%positive &&
         (Z.abs (QArith_base.Qnum r) <? 10 ^ 21)%Z
      then numberText (QArith_base.Qnum r)
      else formatNumber q
  end.

(** The elements of an array as [Array.prototype.join] prints them:
    nothing for [null] and [undefined]. *)
Definition printItems (print : Value -> JsError + jsstring)
    : list Value -> JsError + list jsstring :=
  fix go (items : list Value) : JsError + list jsstring :=
    match items with
    | [] => inr []
    | item :: rest =>
        match (match item with
               | VUndefined | VNull => inr []
               | _ => print item
               end) with
        | inl e => inl e
        | inr s =>
            match go rest with
            | inl e => inl e
            | inr ss => inr (s :: ss)
            end
        end
    end.

(** [ToString]: what a template literal and [join] print.  An array
    prints its elements between commas.  An object prints
    ["[object Object]"], unless it has a property [toString] of its own,
    which is no function and leaves it without a primitive value. *)
Fixpoint toStr (v : Value) : JsError + jsstring :=
  match v with
  | VUndefined => inr (lit "undefined")
  | VNull => inr (lit "null")
  | VBool b => inr (if b then lit "true" else lit "false")
  | VNum x => inr (numberToString x)
  | VStr s => inr s
  | VArr items =>
      match printItems toStr items with
      | inl e => inl e
      | inr ss => inr (join (lit ",") ss)
      end
  | VObj fields =>
      if has (lit "toString") fields then inl TypeError.cannotConvert
      else inr (lit "[object Object]")
  end.

(** [items.join(sep)] *)
Definition joinValues (sep : jsstring) (items : list Value)
    : JsError + jsstring :=
  let? ss := printItems toStr items in inr (join sep ss).

(** [ToNumber] *)
Definition toNumber (v : Value) : JsError + Double.number :=
  match v with
  | VUndefined => inr Double.NaN
  | VNull => inr (Double.ofZ 0)
  | VBool b => inr (Double.ofZ (if b then 1 else 0))
  | VNum x => inr x
  | VStr s => inr (stringToNumber s)
  | VArr _ | VObj _ => let? s := toStr v in inr (stringToNumber s)
  end.

(** [v < c] and [v > c] for a number [c] *)
Definition lessThan (v : Value) (c : Double.number) : JsError + bool :=
  let? x := toNumber v in inr (Double.ltb x c).

Definition greaterThan (v : Value) (c : Double.number) : JsError + bool :=
  let? x := toNumber v in inr (Double.ltb c x).

End Conversions.

End JsValue.

(** [cleanContent] on any argument, call by call: a method is looked up
    on the value it is called on, and the call throws when that value has
    no such method.  The names are the texts of the expressions, as the
    runtime prints them in the message of the error. *)
Module Untyped.

Section CleanContent.
Context {engine : Engine}.

(** [v.replace(/[cls]{min,}/g, repl)] *)
Definition replaceOf (name : string) (cls : N -> bool) (min : nat)
    (repl : jsstring) (v : Value) : JsError + Value :=
  match v with
  | VStr s => inr (VStr (replaceRuns cls min repl s))
  | VUndefined | VNull => inl (TypeError.cannotRead v "replace")
  | _ => inl (TypeError.notAFunction (name ++ ".replace"))
  end.

(** [v.split(sep)] for a separator of one code unit. *)
Definition splitOf (name : string) (sep : N) (v : Value)
    : JsError + Value :=
  match v with
  | VStr s => inr (VArr (map VStr (split sep s)))
  | VUndefined | VNull => inl (TypeError.cannotRead v "split")
  | _ => inl (TypeError.notAFunction (name ++ ".split"))
  end.

(** The calls of the callback of [map], from the first element on. *)
Fixpoint mapItems (f : Value -> JsError + Value) (items : list Value)
    : JsError + list Value :=
  match items with
  | [] => inr []
  | item :: rest =>
      let? mapped := f item in
      let? others := mapItems f rest in
      inr (mapped :: others)
  end.

(** [v.map(f)] *)
Definition mapOf (name : string) (f : Value -> JsError + Value) (v : Value)
    : JsError + Value :=
  let? items := JsValue.arrayOf name "map" v in
  let? mapped := mapItems f items in
  inr (VArr mapped).

(** [v.join(sep)] *)
Definition joinOf (name : string) (sep : jsstring) (v : Value)
    : JsError + Value :=
  let? items := JsValue.arrayOf name "join" v in
  let? joined := JsValue.joinValues sep items in
  inr (VStr joined).

(** [line => line.trim()] *)
Definition trimLine (line : Value) : JsError + Value :=
  let? trimmed := JsValue.trimOf "line" line in inr (VStr trimmed).

Definition cleanContent (content : Value) : JsError + Value :=
  if negb (JsValue.truthy content) then inr (VStr [])
  else
    let? spaced := replaceOf "content" isBlank 1 [SP] content in
    let? collapsed :=
      replaceOf "content.replace(...)" isNewline 3 [LF; LF] spaced in
    let? pieces :=
      splitOf "content.replace(...).replace(...)" LF collapsed in
    let? trimmed :=
      mapOf "content.replace(...).replace(...).split(...)" trimLine pieces in
    let? joined :=
      joinOf "content.replace(...).replace(...).split(...).map(...)"
             nl trimmed in
    let? result :=
      JsValue.trimOf
        "content.replace(...).replace(...).split(...).map(...).join(...)"
        joined in
    inr (VStr result).

End CleanContent.

End Untyped.

Definition allowedTypes : list jsstring :=
  [ lit "application/pdf";
    lit "image/jpeg";
    lit "image/png";
    lit "image/gif";
    lit "image/webp";
    lit "text/plain" ].

(** [allowedTypes.includes(t)] *)
Definition includes (l : list jsstring) (t : jsstring) : bool :=
  existsb (strictEq t) l.

(** [fileFilter]: the callback is given [true], or an error. *)
Definition fileFilter (file : Part) : Outcome bool :=
  if includes allowedTypes (partType file) then Returned true
  else Thrown (newError (lit
    "Invalid file type. Allowed: PDF, Images (JPEG, PNG, GIF, WebP), Text files")).

(** [limits.fileSize] *)
Definition fileSizeLimit (env : Env) : Double.number :=
  Js.orNumber (Js.parseInt (Js.toString (MAX_FILE_SIZE env)))
              (Double.ofZ (10 * 1024 * 1024)).

(** [storage.filename] *)
Definition filename (req : Request) (file : Part) : jsstring :=
  let uniqueSuffix := decimal (now req) ++ lit "-" ++ decimal (rnd req) in
  uniqueSuffix ++ lit "-" ++ partName file.

(** The size check that the upload library makes with [limits.fileSize]. *)
Definition withinLimit `{Libraries} (env : Env) (file : Part) : bool :=
  fitsLimit (fileSizeLimit env) (partData file).

(** [upload.single('file')]: the middleware built from [storage],
    [fileFilter] and [limits].  It gives the handler the stored file, or
    nothing when the request has no file part, and passes an error on when
    the filter or the limit rejects the file. *)
Definition uploadSingle `{Libraries} (env : Env) (req : Request)
    : M (option MulterFile) :=
  match part req with
  | None => ret None
  | Some file =>
      match fileFilter file with
      | Thrown e => throw e
      | Returned _ =>
          if withinLimit env file then
            let p := uploadsDir env ++ lit "/" ++ filename req file in
            let* _ := Fs.writeFile p (partData file) in
            ret (Some {| path := p;
                         mimetype := partType file;
                         originalname := partName file |})
          else throw (newError (lit "File too large"))
      end
  end.

(** ** Responses *)

Inductive Json :=
| JBool (b : bool)
| JNum (n : N)
| JStr (s : jsstring)
| JObj (fields : list (string * Json)).

Record Response := mkResponse { code : N; body : Json }.

(** The error-handling middleware of the server. *)
Definition errorMiddleware (err : JsError) : M Response :=
  let* _ := emit (ConsoleError (lit "Error:") err) in
  ret {| code := Js.orStatus (status err) 500;
         body := JObj [ ("success"%string, JBool false);
                        ("error"%string,
                         JStr (Js.orString (message err)
                                 (lit "Internal server error"))) ] |}.

Section UploadRoute.
Context {libs : Libraries}.

(** The handler of [POST /file]; [next(error)] reaches the
    error-handling middleware. *)
Definition postFile (reqFile : option MulterFile) : M Response :=
  tryCatch
    (match reqFile with
     | None =>
         ret {| code := 400;
                body := JObj [ ("success"%string, JBool false);
                               ("error"%string,
                                JStr (lit "No file uploaded")) ] |}
     | Some file =>
         let* _ := emit (ConsoleLog
                     (Emoji.page ++ lit " Processing file: " ++
                      originalname file)) in
         let* extractedContent := extractFromFile file in
         ret {| code := 200;
                body := JObj
                  [ ("success"%string, JBool true);
                    ("data"%string, JObj
                      [ ("filename"%string, JStr (originalname file));
                        ("fileType"%string, JStr (mimetype file));
                        ("content"%string, JStr extractedContent);
                        ("contentLength"%string,
                         JNum (jsLength extractedContent)) ]) ] |}
     end)
    (fun error => errorMiddleware error).

(** [router.post('/file', upload.single('file'), handler)] followed by
    the error-handling middleware. *)
Definition handleUpload (env : Env) (req : Request) : M Response :=
  tryCatch
    (let* reqFile := uploadSingle env req in
     postFile reqFile)
    (fun error => errorMiddleware error).

End UploadRoute.

(** The handler of [POST /text]; [reqBody] is [req.body]. *)
Definition postText (reqBody : Value) : M Response :=
  tryCatch
    (let* body := liftLib (JsValue.destructure "text" "req.body" reqBody) in
     let text := body "text"%string in
     let* missing := liftLib (JsValue.blank "text" text) in
     if missing then
       ret {| code := 400;
              body := JObj [ ("success"%string, JBool false);
                             ("error"%string,
                              JStr (lit "No text content provided")) ] |}
     else
       let* content := liftLib (JsValue.trimOf "text" text) in
       let* measured := liftLib (JsValue.trimOf "text" text) in
       ret {| code := 200;
              body := JObj
                [ ("success"%string, JBool true);
                  ("data"%string, JObj
                    [ ("content"%string, JStr content);
                      ("contentLength"%string,
                       JNum (jsLength measured)) ]) ] |})
    (fun error => errorMiddleware error).

(** * The quiz service and its routes

    The service sends prompts to a language model and hands back what the
    model answers.  The client of the model, [JSON.parse] and the few
    operations of the runtime that are applied to what it returns are taken
    as they come; the prompts, the requests and the handling of errors are
    those of [quizGenerator.js] and [quizRoutes.js].  The body of a request
    holds any values; what reaches the service as a string or as an array
    of strings, because the route has checked it, is given to it as such. *)

(** The double quote. *)
Definition dq : jsstring := [34].

(** The lines of a template literal. *)
Definition lines (ls : list jsstring) : jsstring := join nl ls.

Module Sign.
Definition check : jsstring := [0x2705].
Definition target : jsstring := [0xD83C; 0xDFAF].
Definition robot : jsstring := [0xD83E; 0xDD16].
Definition bubble : jsstring := [0xD83D; 0xDCAC].
Definition smile : jsstring := [0xD83D; 0xDE0A].
End Sign.

Module Chat.

Record Message := mkMessage { role : Value; content : Value }.

(** The argument of [openai.chat.completions.create]; [response_format]
    holds the type of the format when there is one. *)
Record Request := mkRequest {
  model : jsstring;
  messages : list Message;
  temperature : QArith_base.Q;
  max_tokens : N;
  response_format : option jsstring
}.

End Chat.

(** What the service relies on: the client of the model, which answers a
    request with [response.choices[0].message.content], a string or [null],
    or fails; [JSON.parse] on such an answer; the value of
    [result.questions?.length || 0] for a parsed answer, whose evaluation
    fails when the parsed answer is [null], and its rendering inside a
    template string; and [String.prototype.toUpperCase]. *)
Class Assistant := {
  Answer : Type;
  Parsed : Type;
  Counted : Type;
  createCompletion : Chat.Request -> JsError + Answer;
  jsonParse : Answer -> JsError + Parsed;
  countQuestions : Parsed -> JsError + Counted;
  showCounted : Counted -> jsstring;
  toUpperCase : jsstring -> jsstring
}.

Module Generate.

(** The options of [generateQuiz]: the content, the difficulty and the
    question types reach the service checked, the other three as the
    request gave them. *)
Record Options := mkOptions {
  content : jsstring;
  numberOfQuestions : Value;
  difficulty : jsstring;
  questionTypes : list jsstring;
  specificTopics : Value;
  prioritizeImportant : Value
}.

Record Metadata `{Assistant} := mkMetadata {
  totalQuestions : Counted;
  metaDifficulty : jsstring;
  metaQuestionTypes : list jsstring;
  generatedAt : jsstring
}.

Record Result `{Assistant} := mkResult {
  quiz : Parsed;
  metadata : Metadata
}.

End Generate.

Module Help.

Record Data := mkData {
  question : Value;
  correctAnswer : Value;
  userAnswer : Value;
  explanation : Value;
  topic : Value
}.

Record Result `{Assistant} := mkResult {
  detailedExplanation : Answer;
  resultQuestion : Value;
  resultCorrectAnswer : Value;
  resultTopic : Value
}.

End Help.

Module Tutor.

Record Options := mkOptions {
  question : Value;
  correctAnswer : Value;
  chatHistory : Value;
  userMessage : Value;
  topic : Value
}.

End Tutor.

(** What a handler sends: a response, or the envelope
    [{success: true, data}] of a success with status 200. *)
Inductive Reply (D : Type) :=
| Sent (r : Response)
| SentData (data : D).
Arguments Sent {D} r.
Arguments SentData {D} data.

(** [next(error)] *)
Definition next {D} (error : JsError) : M (Reply D) :=
  let* r := errorMiddleware error in ret (Sent r).

(** [res.status(400).json({success: false, error})] *)
Definition badRequest {D} (error : string) : M (Reply D) :=
  ret (Sent {| code := 400;
               body := JObj [ ("success"%string, JBool false);
                              ("error"%string, JStr (lit error)) ] |}).

Section QuizGenerator.
Context {assistant : Assistant} {engine : Engine}.

Definition buildSystemPrompt : jsstring :=
  lines [
    lit "You are an expert educational quiz generator. Your task is to create high-quality, pedagogically sound quiz questions from educational content.";
    [];
    lit "Guidelines:";
    lit "1. Each question must be clear, unambiguous, and directly related to the content";
    lit "2. Questions should test understanding, not just memorization";
    lit "3. For multiple-choice questions, create 4 plausible options with exactly one correct answer";
    lit "4. Distractors (wrong options) should be plausible but clearly incorrect";
    lit "5. Provide concise but thorough explanations for correct answers";
    lit "6. Vary question difficulty according to the specified level";
    lit "7. Cover diverse concepts from the content";
    lit "8. Ensure questions are grammatically correct and professionally written";
    [];
    lit "Output Format - Return a valid JSON object with this structure:";
    lit "{";
    lit "  " ++ dq ++ lit "title" ++ dq ++ lit ": " ++ dq ++ lit "Quiz title based on content" ++ dq ++ lit ",";
    lit "  " ++ dq ++ lit "description" ++ dq ++ lit ": " ++ dq ++ lit "Brief description of what this quiz covers" ++ dq ++ lit ",";
    lit "  " ++ dq ++ lit "questions" ++ dq ++ lit ": [";
    lit "    {";
    lit "      " ++ dq ++ lit "id" ++ dq ++ lit ": 1,";
    lit "      " ++ dq ++ lit "type" ++ dq ++ lit ": " ++ dq ++ lit "multiple-choice|true-false|fill-in-blank" ++ dq ++ lit ",";
    lit "      " ++ dq ++ lit "difficulty" ++ dq ++ lit ": " ++ dq ++ lit "easy|medium|hard" ++ dq ++ lit ",";
    lit "      " ++ dq ++ lit "topic" ++ dq ++ lit ": " ++ dq ++ lit "Specific topic this question covers" ++ dq ++ lit ",";
    lit "      " ++ dq ++ lit "question" ++ dq ++ lit ": " ++ dq ++ lit "The question text" ++ dq ++ lit ",";
    lit "      " ++ dq ++ lit "options" ++ dq ++ lit ": [" ++ dq ++ lit "Option A" ++ dq ++ lit ", " ++ dq ++ lit "Option B" ++ dq ++ lit ", " ++ dq ++ lit "Option C" ++ dq ++ lit ", " ++ dq ++ lit "Option D" ++ dq ++ lit "], // For MCQ";
    lit "      " ++ dq ++ lit "correctAnswer" ++ dq ++ lit ": " ++ dq ++ lit "The correct answer or option letter" ++ dq ++ lit ",";
    lit "      " ++ dq ++ lit "explanation" ++ dq ++ lit ": " ++ dq ++ lit "Clear explanation of why this answer is correct" ++ dq;
    lit "    }";
    lit "  ]";
    lit "}"
  ].

(** The line of the prompt about the topics:
    [specificTopics.length > 0 ? `- Focus on these topics: ${specificTopics.join(', ')}` : '- Cover all major topics from the content'] *)
Definition topicsLine (specificTopics : Value) : JsError + jsstring :=
  let? size := JsValue.lengthOf specificTopics in
  let? some := JsValue.greaterThan size (Double.ofZ 0) in
  if some then
    let? items := JsValue.arrayOf "specificTopics" "join" specificTopics in
    let? listed := JsValue.joinValues (lit ", ") items in
    inr (lit "- Focus on these topics: " ++ listed)
  else inr (lit "- Cover all major topics from the content").

Definition buildUserPrompt (options : Generate.Options)
    : JsError + jsstring :=
  let content := Generate.content options in
  let numberOfQuestions := Generate.numberOfQuestions options in
  let difficulty := Generate.difficulty options in
  let questionTypes := Generate.questionTypes options in
  let specificTopics := Generate.specificTopics options in
  let prioritizeImportant := Generate.prioritizeImportant options in
  let? number := JsValue.toStr numberOfQuestions in
  let? topics := topicsLine specificTopics in
  let prompt := lines [
    lit "Generate a quiz with exactly " ++ number ++ lit " questions from the following educational content.";
    [];
    lit "REQUIREMENTS:";
    lit "- Difficulty Level: " ++ toUpperCase difficulty;
    lit "- Question Types: " ++ join (lit ", ") questionTypes;
    topics;
    (if JsValue.truthy prioritizeImportant
     then lit "- Prioritize frequently mentioned and high-importance concepts"
     else []);
    [];
    lit "DIFFICULTY GUIDELINES:";
    lit "- Easy: Basic recall, definitions, simple facts";
    lit "- Medium: Application of concepts, understanding relationships";
    lit "- Hard: Analysis, synthesis, complex problem-solving";
    [];
    lit "QUESTION TYPE SPECIFICATIONS:";
    []
  ] in
  let prompt :=
    if includes questionTypes (lit "multiple-choice")
    then prompt ++ lines [
      lit "- Multiple Choice: 4 options (A, B, C, D), one correct answer";
      [] ]
    else prompt in
  let prompt :=
    if includes questionTypes (lit "true-false")
    then prompt ++ lines [
      lit "- True/False: Statement that is clearly true or false";
      [] ]
    else prompt in
  let prompt :=
    if includes questionTypes (lit "fill-in-blank")
    then prompt ++ lines [
      lit "- Fill in the Blank: Sentence with key term removed, indicated by _____";
      [] ]
    else prompt in
  let prompt :=
    if includes questionTypes (lit "topic-specific")
    then prompt ++ lines [
      lit "- Topic-Specific: Deep questions on specific topics mentioned";
      [] ]
    else prompt in
  let? again := JsValue.toStr numberOfQuestions in
  inr (prompt ++ lines [
    [];
    lit "EDUCATIONAL CONTENT:";
    lit "---";
    take (N.to_nat 12000) content;
    lit "---";
    [];
    lit "Generate the quiz now. Ensure all " ++ again ++ lit " questions are unique and well-distributed across the content. Return valid JSON only."
  ]).

Definition generateQuiz (options : Generate.Options) (isoTime : jsstring)
    : M Generate.Result :=
  let difficulty := Generate.difficulty options in
  let questionTypes := Generate.questionTypes options in
  let systemPrompt := buildSystemPrompt in
  let* userPrompt := liftLib (buildUserPrompt options) in
  tryCatch
    (let* answer := liftLib (createCompletion
        {| Chat.model := lit "gpt-4o";
           Chat.messages :=
             [ {| Chat.role := VStr (lit "system");
                  Chat.content := VStr systemPrompt |};
               {| Chat.role := VStr (lit "user");
                  Chat.content := VStr userPrompt |} ];
           Chat.temperature := QArith_base.Qmake 7 10;
           Chat.max_tokens := 4000;
           Chat.response_format := Some (lit "json_object") |}) in
     let* result := liftLib (jsonParse answer) in
     let* count := liftLib (countQuestions result) in
     let* _ := emit (ConsoleLog
                 (Sign.check ++ lit " Generated " ++ showCounted count ++
                  lit " questions")) in
     ret {| Generate.quiz := result;
            Generate.metadata :=
              {| Generate.totalQuestions := count;
                 Generate.metaDifficulty := difficulty;
                 Generate.metaQuestionTypes := questionTypes;
                 Generate.generatedAt := isoTime |} |})
    (fun error =>
       let* _ := emit (ConsoleError (lit "Quiz generation error:") error) in
       throw (newError (lit "Failed to generate quiz: " ++ message error))).

Definition analyzeTopics (content : jsstring) : M Parsed :=
  let prompt := lines [
    lit "Analyze the following educational content and identify the main topics, concepts, and key areas covered. Return a JSON object with:";
    lit "- topics: array of main topic names";
    lit "- keyConcepts: array of important concepts/definitions";
    lit "- suggestedDifficulty: recommended difficulty level based on content complexity";
    [];
    lit "Educational Content:";
    take (N.to_nat 8000) content;
    [];
    lit "Return valid JSON only."
  ] in
  tryCatch
    (let* answer := liftLib (createCompletion
        {| Chat.model := lit "gpt-4o";
           Chat.messages :=
             [ {| Chat.role := VStr (lit "user");
                  Chat.content := VStr prompt |} ];
           Chat.temperature := QArith_base.Qmake 5 10;
           Chat.max_tokens := 1500;
           Chat.response_format := Some (lit "json_object") |}) in
     liftLib (jsonParse answer))
    (fun error =>
       let* _ := emit (ConsoleError (lit "Topic analysis error:") error) in
       throw (newError (lit "Failed to analyze topics: " ++ message error))).

(** The prompt that [getDetailedExplanation] sends. *)
Definition helpPrompt (questionData : Help.Data) : JsError + jsstring :=
  let question := Help.question questionData in
  let correctAnswer := Help.correctAnswer questionData in
  let userAnswer := Help.userAnswer questionData in
  let explanation := Help.explanation questionData in
  let topic := Help.topic questionData in
  let? asked := JsValue.toStr question in
  let? expected := JsValue.toStr correctAnswer in
  let? answered :=
    JsValue.toStr (JsValue.or userAnswer (VStr (lit "(No answer provided)"))) in
  let? explained := JsValue.toStr explanation in
  let? topicLine :=
    if JsValue.truthy topic
    then let? named := JsValue.toStr topic in inr (lit "TOPIC: " ++ named)
    else inr [] in
  inr (lines [
    lit "You are a friendly and patient tutor helping a student understand a concept they got wrong on a quiz.";
    [];
    lit "The student answered this question incorrectly and needs help understanding why the correct answer is right.";
    [];
    lit "QUESTION: " ++ asked;
    [];
    lit "CORRECT ANSWER: " ++ expected;
    [];
    lit "STUDENT'S ANSWER: " ++ answered;
    [];
    lit "ORIGINAL EXPLANATION: " ++ explained;
    [];
    topicLine;
    [];
    lit "Please provide a detailed, easy-to-understand explanation that:";
    lit "1. Starts with a friendly, encouraging tone";
    lit "2. Explains the concept in simple terms, as if teaching a beginner";
    lit "3. Uses real-world analogies or examples to make it relatable";
    lit "4. Breaks down WHY the correct answer is right step by step";
    lit "5. If the student gave a wrong answer, gently explains why that answer is incorrect";
    lit "6. Provides a memory tip or trick to remember this concept";
    lit "7. Ends with a brief summary";
    [];
    lit "Use clear paragraphs and make it conversational. Don't use complex jargon."
  ]).

Definition getDetailedExplanation (questionData : Help.Data)
    : M Help.Result :=
  let question := Help.question questionData in
  let correctAnswer := Help.correctAnswer questionData in
  let topic := Help.topic questionData in
  let* prompt := liftLib (helpPrompt questionData) in
  tryCatch
    (let* detailedExplanation := liftLib (createCompletion
        {| Chat.model := lit "gpt-4o";
           Chat.messages :=
             [ {| Chat.role := VStr (lit "user");
                  Chat.content := VStr prompt |} ];
           Chat.temperature := QArith_base.Qmake 7 10;
           Chat.max_tokens := 1500;
           Chat.response_format := None |}) in
     let* shown := liftLib (JsValue.toStr
                             (JsValue.or topic (VStr (lit "general")))) in
     let* _ := emit (ConsoleLog
                 (Sign.check ++ lit " AI Help generated for topic: " ++
                  shown)) in
     ret {| Help.detailedExplanation := detailedExplanation;
            Help.resultQuestion := question;
            Help.resultCorrectAnswer := correctAnswer;
            Help.resultTopic := topic |})
    (fun error =>
       let* _ := emit (ConsoleError (lit "AI Help error:") error) in
       throw (newError (lit "Failed to get AI help: " ++ message error))).

(** [chatHistory.forEach(msg => { messages.push({ role: msg.role, content: msg.content }) })]:
    the messages that are pushed. *)
Fixpoint copyHistory (items : list Value) : JsError + list Chat.Message :=
  match items with
  | [] => inr []
  | msg :: rest =>
      let? role := JsValue.read "role" msg in
      let? content := JsValue.read "content" msg in
      let? copied := copyHistory rest in
      inr ({| Chat.role := role; Chat.content := content |} :: copied)
  end.

(** The messages that [chatWithTutor] sends: the system prompt, the
    history when there is one, and the message of the user. *)
Definition tutorMessages (options : Tutor.Options)
    : JsError + list Chat.Message :=
  let question := Tutor.question options in
  let correctAnswer := Tutor.correctAnswer options in
  let chatHistory := Tutor.chatHistory options in
  let userMessage := Tutor.userMessage options in
  let topic := Tutor.topic options in
  let? asked := JsValue.toStr question in
  let? expected := JsValue.toStr correctAnswer in
  let? named := JsValue.toStr (JsValue.or topic (VStr (lit "General"))) in
  let systemPrompt := lines [
    lit "You are a friendly, patient AI tutor helping a student understand a quiz question they got wrong or are confused about.";
    [];
    lit "QUESTION CONTEXT:";
    lit "- Question: " ++ asked;
    lit "- Correct Answer: " ++ expected;
    lit "- Topic: " ++ named;
    [];
    lit "GUIDELINES:";
    lit "1. Be encouraging and supportive - never make the student feel bad";
    lit "2. Explain concepts in simple terms";
    lit "3. Use analogies and real-world examples";
    lit "4. If they ask for more examples, provide different ones";
    lit "5. If they're still confused, try a completely different approach";
    lit "6. Keep responses conversational but educational";
    lit "7. Use emojis occasionally to be friendly " ++ Sign.smile;
    lit "8. If they understand, congratulate them!";
    lit "9. Answer any follow-up questions they have about this topic";
    [];
    lit "Remember: Your goal is to help them truly understand, not just memorize."
  ] in
  let messages :=
    [ {| Chat.role := VStr (lit "system");
         Chat.content := VStr systemPrompt |} ] in
  let? messages :=
    if JsValue.truthy chatHistory then
      let? size := JsValue.lengthOf chatHistory in
      let? some := JsValue.greaterThan size (Double.ofZ 0) in
      if some then
        let? items := JsValue.arrayOf "chatHistory" "forEach" chatHistory in
        let? copied := copyHistory items in
        inr (messages ++ copied)
      else inr messages
    else inr messages in
  inr (messages ++
       [ {| Chat.role := VStr (lit "user"); Chat.content := userMessage |} ]).

(** The outcome of [chatWithTutor] is the object [{message}]: here the
    message. *)
Definition chatWithTutor (options : Tutor.Options) : M Answer :=
  let* messages := liftLib (tutorMessages options) in
  tryCatch
    (liftLib (createCompletion
        {| Chat.model := lit "gpt-4o";
           Chat.messages := messages;
           Chat.temperature := QArith_base.Qmake 8 10;
           Chat.max_tokens := 1000;
           Chat.response_format := None |}))
    (fun error =>
       let* _ := emit (ConsoleError (lit "Chat error:") error) in
       throw (newError (lit "Failed to chat with AI: " ++ message error))).

(** ** The routes of the quiz *)

Definition validDifficulties : list jsstring :=
  [ lit "easy"; lit "medium"; lit "hard" ].

Definition validQuestionTypes : list jsstring :=
  [ lit "multiple-choice"; lit "true-false"; lit "fill-in-blank";
    lit "topic-specific" ].

(** The handler of [POST /generate]; [reqBody] is [req.body] and
    [isoTime] the time at which the quiz is made, in the form of
    [toISOString]. *)
Definition postGenerate (reqBody : Value) (isoTime : jsstring)
    : M (Reply Generate.Result) :=
  tryCatch
    (let* body := liftLib (JsValue.destructure "content" "req.body" reqBody) in
     let content := body "content"%string in
     let numberOfQuestions :=
       JsValue.orDefault (body "numberOfQuestions"%string)
                         (VNum (Double.ofZ 10)) in
     let difficulty :=
       JsValue.orDefault (body "difficulty"%string) (VStr (lit "medium")) in
     let questionTypes :=
       JsValue.orDefault (body "questionTypes"%string)
                         (VArr [VStr (lit "multiple-choice")]) in
     let specificTopics :=
       JsValue.orDefault (body "specificTopics"%string) (VArr []) in
     let prioritizeImportant :=
       JsValue.orDefault (body "prioritizeImportant"%string) (VBool true) in
     let* missing := liftLib (JsValue.blank "content" content) in
     if missing then
       badRequest "Content is required to generate quiz"
     else
     let* outside := liftLib
       (let? below := JsValue.lessThan numberOfQuestions (Double.ofZ 1) in
        if below then inr true
        else JsValue.greaterThan numberOfQuestions (Double.ofZ 30)) in
     if outside then
       badRequest "Number of questions must be between 1 and 30"
     else if negb (JsValue.includedIn validDifficulties difficulty) then
       badRequest "Difficulty must be: easy, medium, or hard"
     else
       let* types := liftLib
         (JsValue.arrayOf "questionTypes" "filter" questionTypes) in
       let invalidTypes :=
         List.filter
           (fun type => negb (JsValue.includedIn validQuestionTypes type))
           types in
       if (0 <? length invalidTypes)%nat then
         let* listed := liftLib (JsValue.joinValues (lit ", ") invalidTypes) in
         ret (Sent {| code := 400;
                      body := JObj
                        [ ("success"%string, JBool false);
                          ("error"%string,
                           JStr (lit "Invalid question types: " ++
                                 listed)) ] |})
       else
         let* number := liftLib (JsValue.toStr numberOfQuestions) in
         let* level := liftLib (JsValue.toStr difficulty) in
         let* _ := emit (ConsoleLog
                     (Sign.target ++ lit " Generating quiz: " ++
                      number ++ lit " questions, " ++
                      level ++ lit " difficulty")) in
         let* quiz := generateQuiz
                        {| Generate.content := JsValue.text content;
                           Generate.numberOfQuestions := numberOfQuestions;
                           Generate.difficulty := JsValue.text difficulty;
                           Generate.questionTypes := map JsValue.text types;
                           Generate.specificTopics := specificTopics;
                           Generate.prioritizeImportant := prioritizeImportant |}
                        isoTime in
         ret (SentData quiz))
    (fun error => next error).

(** The handler of [POST /analyze-topics]. *)
Definition postAnalyzeTopics (reqBody : Value) : M (Reply Parsed) :=
  tryCatch
    (let* body := liftLib (JsValue.destructure "content" "req.body" reqBody) in
     let content := body "content"%string in
     let* missing := liftLib (JsValue.blank "content" content) in
     if missing then
       badRequest "Content is required for topic analysis"
     else
       let* topics := analyzeTopics (JsValue.text content) in
       ret (SentData topics))
    (fun error => next error).

(** The handler of [POST /ai-help]. *)
Definition postAiHelp (reqBody : Value) : M (Reply Help.Result) :=
  tryCatch
    (let* body := liftLib (JsValue.destructure "question" "req.body" reqBody) in
     let question := body "question"%string in
     let correctAnswer := body "correctAnswer"%string in
     let userAnswer := body "userAnswer"%string in
     let explanation := body "explanation"%string in
     let topic := body "topic"%string in
     if negb (JsValue.truthy question) || negb (JsValue.truthy correctAnswer)
     then
       badRequest "Question and correct answer are required"
     else
       let* shown := liftLib (JsValue.toStr
                               (JsValue.or topic (VStr (lit "general topic")))) in
       let* _ := emit (ConsoleLog
                   (Sign.robot ++
                    lit " Generating AI help for question about: " ++
                    shown)) in
       let* detailedHelp := getDetailedExplanation
                              {| Help.question := question;
                                 Help.correctAnswer := correctAnswer;
                                 Help.userAnswer := userAnswer;
                                 Help.explanation := explanation;
                                 Help.topic := topic |} in
       ret (SentData detailedHelp))
    (fun error => next error).

(** The handler of [POST /ai-chat]. *)
Definition postAiChat (reqBody : Value) : M (Reply Answer) :=
  tryCatch
    (let* body := liftLib (JsValue.destructure "question" "req.body" reqBody) in
     let question := body "question"%string in
     let correctAnswer := body "correctAnswer"%string in
     let chatHistory := body "chatHistory"%string in
     let userMessage := body "userMessage"%string in
     let topic := body "topic"%string in
     if negb (JsValue.truthy question) || negb (JsValue.truthy correctAnswer)
        || negb (JsValue.truthy userMessage)
     then
       badRequest "Question, correct answer, and user message are required"
     else
       let* start := liftLib
         (JsValue.substringOf "userMessage" 50 userMessage) in
       let* _ := emit (ConsoleLog
                   (Sign.bubble ++ lit " AI Chat: " ++ start ++ lit "...")) in
       let* response := chatWithTutor
                          {| Tutor.question := question;
                             Tutor.correctAnswer := correctAnswer;
                             Tutor.chatHistory := chatHistory;
                             Tutor.userMessage := userMessage;
                             Tutor.topic := topic |} in
       ret (SentData response))
    (fun error => next error).

End QuizGenerator.

(** A runtime for examples: the PDF decoder and the recognition engine
    reject every input, the text decoder reads ASCII, and the upload
    library lets pass the files that are not larger than the limit. *)
Definition asciiLibraries : Libraries := {|
  pdfParse := fun _ => inl (newError (lit "Invalid PDF structure"));
  recognize := fun _ => inl (newError (lit "Error attempting to read image."));
  utf8Decode := fun bytes => map Byte.to_N bytes;
  fitsLimit := fun limit data =>
    negb (Double.ltb limit (Double.ofN (N.of_nat (length data))))
|}.

(** * Vocabulary of the properties *)

Definition beginsWith (p : N -> bool) (s : jsstring) : bool :=
  match s with
  | [] => false
  | c :: _ => p c
  end.

Definition endsWith (p : N -> bool) (s : jsstring) : bool :=
  beginsWith p (rev s).

(** [s.includes(needle)] *)
Fixpoint includesStr (needle s : jsstring) : bool :=
  startsWith needle s ||
  match s with
  | [] => false
  | _ :: r => includesStr needle r
  end.

(** Neither the first nor the last character is white space. *)
Definition tight (s : jsstring) : Prop :=
  beginsWith isWhiteSpace s = false /\ endsWith isWhiteSpace s = false.

(** No tab, and no blank that is followed by a blank. *)
Fixpoint squeezed (s : jsstring) : bool :=
  match s with
  | [] => true
  | c :: r =>
      negb (c =? TAB) && negb (isBlank c && beginsWith isBlank r) &&
      squeezed r
  end.

Definition threeNewlines : jsstring := [LF; LF; LF].

Definition CR : N := 13.

(** ["a\r\n\r\n\r\nb"]: two blank lines with Windows line endings. *)
Definition crlfText : jsstring := lit "a" ++ [CR; LF; CR; LF; CR; LF] ++ lit "b".

(** ["a   b\n\n\n\nc"] *)
Definition spacedText : jsstring := lit "a   b" ++ [LF; LF; LF; LF] ++ lit "c".

(** ["a b\n\n\n\nc"] *)
Definition halfCleanedText : jsstring := lit "a b" ++ [LF; LF; LF; LF] ++ lit "c".

(** ["a b\n\nc"] *)
Definition cleanedText : jsstring := lit "a b" ++ [LF; LF] ++ lit "c".

(** ["  Hello   World  \n\n\n\nBye  "] *)
Definition helloText : jsstring :=
  lit "  Hello   World  " ++ [LF; LF; LF; LF] ++ lit "Bye  ".

(** ["Hello World\n\nBye"] *)
Definition helloCleaned : jsstring := lit "Hello World" ++ [LF; LF] ++ lit "Bye".

(** The events between two states of the world. *)
Definition since (w w' : World) : list Event :=
  drop (length (trace w)) (trace w').

Definition isUnlinkOf (p : jsstring) (ev : Event) : bool :=
  match ev with
  | FsUnlink q => strictEq q p
  | _ => false
  end.

Definition isRead (ev : Event) : bool :=
  match ev with
  | FsRead _ => true
  | _ => false
  end.

Definition withProtected (prot : gset jsstring) (w : World) : World :=
  {| files := files w; protected := prot; trace := trace w |}.

(** What [extractFromFile] makes of the outcome of the extractor it has
    selected: the clean-up of the file in both cases, and the cleaned
    content or the error as it was thrown. *)
Definition settle `{Libraries} (filePath : jsstring)
    (r : Outcome jsstring * World) : Outcome jsstring * World :=
  match r with
  | (Returned content, w) =>
      (Returned (cleanContent (Some content)), snd (cleanupFile filePath w))
  | (Thrown e, w) => (Thrown e, snd (cleanupFile filePath w))
  end.

(** The number of attempts to remove the file at [p] among some events. *)
Definition countUnlinks (p : jsstring) (t : list Event) : nat :=
  length (List.filter (isUnlinkOf p) t).

(** A computation that leaves the files as they are, attempts no removal,
    and whose outcome does not depend on which removals would be refused. *)
Definition readsOnly {A} (m : M A) : Prop :=
  forall w,
    files (snd (m w)) = files w /\
    protected (snd (m w)) = protected w /\
    (exists delta, trace (snd (m w)) = trace w ++ delta /\
                   forall q, countUnlinks q delta = 0%nat) /\
    (forall prot,
        fst (m (withProtected prot w)) = fst (m w) /\
        trace (snd (m (withProtected prot w))) = trace (snd (m w))).

Definition unsupported (mimeType : jsstring) : JsError :=
  newError (lit "Unsupported file type: " ++ mimeType).

Definition failure (msg : jsstring) : Json :=
  JObj [ ("success"%string, JBool false); ("error"%string, JStr msg) ].

Ltac run :=
  unfold extractFromFile, extractFromPDF, extractFromImage, extractFromText,
    cleanupFile, Fs.existsSync, Fs.unlinkSync, Fs.readFileSync, Fs.writeFile,
    settle, liftLib, tryCatch, bind, ret, throw, emit, getFiles,
    getProtected, setFiles in *;
  repeat (cbn [files protected trace fst snd path mimetype originalname] in *;
          try match goal with
              | H : ?x = _ |- context [match ?x with _ => _ end] =>
                  rewrite H
              | H : ?x = _ |- context [if ?x then _ else _] =>
                  rewrite H
              end).

Definition toBytes (s : jsstring) : list byte :=
  map (fun c => default x00 (Byte.of_N c)) s.

Definition notesPath : jsstring :=
  lit "/app/uploads/1700000000000-123456789-notes.txt".

(** A plain-text upload that holds ["  Hello   World  \n\n\n\nBye  "]. *)
Definition notesFile : MulterFile :=
  {| path := notesPath;
     mimetype := lit "text/plain";
     originalname := lit "notes.txt" |}.

Definition notesWorld : World :=
  {| files := {[ notesPath := toBytes helloText ]};
     protected := ∅;
     trace := [] |}.

(** The same world, where the removal of the upload is refused. *)
Definition lockedWorld : World := withProtected {[ notesPath ]} notesWorld.

(** The same bytes, declared as JSON. *)
Definition jsonFile : MulterFile :=
  {| path := notesPath;
     mimetype := lit "application/json";
     originalname := lit "notes.json" |}.

(** An error made by [new Error(msg)] with a message that is not empty. *)
Definition plainError (e : JsError) : Prop :=
  status e = None /\ message e <> [].

(** The body of the answer to an upload that went well. *)
Definition success (file : MulterFile) (extractedContent : jsstring) : Json :=
  JObj [ ("success"%string, JBool true);
         ("data"%string, JObj
           [ ("filename"%string, JStr (originalname file));
             ("fileType"%string, JStr (mimetype file));
             ("content"%string, JStr extractedContent);
             ("contentLength"%string, JNum (jsLength extractedContent)) ]) ].

(** The world when the handler of [POST /file] calls [extractFromFile]: it
    has announced the file on the console. *)
Definition announced (file : MulterFile) (w : World) : World :=
  snd (emit (ConsoleLog (Emoji.page ++ lit " Processing file: " ++
                         originalname file)) w).

(** An upload declared as PDF; the runtime of the examples cannot read
    it. *)
Definition pdfPart : Part :=
  {| partName := lit "notes.pdf";
     partType := lit "application/pdf";
     partData := toBytes helloText |}.

Definition storedPdf : MulterFile :=
  {| path := lit "/app/uploads/1700000000000-123456789-notes.pdf";
     mimetype := lit "application/pdf";
     originalname := lit "notes.pdf" |}.

Definition pdfFailure : JsError :=
  newError (lit "Failed to extract text from PDF: Invalid PDF structure").

Definition isSuccess (r : Response) : Prop :=
  code r = 200 /\
  exists data, body r = JObj [ ("success"%string, JBool true);
                               ("data"%string, data) ].

Definition isFailure (r : Response) : Prop :=
  400 <= code r /\ exists msg, body r = failure msg.

(** A request that carries the notes as plain text, and one that carries
    them as JSON. *)
Definition notesPart : Part :=
  {| partName := lit "notes.txt";
     partType := lit "text/plain";
     partData := toBytes helloText |}.

Definition jsonPart : Part :=
  {| partName := lit "notes.json";
     partType := lit "application/json";
     partData := toBytes helloText |}.

Definition requestOf (file : Part) : Request :=
  {| part := Some file; now := 1700000000000; rnd := 123456789 |}.

Definition defaultEnv : Env :=
  {| MAX_FILE_SIZE := None; uploadsDir := lit "/app/uploads" |}.

Definition emptyWorld : World :=
  {| files := ∅; protected := ∅; trace := [] |}.

(** The characters of a text that are not white space, in their order. *)
Definition visible (s : jsstring) : jsstring :=
  List.filter (fun c => negb (isWhiteSpace c)) s.

(** An event that is no access to a file other than [p], and no write. *)
Definition concerns (p : jsstring) (ev : Event) : Prop :=
  match ev with
  | FsRead q | FsExists q | FsUnlink q => q = p
  | FsWrite _ => False
  | ConsoleLog _ | ConsoleError _ _ => True
  end.

(** A computation whose accesses to the files are reads, tests and
    removals of the file at [p]. *)
Definition concernsOnly {A} (p : jsstring) (m : M A) : Prop :=
  forall w, exists delta,
    trace (snd (m w)) = trace w ++ delta /\ Forall (concerns p) delta.

(** A world that holds an upload declared as PDF. *)
Definition pdfWorld : World :=
  {| files := {[ path storedPdf := toBytes helloText ]};
     protected := ∅;
     trace := [] |}.

(** The decimal digits. *)
Definition isDigit (c : N) : bool := (48 <=? c) && (c <=? 57).

(** Where the upload middleware stores the file part of a request. *)
Definition storedPath (env : Env) (req : Request) (file : Part) : jsstring :=
  uploadsDir env ++ lit "/" ++ filename req file.

(** Whether the upload middleware accepts a file part. *)
Definition accepted `{Libraries} (env : Env) (file : Part) : bool :=
  includes allowedTypes (partType file) && withinLimit env file.

(** ** Vocabulary for the routes that read a body *)

(** A value that is a string with at least one character that is not
    white space. *)
Definition hasText (v : Value) : Prop :=
  exists s, v = VStr s /\ forallb isWhiteSpace s = false.

(** A value that is falsy, or a string of white space. *)
Definition isBlankText (v : Value) : Prop :=
  JsValue.truthy v = false \/
  exists s, v = VStr s /\ forallb isWhiteSpace s = true.

(** A value that is truthy and is no string. *)
Definition truthyNonString (v : Value) : Prop :=
  JsValue.truthy v = true /\ forall s, v <> VStr s.

(** The errors that the runtime throws. *)
Definition thrownByRuntime (e : JsError) : Prop :=
  e = TypeError.cannotConvert \/
  (exists callee, e = TypeError.notAFunction callee) \/
  (exists base property, e = TypeError.cannotRead base property) \/
  (exists property holder base,
     e = TypeError.cannotDestructure property holder base).

(** The answer to a request whose handler threw [e]: the error-handling
    middleware answers with status 500 and the message of the error. *)
Definition crashResponse (e : JsError) : Response :=
  {| code := 500; body := failure (message e) |}.

(** The world after the error-handling middleware has written [e] on the
    console. *)
Definition reported (e : JsError) (w : World) : World :=
  snd (emit (ConsoleError (lit "Error:") e) w).

(** The answers of refusal and of failure. *)
Definition badReply {D} (msg : jsstring) : Reply D :=
  Sent {| code := 400; body := failure msg |}.

Definition serverError {D} (msg : jsstring) : Reply D :=
  Sent {| code := 500; body := failure msg |}.

(** The two lines that a failure of the service leaves on the console:
    the one of the service, with the cause, and the one of the error
    middleware, with the error that the service made of it. *)
Definition failureLog (label prefix : jsstring) (cause : JsError)
    : list Event :=
  [ ConsoleError label cause;
    ConsoleError (lit "Error:") (newError (prefix ++ message cause)) ].

(** A handler that answers: with data; with a refusal that has no effect;
    with the failure of the service, status 500, whose message is the
    prefix of the service followed by the message of the cause; or with an
    error of the runtime, status 500 and the message of the error, which
    is the last line written on the console. *)
Definition answers {D} (label prefix : jsstring) (w : World)
    (res : Outcome (Reply D) * World) : Prop :=
  exists reply, fst res = Returned reply /\
    match reply with
    | SentData _ => True
    | Sent r =>
        (exists msg, r = {| code := 400; body := failure msg |} /\
                     snd res = w) \/
        (exists cause further,
           r = {| code := 500; body := failure (prefix ++ message cause) |} /\
           since w (snd res) = further ++ failureLog label prefix cause) \/
        (exists e further,
           thrownByRuntime e /\ r = crashResponse e /\
           since w (snd res) = further ++ [ConsoleError (lit "Error:") e])
    end.

(** A call of the service that fails: the cause is written on the console
    under the label of the service, and the error thrown is a new one whose
    message is the prefix of the service followed by the message of the
    cause. *)
Definition serviceFails {A} (label prefix : jsstring) (w : World)
    (res : Outcome A * World) : Prop :=
  exists cause,
    res = (Thrown (newError (prefix ++ message cause)),
           snd (emit (ConsoleError label cause) w)).

(** The same options with another content. *)
Definition withContent (content : jsstring) (o : Generate.Options)
    : Generate.Options :=
  {| Generate.content := content;
     Generate.numberOfQuestions := Generate.numberOfQuestions o;
     Generate.difficulty := Generate.difficulty o;
     Generate.questionTypes := Generate.questionTypes o;
     Generate.specificTopics := Generate.specificTopics o;
     Generate.prioritizeImportant := Generate.prioritizeImportant o |}.

(** The fields of a request to [POST /generate], with the values that
    stand for the absent ones. *)
Definition askedNumber (reqBody : Value) : Value :=
  JsValue.orDefault (JsValue.get "numberOfQuestions" reqBody)
                    (VNum (Double.ofZ 10)).

Definition askedDifficulty (reqBody : Value) : Value :=
  JsValue.orDefault (JsValue.get "difficulty" reqBody) (VStr (lit "medium")).

Definition askedTypes (reqBody : Value) : Value :=
  JsValue.orDefault (JsValue.get "questionTypes" reqBody)
                    (VArr [VStr (lit "multiple-choice")]).

Definition askedTopics (reqBody : Value) : Value :=
  JsValue.orDefault (JsValue.get "specificTopics" reqBody) (VArr []).

Definition askedPriority (reqBody : Value) : Value :=
  JsValue.orDefault (JsValue.get "prioritizeImportant" reqBody) (VBool true).

(** A number that is neither below 1 nor above 30: a number from 1 to 30,
    or [NaN]. *)
Definition notOutside (x : Double.number) : Prop :=
  Double.ltb x (Double.ofZ 1) = false /\ Double.ltb (Double.ofZ 30) x = false.

(** A request for a quiz that passes the checks of the route: its content
    has text, its number of questions converts to a number that is not
    outside 1..30, its difficulty is one of the three, and its question
    types are an array of known types. *)
Definition passes `{Engine} (reqBody : Value) : Prop :=
  JsValue.nullish reqBody = false /\
  hasText (JsValue.get "content" reqBody) /\
  (exists x, JsValue.toNumber (askedNumber reqBody) = inr x /\ notOutside x) /\
  JsValue.includedIn validDifficulties (askedDifficulty reqBody) = true /\
  exists types,
    askedTypes reqBody = VArr types /\
    Forall (fun type => JsValue.includedIn validQuestionTypes type = true)
           types.

(** The options that [POST /generate] hands to the service. *)
Definition optionsOf (reqBody : Value) : Generate.Options :=
  {| Generate.content := JsValue.text (JsValue.get "content" reqBody);
     Generate.numberOfQuestions := askedNumber reqBody;
     Generate.difficulty := JsValue.text (askedDifficulty reqBody);
     Generate.questionTypes :=
       match askedTypes reqBody with
       | VArr types => map JsValue.text types
       | _ => []
       end;
     Generate.specificTopics := askedTopics reqBody;
     Generate.prioritizeImportant := askedPriority reqBody |}.

(** The quiz is the parsed answer of the model, and [count] the number of
    its questions, for a request that holds the system prompt and the user
    prompt and asks for a JSON object. *)
Definition generated `{Assistant} (userPrompt : jsstring) (quiz : Parsed)
    (count : Counted) : Prop :=
  exists request answer,
    Chat.messages request =
      [ {| Chat.role := VStr (lit "system");
           Chat.content := VStr buildSystemPrompt |};
        {| Chat.role := VStr (lit "user");
           Chat.content := VStr userPrompt |} ] /\
    Chat.response_format request = Some (lit "json_object") /\
    createCompletion request = inr answer /\
    jsonParse answer = inr quiz /\
    countQuestions quiz = inr count.

(** A model for examples: it answers with the content of the last message
    it is sent, every answer parses to itself and holds no question. *)
Definition echoAssistant : Assistant := {|
  Answer := Value;
  Parsed := Value;
  Counted := N;
  createCompletion := fun r =>
    inr (from_option Chat.content VNull (last (Chat.messages r)));
  jsonParse := fun a => inr a;
  countQuestions := fun _ => inr 0;
  showCounted := decimal;
  toUpperCase := fun s => s
|}.

(** A model that is out of service: its client fails with status 429. *)
Definition busyAssistant : Assistant := {|
  Answer := Value;
  Parsed := Value;
  Counted := N;
  createCompletion := fun _ =>
    inl {| message := lit "Rate limit exceeded"; status := Some 429 |};
  jsonParse := fun a => inr a;
  countQuestions := fun _ => inr 0;
  showCounted := decimal;
  toUpperCase := fun s => s
|}.

(** A runtime for examples: it reads the strings of decimal digits as the
    numbers they denote and every other string as [NaN], and prints the
    numbers that are no small integers as a question mark. *)
Definition digitsEngine : Engine := {|
  stringToNumber := fun s =>
    if forallb isDigit s && negb (length s =? 0)%nat
    then Js.parseInt s else Double.NaN;
  formatNumber := fun _ => lit "?"
|}.

(** The body of a request with these properties. *)
Definition bodyOf (fields : list (string * Value)) : Value :=
  VObj (map (fun field => (lit (fst field), snd field)) fields).

(** A body that holds a content and nothing else. *)
Definition onlyContent (content : jsstring) : Value :=
  bodyOf [ ("content"%string, VStr content) ].

(** Induction on values: what holds of the elements of an array, whenever
    it is to be shown of the array. *)
Section ValueInduction.
Variable P : Value -> Prop.
Hypothesis Hundefined : P VUndefined.
Hypothesis Hnull : P VNull.
Hypothesis Hbool : forall b, P (VBool b).
Hypothesis Hnum : forall x, P (VNum x).
Hypothesis Hstr : forall s, P (VStr s).
Hypothesis Harr : forall items, Forall P items -> P (VArr items).
Hypothesis Hobj : forall fields, P (VObj fields).

Fixpoint value_ind (v : Value) : P v :=
  match v with
  | VUndefined => Hundefined
  | VNull => Hnull
  | VBool b => Hbool b
  | VNum x => Hnum x
  | VStr s => Hstr s
  | VArr items =>
      Harr items
        ((fix all (l : list Value) : Forall P l :=
            match l with
            | [] => @List.Forall_nil _ P
            | item :: rest =>
                @List.Forall_cons _ P item rest (value_ind item) (all rest)
            end) items)
  | VObj fields => Hobj fields
  end.

End ValueInduction.

(** * Properties *)

(** ** Strings *)

Section DropWhile.
Variable p : N -> bool.

Lemma dropWhile_app_stop l a t :
  p a = false -> dropWhile p (l ++ a :: t) = dropWhile p l ++ a :: t.
Proof.
  intros Ha. induction l as [|c l IH]; simpl.
  - now rewrite Ha.
  - destruct (p c); [exact IH | reflexivity].
Qed.

Lemma dropWhile_suffix s : exists u, s = u ++ dropWhile p s.
Proof.
  induction s as [|c r [u Hu]]; simpl.
  - now exists [].
  - destruct (p c).
    + exists (c :: u). simpl. now f_equal.
    + now exists [].
Qed.

Lemma dropWhile_begins s : beginsWith p (dropWhile p s) = false.
Proof.
  induction s as [|c r IH]; simpl; [reflexivity|].
  destruct (p c) eqn:E; [exact IH | simpl; exact E].
Qed.

Lemma dropWhile_id s : beginsWith p s = false -> dropWhile p s = s.
Proof. destruct s as [|c r]; simpl; [reflexivity|]. now intros ->. Qed.
End DropWhile.

Lemma trimEnd_app_stop l a t :
  isWhiteSpace a = false -> trimEnd (l ++ a :: t) = l ++ a :: trimEnd t.
Proof.
  intros Ha. unfold trimEnd.
  rewrite rev_app_distr. simpl. rewrite <- app_assoc. simpl.
  rewrite dropWhile_app_stop by exact Ha.
  rewrite rev_app_distr. simpl. now rewrite rev_involutive, <- app_assoc.
Qed.

Lemma trimEnd_prefix s : exists v, s = trimEnd s ++ v.
Proof.
  unfold trimEnd. destruct (dropWhile_suffix isWhiteSpace (rev s)) as [u Hu].
  exists (rev u). rewrite <- rev_app_distr, <- Hu. now rewrite rev_involutive.
Qed.

Lemma trimEnd_ends s : endsWith isWhiteSpace (trimEnd s) = false.
Proof.
  unfold endsWith, trimEnd. rewrite rev_involutive. apply dropWhile_begins.
Qed.

Lemma trimEnd_id s : endsWith isWhiteSpace s = false -> trimEnd s = s.
Proof.
  unfold endsWith, trimEnd. intros H.
  rewrite dropWhile_id by exact H. apply rev_involutive.
Qed.

Lemma trimEnd_begins s :
  beginsWith isWhiteSpace s = false ->
  beginsWith isWhiteSpace (trimEnd s) = false.
Proof.
  destruct s as [|c r]; [intros _; reflexivity|]. simpl. intros Hc.
  change (c :: r) with ([] ++ c :: r). rewrite trimEnd_app_stop by exact Hc.
  exact Hc.
Qed.

Lemma trim_tight s : tight (trim s).
Proof.
  split.
  - apply trimEnd_begins, dropWhile_begins.
  - apply trimEnd_ends.
Qed.

Lemma tight_trim s : tight s -> trim s = s.
Proof.
  intros [Hb He]. unfold trim, trimStart.
  rewrite dropWhile_id by exact Hb. now apply trimEnd_id.
Qed.

Lemma trim_infix s : exists u v, s = u ++ trim s ++ v.
Proof.
  unfold trim, trimStart.
  destruct (dropWhile_suffix isWhiteSpace s) as [u Hu].
  destruct (trimEnd_prefix (dropWhile isWhiteSpace s)) as [v Hv].
  exists u, v. now rewrite <- Hv.
Qed.

(** ** Lines *)

Lemma split_cons_sep sep r : split sep (sep :: r) = [] :: split sep r.
Proof. simpl. now rewrite N.eqb_refl. Qed.

Lemma split_not_nil sep s : split sep s <> [].
Proof.
  destruct s as [|c r]; simpl; [discriminate|].
  destruct (c =? sep); [discriminate|].
  destruct (split sep r); discriminate.
Qed.

Lemma split_cons_other sep c r :
  (c =? sep) = false ->
  exists h t, split sep r = h :: t /\ split sep (c :: r) = (c :: h) :: t.
Proof.
  intros Hc. simpl. rewrite Hc.
  destruct (split sep r) as [|h t] eqn:E.
  - now apply split_not_nil in E.
  - now exists h, t.
Qed.

Lemma split_app_sep sep u v :
  split sep (u ++ sep :: v) = split sep u ++ split sep v.
Proof.
  induction u as [|c u IH].
  - simpl. now rewrite N.eqb_refl.
  - simpl. destruct (c =? sep); [now rewrite IH|].
    rewrite IH. destruct (split sep u) as [|h t] eqn:E; [|reflexivity].
    now apply split_not_nil in E.
Qed.

Lemma split_no_sep sep s : ~ In sep s -> split sep s = [s].
Proof.
  induction s as [|c r IH]; [reflexivity|].
  intros Hn. simpl.
  destruct (N.eqb_spec c sep) as [->|Hne].
  - exfalso. apply Hn. now left.
  - rewrite IH; [reflexivity|]. intros Hin. apply Hn. now right.
Qed.

Lemma split_pieces_no_sep sep s : Forall (fun l => ~ In sep l) (split sep s).
Proof.
  induction s as [|c r IH]; simpl.
  - constructor; [intros []|constructor].
  - destruct (N.eqb_spec c sep) as [->|Hne].
    + constructor; [intros []|exact IH].
    + destruct (split sep r) as [|h t]; [repeat constructor; intros [?|[]]; congruence|].
      inversion IH as [|? ? Hh Ht]; subst. constructor; [|exact Ht].
      intros [?|?]; [congruence|contradiction].
Qed.

Lemma join_cons sep l h t :
  join sep (l :: h :: t) = l ++ sep ++ join sep (h :: t).
Proof. reflexivity. Qed.

Lemma join_split sep s : join [sep] (split sep s) = s.
Proof.
  induction s as [|c r IH]; [reflexivity|].
  simpl split. destruct (c =? sep) eqn:Hc.
  - apply N.eqb_eq in Hc. subst c.
    destruct (split sep r) as [|h t] eqn:E; [now apply split_not_nil in E|].
    rewrite join_cons, IH. reflexivity.
  - destruct (split sep r) as [|h t] eqn:E; [now apply split_not_nil in E|].
    destruct t as [|h' t'].
    + simpl in *. now subst.
    + rewrite join_cons in *. simpl. now rewrite <- IH.
Qed.

Lemma split_join sep ls :
  ls <> [] -> Forall (fun l => ~ In sep l) ls ->
  split sep (join [sep] ls) = ls.
Proof.
  induction ls as [|l rest IH]; [congruence|].
  intros _ Hall. inversion Hall as [|? ? Hl Hrest]; subst.
  destruct rest as [|h t].
  - simpl. now apply split_no_sep.
  - rewrite join_cons.
    change ([sep] ++ join [sep] (h :: t)) with (sep :: join [sep] (h :: t)).
    rewrite split_app_sep, split_no_sep by exact Hl.
    rewrite IH; [reflexivity|discriminate|exact Hrest].
Qed.

Lemma join_app sep a b :
  a <> [] -> b <> [] -> join sep (a ++ b) = join sep a ++ sep ++ join sep b.
Proof.
  intros Ha Hb. induction a as [|l rest IH]; [congruence|].
  destruct rest as [|h t].
  - simpl. destruct b; [congruence|reflexivity].
  - change ((l :: h :: t) ++ b) with (l :: (h :: t) ++ b).
    change ((h :: t) ++ b) with (h :: t ++ b) at 1.
    rewrite join_cons. change (h :: t ++ b) with ((h :: t) ++ b).
    rewrite IH by discriminate. rewrite join_cons.
    now rewrite <- !app_assoc.
Qed.

Lemma join_rev sep ls :
  rev (join sep ls) = join (rev sep) (map (@rev N) (rev ls)).
Proof.
  induction ls as [|l rest IH]; [reflexivity|].
  destruct rest as [|h t]; [reflexivity|].
  rewrite join_cons, !rev_app_distr, IH.
  change (rev (l :: h :: t)) with (rev (h :: t) ++ [l]).
  rewrite map_app. rewrite join_app.
  - simpl. now rewrite <- app_assoc.
  - simpl. destruct (rev t); discriminate.
  - discriminate.
Qed.

Lemma tight_nil : tight [].
Proof. split; reflexivity. Qed.

Lemma tight_rev l : tight l -> tight (rev l).
Proof.
  intros [Hb He]. split.
  - exact He.
  - unfold endsWith. now rewrite rev_involutive.
Qed.

(** Trimming a text whose lines are tight removes empty lines only. *)
Lemma trimStart_join ls :
  Forall tight ls ->
  exists ls', trimStart (join nl ls) = join nl ls' /\ ls' <> [] /\
              forall l, In l ls' -> In l ls \/ l = [].
Proof.
  induction ls as [|l rest IH]; intros Hall.
  - exists [[]]. repeat split; [discriminate|]. intros l [<-|[]]. now right.
  - inversion Hall as [|? ? Hl Hrest]; subst.
    destruct rest as [|h t].
    + exists [l]. simpl. split; [|split; [discriminate|now left]].
      apply dropWhile_id, Hl.
    + destruct l as [|c l'].
      * destruct (IH Hrest) as (ls' & Heq & Hne & Hin).
        exists ls'. split; [|split; [exact Hne|]].
        -- rewrite join_cons. exact Heq.
        -- intros l Hl'. destruct (Hin l Hl') as [?|?]; [left; now right|now right].
      * exists ((c :: l') :: h :: t). split; [|split; [discriminate|now left]].
        apply dropWhile_id. rewrite join_cons. apply Hl.
Qed.

Lemma trimEnd_join ls :
  Forall tight ls ->
  exists ls', trimEnd (join nl ls) = join nl ls' /\ ls' <> [] /\
              forall l, In l ls' -> In l ls \/ l = [].
Proof.
  intros Hall.
  assert (Hrev : Forall tight (map (@rev N) (rev ls))).
  { apply List.Forall_forall. intros l Hl. apply in_map_iff in Hl.
    destruct Hl as (l0 & <- & Hl0). apply tight_rev.
    rewrite List.Forall_forall in Hall. apply Hall. now apply in_rev. }
  destruct (trimStart_join _ Hrev) as (ls1 & Heq & Hne & Hin).
  exists (map (@rev N) (rev ls1)). split; [|split].
  - unfold trimEnd. rewrite join_rev. change (rev nl) with nl.
    unfold trimStart in Heq. rewrite Heq, join_rev. reflexivity.
  - destruct ls1 as [|a b]; [congruence|]. simpl. rewrite map_app. simpl.
    destruct (map _ (rev b)); discriminate.
  - intros l Hl. apply in_map_iff in Hl. destruct Hl as (l1 & <- & Hl1).
    apply in_rev in Hl1. destruct (Hin l1 Hl1) as [Hm| ->]; [|now right].
    apply in_map_iff in Hm. destruct Hm as (l0 & <- & Hl0).
    left. rewrite rev_involutive. now apply in_rev.
Qed.

Lemma trim_join ls :
  Forall tight ls ->
  exists ls', trim (join nl ls) = join nl ls' /\ ls' <> [] /\
              forall l, In l ls' -> In l ls \/ l = [].
Proof.
  intros Hall. unfold trim.
  destruct (trimStart_join ls Hall) as (ls1 & Heq1 & Hne1 & Hin1).
  assert (Hall1 : Forall tight ls1).
  { apply List.Forall_forall. intros l Hl. destruct (Hin1 l Hl) as [?| ->].
    - rewrite List.Forall_forall in Hall. now apply Hall.
    - apply tight_nil. }
  destruct (trimEnd_join ls1 Hall1) as (ls2 & Heq2 & Hne2 & Hin2).
  exists ls2. rewrite Heq1. split; [exact Heq2|split; [exact Hne2|]].
  intros l Hl. destruct (Hin2 l Hl) as [?| ->]; [now apply Hin1|now right].
Qed.

(** The lines of a trimmed text whose lines were tight are tight. *)
Lemma split_trim_join (Q : jsstring -> Prop) ls :
  Q [] -> Forall Q ls -> Forall tight ls -> Forall (fun l => ~ In LF l) ls ->
  Forall Q (split LF (trim (join nl ls))).
Proof.
  intros Hnil HQ Ht Hn.
  destruct (trim_join ls Ht) as (ls' & Heq & Hne & Hin).
  rewrite Heq. unfold nl. rewrite split_join.
  - apply List.Forall_forall. intros l Hl. destruct (Hin l Hl) as [?| ->]; [|exact Hnil].
    rewrite List.Forall_forall in HQ. now apply HQ.
  - exact Hne.
  - apply List.Forall_forall. intros l Hl. destruct (Hin l Hl) as [?| ->]; [|intros []].
    rewrite List.Forall_forall in Hn. now apply Hn.
Qed.

(** ** Replacement of runs *)

Section Runs.
Variables (cls : N -> bool) (min : nat) (repl : jsstring).

Lemma replaceRunsFrom_stop run u c v :
  cls c = false ->
  replaceRunsFrom cls min repl run (u ++ c :: v) =
  replaceRunsFrom cls min repl run u ++
  c :: replaceRunsFrom cls min repl [] v.
Proof.
  intros Hc. revert run. induction u as [|a u IH]; intros run; simpl.
  - now rewrite Hc.
  - destruct (cls a); [apply IH|].
    rewrite IH, <- app_assoc. reflexivity.
Qed.

Lemma replaceRunsFrom_class run s :
  forallb cls s = true ->
  replaceRunsFrom cls min repl run s = flushRun min repl (run ++ s).
Proof.
  revert run. induction s as [|a s IH]; intros run; simpl.
  - now rewrite app_nil_r.
  - intros H. apply andb_prop in H. destruct H as [Ha Hs].
    rewrite Ha, IH by exact Hs. now rewrite <- app_assoc.
Qed.

(** A character outside the class separates the matches on its left from
    the matches on its right. *)
Lemma replaceRuns_stop u c v :
  cls c = false ->
  replaceRuns cls min repl (u ++ c :: v) =
  replaceRuns cls min repl u ++ c :: replaceRuns cls min repl v.
Proof. apply replaceRunsFrom_stop. Qed.

Lemma replaceRuns_class run :
  forallb cls run = true ->
  replaceRuns cls min repl run = flushRun min repl run.
Proof. intros H. unfold replaceRuns. now rewrite replaceRunsFrom_class. Qed.

Lemma replaceRuns_run run c rest :
  forallb cls run = true -> cls c = false ->
  replaceRuns cls min repl (run ++ c :: rest) =
  flushRun min repl run ++ c :: replaceRuns cls min repl rest.
Proof.
  intros Hr Hc. now rewrite replaceRuns_stop, replaceRuns_class.
Qed.

(** Induction on a string read as runs of class characters, each closed
    by a character outside the class or by the end of the string. *)
Lemma run_ind (P : jsstring -> Prop) :
  (forall run, forallb cls run = true -> P run) ->
  (forall run c rest,
      forallb cls run = true -> cls c = false -> P rest ->
      P (run ++ c :: rest)) ->
  forall s, P s.
Proof.
  intros Hend Hstep s.
  enough (H : forall run, forallb cls run = true -> P (run ++ s))
    by exact (H [] eq_refl).
  induction s as [|a s IH]; intros run Hrun.
  - rewrite app_nil_r. now apply Hend.
  - destruct (cls a) eqn:Ha.
    + change (a :: s) with ([a] ++ s). rewrite app_assoc. apply IH.
      rewrite forallb_app, Hrun. simpl. now rewrite Ha.
    + apply Hstep; [exact Hrun|exact Ha|]. exact (IH [] eq_refl).
Qed.
End Runs.

(** ** Blanks *)

Lemma squeezed_tail c r : squeezed (c :: r) = true -> squeezed r = true.
Proof. simpl. intros H. now apply andb_prop in H. Qed.

Lemma squeezed_app_stop u c v :
  isBlank c = false -> squeezed (u ++ c :: v) = squeezed u && squeezed v.
Proof.
  intros Hc.
  assert (Ht : (c =? TAB) = false).
  { unfold isBlank in Hc. now apply orb_false_elim in Hc. }
  induction u as [|a u IH].
  - simpl. now rewrite Ht, Hc.
  - change ((a :: u) ++ c :: v) with (a :: (u ++ c :: v)).
    cbn [squeezed]. rewrite IH.
    replace (beginsWith isBlank (u ++ c :: v)) with (beginsWith isBlank u).
    + now rewrite andb_assoc.
    + destruct u; simpl; [now rewrite Hc|reflexivity].
Qed.

Lemma squeezed_app_r u v : squeezed (u ++ v) = true -> squeezed v = true.
Proof.
  induction u as [|a u IH]; [trivial|].
  intros H. apply IH. now apply squeezed_tail in H.
Qed.

Lemma squeezed_app_l u v : squeezed (u ++ v) = true -> squeezed u = true.
Proof.
  induction u as [|a u IH]; [reflexivity|].
  change ((a :: u) ++ v) with (a :: (u ++ v)). cbn [squeezed].
  intros H. apply andb_prop in H. destruct H as [H Hs].
  apply andb_prop in H. destruct H as [Ht Hb].
  rewrite Ht, (IH Hs), !andb_true_r. simpl.
  destruct u as [|b u]; simpl in *; [now rewrite andb_false_r|exact Hb].
Qed.

Lemma squeezed_blank_run run :
  forallb isBlank run = true -> squeezed run = true ->
  run = [] \/ run = [SP].
Proof.
  destruct run as [|a [|b run]]; [now left| |].
  - simpl. intros Ha Hs. right.
    rewrite andb_true_r in Ha. unfold isBlank in Ha.
    apply orb_prop in Ha. destruct Ha as [Ha|Ha]; apply N.eqb_eq in Ha; subst a;
      [reflexivity|discriminate Hs].
  - cbn [forallb squeezed beginsWith]. intros Hall Hs. exfalso.
    apply andb_prop in Hall. destruct Hall as [Ha Hall].
    apply andb_prop in Hall. destruct Hall as [Hb _].
    rewrite Ha, Hb in Hs. simpl in Hs. now rewrite andb_false_r in Hs.
Qed.

Lemma squeezed_collapseBlanks s : squeezed (collapseBlanks s) = true.
Proof.
  unfold collapseBlanks. induction s as [run Hrun|run c rest Hrun Hc IH]
    using (run_ind isBlank).
  - rewrite replaceRuns_class by exact Hrun.
    destruct run; reflexivity.
  - rewrite replaceRuns_run by assumption.
    rewrite squeezed_app_stop, IH by exact Hc.
    destruct run; reflexivity.
Qed.

Lemma collapseBlanks_id s : squeezed s = true -> collapseBlanks s = s.
Proof.
  unfold collapseBlanks. induction s as [run Hrun|run c rest Hrun Hc IH]
    using (run_ind isBlank); intros Hs.
  - rewrite replaceRuns_class by exact Hrun.
    destruct (squeezed_blank_run run Hrun Hs) as [->| ->]; reflexivity.
  - rewrite replaceRuns_run by assumption.
    rewrite squeezed_app_stop in Hs by exact Hc.
    apply andb_prop in Hs. destruct Hs as [Hs1 Hs2].
    rewrite (IH Hs2).
    destruct (squeezed_blank_run run Hrun Hs1) as [->| ->]; reflexivity.
Qed.

(** ** Newlines *)

Lemma newline_not_blank c : isNewline c = true -> isBlank c = false.
Proof. unfold isNewline. intros H. apply N.eqb_eq in H. now subst c. Qed.

Lemma squeezed_newlines run s :
  forallb isNewline run = true -> squeezed (run ++ s) = squeezed s.
Proof.
  intros H. induction run as [|a run IH]; [reflexivity|].
  simpl in H. apply andb_prop in H. destruct H as [Ha Hrun].
  change ((a :: run) ++ s) with ([] ++ a :: (run ++ s)).
  rewrite squeezed_app_stop by now apply newline_not_blank.
  now apply IH.
Qed.

Lemma begins_newlines run s :
  forallb isNewline run = true ->
  beginsWith isBlank (run ++ s) =
  match run with [] => beginsWith isBlank s | _ :: _ => false end.
Proof.
  destruct run as [|a run]; [reflexivity|]. simpl. intros H.
  apply andb_prop in H. now apply newline_not_blank.
Qed.

Lemma flushRun_newlines run :
  forallb isNewline run = true ->
  forallb isNewline (flushRun 3 [LF; LF] run) = true /\
  (flushRun 3 [LF; LF] run = [] <-> run = []).
Proof.
  intros H. unfold flushRun.
  destruct run as [|a [|b [|c run]]]; simpl; (split; [try exact H; reflexivity|]);
    split; congruence.
Qed.

Lemma collapseNewlines_blanks s :
  (squeezed s = true -> squeezed (collapseNewlines s) = true) /\
  beginsWith isBlank (collapseNewlines s) = beginsWith isBlank s.
Proof.
  unfold collapseNewlines. induction s as [run Hrun|run c rest Hrun Hc IH]
    using (run_ind isNewline).
  - rewrite replaceRuns_class by exact Hrun.
    destruct (flushRun_newlines run Hrun) as [Hf Hnil]. split.
    + intros _. pose proof (squeezed_newlines _ [] Hf) as H.
      now rewrite app_nil_r in H.
    + pose proof (begins_newlines _ [] Hf) as H1.
      pose proof (begins_newlines _ [] Hrun) as H2.
      rewrite app_nil_r in H1, H2. rewrite H1, H2.
      destruct run, (flushRun 3 [LF; LF] _) eqn:E; try reflexivity.
  - rewrite replaceRuns_run by assumption.
    destruct (flushRun_newlines run Hrun) as [Hf Hnil].
    destruct IH as [IHs IHb]. split.
    + rewrite !squeezed_newlines by assumption.
      cbn [squeezed]. rewrite IHb. intros H.
      apply andb_prop in H. destruct H as [H Hs]. rewrite H. now apply IHs.
    + rewrite !begins_newlines by assumption.
      destruct run, (flushRun 3 [LF; LF] _) eqn:E; try reflexivity.
      all: first [discriminate E
                 |destruct Hnil as [Hn1 _]; discriminate (Hn1 eq_refl)].
Qed.

Lemma squeezed_collapseNewlines s :
  squeezed s = true -> squeezed (collapseNewlines s) = true.
Proof. apply collapseNewlines_blanks. Qed.

Lemma includesStr_app_r needle u v :
  includesStr needle (u ++ v) = false -> includesStr needle v = false.
Proof.
  induction u as [|a u IH]; [trivial|].
  simpl. intros H. apply orb_false_elim in H. now apply IH.
Qed.

Lemma newline_run_short run s :
  forallb isNewline run = true ->
  includesStr threeNewlines (run ++ s) = false -> (length run < 3)%nat.
Proof.
  destruct run as [|a [|b [|c run]]]; simpl; try lia.
  unfold isNewline. intros H.
  apply andb_prop in H. destruct H as [Ha H].
  apply andb_prop in H. destruct H as [Hb H].
  apply andb_prop in H. destruct H as [Hc _].
  apply N.eqb_eq in Ha, Hb, Hc. subst. discriminate.
Qed.

Lemma collapseNewlines_id s :
  includesStr threeNewlines s = false -> collapseNewlines s = s.
Proof.
  unfold collapseNewlines. induction s as [run Hrun|run c rest Hrun Hc IH]
    using (run_ind isNewline); intros Hs.
  - rewrite replaceRuns_class by exact Hrun.
    rewrite <- (app_nil_r run) in Hs. apply newline_run_short in Hs; [|exact Hrun].
    unfold flushRun. destruct (Nat.leb_spec 3 (length run)); [lia|reflexivity].
  - rewrite replaceRuns_run by assumption.
    pose proof (newline_run_short _ _ Hrun Hs) as Hlen.
    apply includesStr_app_r in Hs. simpl in Hs. apply orb_false_elim in Hs.
    destruct Hs as [_ Hs]. rewrite (IH Hs).
    unfold flushRun. destruct (Nat.leb_spec 3 (length run)); [lia|reflexivity].
Qed.

(** ** What the clean-up establishes *)

Lemma squeezed_split s :
  squeezed s = true -> Forall (fun l => squeezed l = true) (split LF s).
Proof.
  induction s as [|c r IH]; intros Hs.
  - repeat constructor.
  - pose proof (squeezed_tail _ _ Hs) as Hr.
    destruct (c =? LF) eqn:Hc.
    + apply N.eqb_eq in Hc. subst c. rewrite split_cons_sep.
      constructor; [reflexivity|now apply IH].
    + destruct (split_cons_other LF c r Hc) as (h & t & Er & Ec).
      rewrite Ec. specialize (IH Hr). rewrite Er in IH.
      inversion IH as [|? ? _ Ht]; subst. constructor; [|exact Ht].
      pose proof (join_split LF r) as Hj. rewrite Er in Hj.
      destruct t as [|h' t'].
      * simpl in Hj. now subst.
      * rewrite join_cons in Hj. rewrite <- Hj in Hs.
        change (c :: h ++ ?x) with ((c :: h) ++ x) in Hs.
        now apply squeezed_app_l in Hs.
Qed.

Lemma squeezed_join ls :
  Forall (fun l => squeezed l = true) ls -> squeezed (join nl ls) = true.
Proof.
  induction ls as [|l rest IH]; [reflexivity|].
  intros Hall. inversion Hall as [|? ? Hl Hrest]; subst.
  destruct rest as [|h t]; [exact Hl|].
  rewrite join_cons. change (nl ++ ?x) with (LF :: x).
  rewrite squeezed_app_stop by reflexivity. rewrite Hl. now apply IH.
Qed.

Lemma squeezed_trim s : squeezed s = true -> squeezed (trim s) = true.
Proof.
  intros Hs. destruct (trim_infix s) as (u & v & E). rewrite E in Hs.
  apply squeezed_app_r in Hs. now apply squeezed_app_l in Hs.
Qed.

Lemma trim_keeps_out c s : ~ In c s -> ~ In c (trim s).
Proof.
  intros Hn Hin. apply Hn. destruct (trim_infix s) as (u & v & E).
  rewrite E. apply in_or_app. right. apply in_or_app. now left.
Qed.

Lemma squeezed_no_tab s : squeezed s = true -> ~ In TAB s.
Proof.
  induction s as [|c r IH]; [intros _ []|].
  intros Hs [->|Hin]; [discriminate Hs|].
  now apply IH; [apply (squeezed_tail c)|].
Qed.

Lemma squeezed_no_double_space s :
  squeezed s = true -> forall u v, s <> u ++ SP :: SP :: v.
Proof.
  intros Hs u v ->. apply squeezed_app_r in Hs. discriminate Hs.
Qed.

Lemma blank_is_white c : isBlank c = true -> isWhiteSpace c = true.
Proof.
  unfold isBlank. intros H. apply orb_prop in H.
  destruct H as [H|H]; apply N.eqb_eq in H; now subst c.
Qed.

Lemma begins_blank_white s :
  beginsWith isWhiteSpace s = false -> beginsWith isBlank s = false.
Proof.
  destruct s as [|c r]; [trivial|]. simpl. intros H.
  destruct (isBlank c) eqn:E; [|reflexivity].
  apply blank_is_white in E. congruence.
Qed.

Lemma trimmed_lines s : Forall tight (map trim (split LF s)).
Proof.
  apply List.Forall_forall. intros l Hl. apply in_map_iff in Hl.
  destruct Hl as (l0 & <- & _). apply trim_tight.
Qed.

Lemma normalizeText_squeezed s : squeezed (normalizeText s) = true.
Proof.
  unfold normalizeText, trimLines.
  apply squeezed_trim, squeezed_join, List.Forall_forall.
  intros l Hl. apply in_map_iff in Hl. destruct Hl as (l0 & <- & Hl0).
  apply squeezed_trim.
  pose proof (squeezed_split _
    (squeezed_collapseNewlines _ (squeezed_collapseBlanks s))) as Hall.
  rewrite List.Forall_forall in Hall. now apply Hall.
Qed.

Lemma normalizeText_tight s : tight (normalizeText s).
Proof. apply trim_tight. Qed.

Lemma normalizeText_lines s : Forall tight (split LF (normalizeText s)).
Proof.
  unfold normalizeText, trimLines.
  apply split_trim_join.
  - apply tight_nil.
  - apply trimmed_lines.
  - apply trimmed_lines.
  - apply List.Forall_forall. intros l Hl. apply in_map_iff in Hl.
    destruct Hl as (l0 & <- & Hl0). apply trim_keeps_out.
    pose proof (split_pieces_no_sep LF
      (collapseNewlines (collapseBlanks s))) as Hall.
    rewrite List.Forall_forall in Hall. now apply Hall.
Qed.

Lemma trimLines_id s : Forall tight (split LF s) -> trimLines s = s.
Proof.
  intros Hall. unfold trimLines.
  replace (map trim (split LF s)) with (split LF s).
  - apply join_split.
  - induction Hall as [|l ls Hl _ IH]; [reflexivity|].
    simpl. now rewrite tight_trim, <- IH.
Qed.

(** A second pass over a cleaned text changes nothing when the collapse of
    newlines changes nothing. *)
Lemma normalizeText_fixed s :
  collapseNewlines (normalizeText s) = normalizeText s ->
  normalizeText (normalizeText s) = normalizeText s.
Proof.
  intros Hcn. unfold normalizeText at 1.
  rewrite collapseBlanks_id by apply normalizeText_squeezed.
  rewrite Hcn.
  rewrite trimLines_id by apply normalizeText_lines.
  apply tight_trim, normalizeText_tight.
Qed.

Lemma cleanContent_normalizeText content :
  cleanContent content = normalizeText (default [] content).
Proof. destruct content as [[|c s]|]; reflexivity. Qed.

Lemma cleanContent_Some s : cleanContent (Some s) = normalizeText s.
Proof. apply (cleanContent_normalizeText (Some s)). Qed.

(** ** The second pass *)

Lemma split_newlines run s :
  forallb isNewline run = true ->
  split LF (run ++ s) = repeat [] (length run) ++ split LF s.
Proof.
  induction run as [|a run IH]; [reflexivity|].
  simpl forallb. intros H. apply andb_prop in H. destruct H as [Ha Hrun].
  apply N.eqb_eq in Ha. subst a.
  change ((LF :: run) ++ s) with (LF :: (run ++ s)).
  rewrite split_cons_sep, IH by exact Hrun. reflexivity.
Qed.

Lemma flushRun_length run :
  (length (flushRun 3 [LF; LF] run) <= length run)%nat /\
  (length run <= 2 -> flushRun 3 [LF; LF] run = run)%nat /\
  (3 <= length run -> flushRun 3 [LF; LF] run = [LF; LF])%nat.
Proof.
  unfold flushRun. destruct (Nat.leb_spec 3 (length run));
    repeat split; intros; simpl; try reflexivity; lia.
Qed.

Lemma in_repeat_nil (l : jsstring) n : In l (repeat [] n) -> l = [].
Proof. intros H. now apply repeat_spec in H. Qed.

(** The collapse of newlines keeps the first line and removes empty lines
    only. *)
Lemma collapseNewlines_lines s :
  exists h t t',
    split LF s = h :: t /\ split LF (collapseNewlines s) = h :: t' /\
    forall l, In l t' -> In l t.
Proof.
  unfold collapseNewlines. induction s as [run Hrun|run c rest Hrun Hc IH]
    using (run_ind isNewline).
  - rewrite replaceRuns_class by exact Hrun.
    destruct (flushRun_newlines run Hrun) as [Hf Hnil].
    pose proof (split_newlines run [] Hrun) as E1.
    pose proof (split_newlines _ [] Hf) as E2.
    rewrite app_nil_r in E1, E2. rewrite E1, E2.
    destruct run as [|a run].
    + exists [], [], []. now repeat split.
    + destruct (flushRun 3 [LF; LF] (a :: run)) as [|b f] eqn:Ef.
      { destruct Hnil as [Hnil _]. discriminate (Hnil eq_refl). }
      exists [], (repeat [] (length run) ++ [[]]),
             (repeat [] (length f) ++ [[]]).
      split; [reflexivity|]. split; [reflexivity|].
      intros l Hl. apply in_or_app. right. left.
      apply in_app_or in Hl. destruct Hl as [Hl|[Hl|[]]]; [|exact Hl].
      symmetry. now apply in_repeat_nil in Hl.
  - rewrite replaceRuns_run by assumption.
    destruct IH as (h & t & t' & Es & Ec & Hincl).
    destruct (flushRun_newlines run Hrun) as [Hf Hnil].
    rewrite !split_newlines by assumption.
    assert (Hc' : (c =? LF) = false) by exact Hc.
    destruct (split_cons_other LF c rest Hc') as (h1 & t1 & E1 & E1').
    destruct (split_cons_other LF c
                (replaceRuns isNewline 3 [LF; LF] rest) Hc')
      as (h2 & t2 & E2 & E2').
    rewrite E1', E2'. rewrite Es in E1. rewrite Ec in E2.
    inversion E1; inversion E2; subst. clear E1 E2.
    destruct run as [|a run].
    + exists (c :: h2), t1, t2. now repeat split.
    + destruct (flushRun 3 [LF; LF] (a :: run)) as [|b f] eqn:Ef.
      { destruct Hnil as [Hnil _]. discriminate (Hnil eq_refl). }
      exists [], (repeat [] (length run) ++ (c :: h2) :: t1),
             (repeat [] (length f) ++ (c :: h2) :: t2).
      split; [reflexivity|]. split; [reflexivity|].
      intros l Hl. apply in_or_app. apply in_app_or in Hl.
      destruct Hl as [Hl|[Hl|Hl]].
      * pose proof (in_repeat_nil _ _ Hl) as ->.
        destruct (flushRun_length (a :: run)) as (Hle & Hshort & Hlong).
        rewrite Ef in Hle, Hshort, Hlong. simpl in Hle, Hshort, Hlong.
        destruct f as [|b' f]; [destruct Hl|].
        destruct run as [|a' run]; [simpl in Hle; lia|]. left. now left.
      * right. now left.
      * right. right. now apply Hincl.
Qed.

Lemma collapseNewlines_tight_lines s :
  Forall tight (split LF s) -> Forall tight (split LF (collapseNewlines s)).
Proof.
  destruct (collapseNewlines_lines s) as (h & t & t' & Es & Ec & Hincl).
  rewrite Es, Ec. intros Hall. inversion Hall as [|? ? Hh Ht]; subst.
  constructor; [exact Hh|]. rewrite List.Forall_forall in Ht |- *.
  intros l Hl. now apply Ht, Hincl.
Qed.

Lemma collapseNewlines_tight s : tight s -> tight (collapseNewlines s).
Proof.
  intros [Hb He]. unfold collapseNewlines. split.
  - destruct s as [|c r]; [reflexivity|]. simpl in Hb.
    change (c :: r) with ([] ++ c :: r).
    rewrite replaceRuns_stop; [exact Hb|].
    unfold isNewline. destruct (N.eqb_spec c LF) as [->|]; [discriminate Hb|reflexivity].
  - unfold endsWith in *. destruct (rev s) as [|c r] eqn:E; simpl in He.
    + apply (f_equal (@rev N)) in E. rewrite rev_involutive in E. now subst s.
    + apply (f_equal (@rev N)) in E. rewrite rev_involutive in E. subst s.
      simpl rev. rewrite replaceRuns_stop.
      * rewrite rev_app_distr. exact He.
      * unfold isNewline.
        destruct (N.eqb_spec c LF) as [->|]; [discriminate He|reflexivity].
Qed.

(** A second pass over a cleaned text collapses the runs of newlines that
    the trimming of the lines has left, and does nothing else. *)
Lemma normalizeText_second_pass s :
  normalizeText (normalizeText s) = collapseNewlines (normalizeText s).
Proof.
  unfold normalizeText at 1.
  rewrite collapseBlanks_id by apply normalizeText_squeezed.
  rewrite trimLines_id
    by apply collapseNewlines_tight_lines, normalizeText_lines.
  apply tight_trim, collapseNewlines_tight, normalizeText_tight.
Qed.

Lemma flushRun_short run : (length (flushRun 3 [LF; LF] run) < 3)%nat.
Proof.
  unfold flushRun. destruct (Nat.leb_spec 3 (length run)); simpl; lia.
Qed.

Lemma short_no_run x :
  (length x < 3)%nat -> includesStr threeNewlines x = false.
Proof.
  destruct x as [|a [|b [|d x]]]; simpl length; try lia; intros _;
    cbn [includesStr startsWith threeNewlines];
    rewrite ?andb_false_r; reflexivity.
Qed.

Lemma short_run_no_run x c s :
  (length x < 3)%nat -> isNewline c = false ->
  includesStr threeNewlines s = false ->
  includesStr threeNewlines (x ++ c :: s) = false.
Proof.
  intros Hx Hc Hs.
  assert (Hc' : (LF =? c) = false) by (rewrite N.eqb_sym; exact Hc).
  destruct x as [|a [|b [|d x]]]; simpl length in Hx; try lia;
    cbn [includesStr startsWith threeNewlines app];
    fold threeNewlines; rewrite Hc', Hs;
    rewrite ?andb_false_l, ?andb_false_r; reflexivity.
Qed.

Lemma collapseNewlines_no_run s :
  includesStr threeNewlines (collapseNewlines s) = false.
Proof.
  unfold collapseNewlines. induction s as [run Hrun|run c rest Hrun Hc IH]
    using (run_ind isNewline).
  - rewrite replaceRuns_class by exact Hrun.
    apply short_no_run, flushRun_short.
  - rewrite replaceRuns_run by assumption.
    apply short_run_no_run; [apply flushRun_short|exact Hc|exact IH].
Qed.

Lemma collapseNewlines_idempotent s :
  collapseNewlines (collapseNewlines s) = collapseNewlines s.
Proof. apply collapseNewlines_id, collapseNewlines_no_run. Qed.

Lemma cleanContent_second_pass x :
  cleanContent (Some (cleanContent (Some x))) =
  collapseNewlines (cleanContent (Some x)).
Proof. rewrite !cleanContent_Some. apply normalizeText_second_pass. Qed.

(** A third pass changes nothing. *)
Lemma cleanContent_third_pass x :
  cleanContent (Some (cleanContent (Some (cleanContent (Some x))))) =
  cleanContent (Some (cleanContent (Some x))).
Proof.
  rewrite (cleanContent_second_pass (cleanContent (Some x))).
  rewrite cleanContent_second_pass. apply collapseNewlines_idempotent.
Qed.

(** ** What the clean-up keeps *)

Lemma trim_keeps A a mid b B :
  isWhiteSpace a = false -> isWhiteSpace b = false ->
  trim (A ++ a :: mid ++ b :: B) = trimStart A ++ a :: mid ++ b :: trimEnd B.
Proof.
  intros Ha Hb. unfold trim, trimStart.
  rewrite dropWhile_app_stop by exact Ha.
  change (a :: mid ++ b :: B) with ((a :: mid) ++ b :: B).
  rewrite app_assoc, trimEnd_app_stop by exact Hb.
  now rewrite <- app_assoc.
Qed.

Lemma trim_keeps_head c V :
  isWhiteSpace c = false -> trim (c :: V) = c :: trimEnd V.
Proof.
  intros Hc. unfold trim, trimStart. simpl. rewrite Hc.
  change (c :: V) with ([] ++ c :: V). now rewrite trimEnd_app_stop.
Qed.

Lemma trimLines_app_sep A B :
  trimLines (A ++ LF :: B) = trimLines A ++ LF :: trimLines B.
Proof.
  unfold trimLines. rewrite split_app_sep, map_app.
  rewrite join_app; [reflexivity| |].
  - destruct (split LF A) eqn:E; [now apply split_not_nil in E|discriminate].
  - destruct (split LF B) eqn:E; [now apply split_not_nil in E|discriminate].
Qed.

Lemma trimLines_one_line s : ~ In LF s -> trimLines s = trim s.
Proof. intros H. unfold trimLines. now rewrite split_no_sep. Qed.

Lemma last_line U :
  ~ In LF U \/ exists U1 U2, U = U1 ++ LF :: U2 /\ ~ In LF U2.
Proof.
  induction U as [|c U [IH|(U1 & U2 & -> & IH)]].
  - left. intros [].
  - destruct (N.eq_dec c LF) as [->|Hc].
    + right. now exists [], U.
    + left. intros [?|?]; [congruence|contradiction].
  - right. now exists (c :: U1), U2.
Qed.

Lemma first_line V :
  ~ In LF V \/ exists V1 V2, V = V1 ++ LF :: V2 /\ ~ In LF V1.
Proof.
  induction V as [|c V [IH|(V1 & V2 & -> & IH)]].
  - left. intros [].
  - destruct (N.eq_dec c LF) as [->|Hc].
    + right. exists [], V. split; [reflexivity|intros []].
    + left. intros [?|?]; [congruence|contradiction].
  - destruct (N.eq_dec c LF) as [->|Hc].
    + right. exists [], (V1 ++ LF :: V2). split; [reflexivity|intros []].
    + right. exists (c :: V1), V2. split; [reflexivity|].
      intros [?|?]; [congruence|contradiction].
Qed.

(** A tight piece at the end of the last line stays. *)
Lemma trimLines_keeps_end U a mid b :
  isWhiteSpace a = false -> isWhiteSpace b = false ->
  ~ In LF (a :: mid ++ [b]) ->
  exists P, trimLines (U ++ a :: mid ++ [b]) = P ++ a :: mid ++ [b].
Proof.
  intros Ha Hb Hn. destruct (last_line U) as [HU|(U1 & U2 & -> & HU)].
  - exists (trimStart U). rewrite trimLines_one_line.
    + now rewrite trim_keeps.
    + intros Hin. apply in_app_or in Hin. tauto.
  - exists (trimLines U1 ++ LF :: trimStart U2).
    rewrite <- app_assoc. change ((LF :: U2) ++ ?x) with (LF :: (U2 ++ x)).
    rewrite trimLines_app_sep, (trimLines_one_line (U2 ++ _)).
    + rewrite trim_keeps by assumption. now rewrite <- app_assoc.
    + intros Hin. apply in_app_or in Hin. tauto.
Qed.

(** A character that is not white space at the start of the first line
    stays. *)
Lemma trimLines_keeps_start c V :
  isWhiteSpace c = false -> exists Q, trimLines (c :: V) = c :: Q.
Proof.
  intros Hc.
  assert (Hne : c <> LF) by (intros ->; discriminate Hc).
  destruct (first_line V) as [HV|(V1 & V2 & -> & HV)].
  - exists (trimEnd V). rewrite trimLines_one_line.
    + now apply trim_keeps_head.
    + intros [?|?]; [congruence|contradiction].
  - exists (trimEnd V1 ++ LF :: trimLines V2).
    change (c :: V1 ++ LF :: V2) with ((c :: V1) ++ LF :: V2).
    rewrite trimLines_app_sep, (trimLines_one_line (c :: V1)).
    + now rewrite trim_keeps_head.
    + intros [?|?]; [congruence|contradiction].
Qed.

Lemma collapseBlanks_spaced u v :
  collapseBlanks (u ++ spacedText ++ v) =
  collapseBlanks u ++ halfCleanedText ++ collapseBlanks v.
Proof.
  unfold collapseBlanks.
  change (spacedText ++ v) with (97 :: 32 :: 32 :: 32 :: 98 :: nl ++ nl ++ nl ++ nl ++ 99 :: v).
  now rewrite replaceRuns_stop.
Qed.

Lemma collapseNewlines_spaced u v :
  collapseNewlines (u ++ halfCleanedText ++ v) =
  collapseNewlines u ++ cleanedText ++ collapseNewlines v.
Proof.
  unfold collapseNewlines.
  change (halfCleanedText ++ v) with (97 :: 32 :: 98 :: nl ++ nl ++ nl ++ nl ++ 99 :: v).
  now rewrite replaceRuns_stop.
Qed.

Lemma trimLines_cleaned u v :
  exists P Q, trimLines (u ++ cleanedText ++ v) = P ++ cleanedText ++ Q.
Proof.
  destruct (trimLines_keeps_end u 97 [32] 98) as [P HP];
    [reflexivity|reflexivity|intros H; simpl in H; intuition discriminate|].
  destruct (trimLines_keeps_start 99 v) as [Q HQ]; [reflexivity|].
  exists P, Q.
  change (u ++ cleanedText ++ v)
    with (u ++ (97 :: [32] ++ [98]) ++ LF :: [] ++ LF :: 99 :: v).
  rewrite app_assoc, !trimLines_app_sep, HP, HQ.
  now rewrite <- app_assoc.
Qed.

Lemma trim_cleaned P Q :
  trim (P ++ cleanedText ++ Q) = trimStart P ++ cleanedText ++ trimEnd Q.
Proof.
  change (P ++ cleanedText ++ Q)
    with (P ++ 97 :: [32; 98; LF; LF] ++ 99 :: Q).
  now rewrite trim_keeps.
Qed.

(** ** The content normalizer *)

Example cleanContent_tabs_and_blank_lines :
  cleanContent (Some ([TAB; TAB] ++ lit "foo" ++ [TAB; SP; TAB] ++ lit "bar" ++
                      [LF; LF; LF; LF; LF] ++ lit "baz " ++ [LF])) =
  lit "foo bar" ++ [LF; LF] ++ lit "baz".
Proof. reflexivity. Qed.

Example cleanContent_keeps_other_white_space :
  cleanContent (Some (lit "a" ++ [SP; 0xA0; SP] ++ lit "b" ++ [CR; LF] ++ lit "c")) =
  lit "a" ++ [SP; 0xA0; SP] ++ lit "b" ++ [LF] ++ lit "c".
Proof. reflexivity. Qed.

(** C1, as stated, fails: with Windows line endings the lines between
    ["a"] and ["b"] are emptied by the per-line trim, after the collapse of
    newlines has run; the first pass returns ["a\n\n\nb"] and a second pass
    returns ["a\n\nb"]. *)
Lemma cleanContent_not_idempotent :
  cleanContent (Some crlfText) = lit "a" ++ [LF; LF; LF] ++ lit "b" /\
  cleanContent (Some (cleanContent (Some crlfText))) =
    lit "a" ++ [LF; LF] ++ lit "b" /\
  cleanContent (Some (cleanContent (Some crlfText))) <>
    cleanContent (Some crlfText).
Proof. repeat split. discriminate. Qed.

(** C1, amended: for every input string whose cleaned text holds no run of
    three newlines, cleaning the cleaned text again changes nothing. *)
Theorem cleanContent_idempotent (x : jsstring) :
  includesStr threeNewlines (cleanContent (Some x)) = false ->
  cleanContent (Some (cleanContent (Some x))) = cleanContent (Some x).
Proof.
  rewrite !cleanContent_Some. intros H.
  apply normalizeText_fixed, collapseNewlines_id, H.
Qed.

Lemma cleanContent_idempotent_witness :
  includesStr threeNewlines (cleanContent (Some helloText)) = false /\
  cleanContent (Some (cleanContent (Some helloText))) =
    cleanContent (Some helloText).
Proof.
  split; [reflexivity|]. apply (cleanContent_idempotent helloText). reflexivity.
Defined.

(** C5, as stated, fails: a text that contains ["a   b\n\n\n\nc"] and
    more is not cleaned to ["a b\n\nc"]. *)
Lemma cleanContent_containing_spaced_text :
  includesStr spacedText (lit "x" ++ spacedText) = true /\
  cleanContent (Some (lit "x" ++ spacedText)) = lit "x" ++ cleanedText /\
  cleanContent (Some (lit "x" ++ spacedText)) <> cleanedText.
Proof. repeat split. discriminate. Qed.

(** C5, amended: the text ["a   b\n\n\n\nc"] is cleaned to ["a b\n\nc"],
    and the cleaned form of every text that contains the former contains
    the latter; the blanks are collapsed first, the newlines second, then
    each line is trimmed and last the whole text. *)
Theorem cleanContent_spaced_text :
  cleanContent (Some spacedText) = cleanedText /\
  (forall u v, exists u' v',
      cleanContent (Some (u ++ spacedText ++ v)) = u' ++ cleanedText ++ v') /\
  (forall x,
      cleanContent (Some x) =
      trim (trimLines (collapseNewlines (collapseBlanks x)))).
Proof.
  split; [reflexivity|]. split.
  - intros u v. rewrite cleanContent_Some. unfold normalizeText.
    rewrite collapseBlanks_spaced, collapseNewlines_spaced.
    destruct (trimLines_cleaned (collapseNewlines (collapseBlanks u))
                (collapseNewlines (collapseBlanks v))) as (P & Q & E).
    rewrite E, trim_cleaned. eauto.
  - intros x. now rewrite cleanContent_Some.
Qed.

(** C10: the cleaned text holds no tab and no two spaces in a row, none of
    its lines begins or ends with a space or a tab, and the text neither
    begins nor ends with white space. *)
Theorem cleanContent_shape (content : option jsstring) :
  let out := cleanContent content in
  ~ In TAB out /\
  (forall u v, out <> u ++ SP :: SP :: v) /\
  Forall (fun line => beginsWith isBlank line = false /\
                      endsWith isBlank line = false) (split LF out) /\
  beginsWith isWhiteSpace out = false /\
  endsWith isWhiteSpace out = false.
Proof.
  cbv zeta. rewrite cleanContent_normalizeText.
  set (s := default [] content).
  split; [apply squeezed_no_tab, normalizeText_squeezed|].
  split; [apply squeezed_no_double_space, normalizeText_squeezed|].
  split; [|apply normalizeText_tight].
  pose proof (normalizeText_lines s) as Hall.
  rewrite List.Forall_forall in Hall |- *. intros l Hl.
  destruct (Hall l Hl) as [Hb He].
  split; now apply begins_blank_white.
Qed.

(** ** Effects *)

Section Cleanup.
Context {libs : Libraries}.

Lemma cleanupFile_returns p w : fst (cleanupFile p w) = Returned tt.
Proof.
  destruct w as [fs prot tr]. run.
  destruct (fs !! p) eqn:E; run; [|reflexivity].
  destruct (bool_decide (p ∈ prot)); reflexivity.
Qed.

Lemma cleanupFile_eq p w :
  cleanupFile p w = (Returned tt, snd (cleanupFile p w)).
Proof.
  rewrite <- (cleanupFile_returns p w). now destruct (cleanupFile p w).
Qed.

Lemma cleanupFile_world p w :
  snd (cleanupFile p w) =
  match files w !! p with
  | None =>
      {| files := files w; protected := protected w;
         trace := trace w ++ [FsExists p] |}
  | Some _ =>
      if bool_decide (p ∈ protected w) then
        {| files := files w; protected := protected w;
           trace := trace w ++
             [FsExists p; FsUnlink p;
              ConsoleError (lit "File cleanup error:")
                           (Fs.EPERM (lit "unlink") p)] |}
      else
        {| files := delete p (files w); protected := protected w;
           trace := trace w ++
             [FsExists p; FsUnlink p;
              ConsoleLog (Emoji.bin ++ lit " Cleaned up temporary file")] |}
  end.
Proof.
  destruct w as [fs prot tr]. run.
  destruct (fs !! p) eqn:E; run; [|reflexivity].
  destruct (bool_decide (p ∈ prot)); run; now rewrite <- !app_assoc.
Qed.

Lemma readsOnly_throw {A} e : readsOnly (@throw A e).
Proof.
  intros w. cbn. repeat split. exists []. now rewrite app_nil_r.
Qed.

Lemma extractFromPDF_readsOnly p : readsOnly (extractFromPDF p).
Proof.
  intros [fs prot tr]. run. unfold withProtected. run.
  destruct (fs !! p) eqn:E; run.
  - destruct (pdfParse l); run; repeat split;
      eexists; rewrite <- !app_assoc; split; reflexivity.
  - repeat split. eexists. rewrite <- !app_assoc. split; reflexivity.
Qed.

Lemma extractFromImage_readsOnly p : readsOnly (extractFromImage p).
Proof.
  intros [fs prot tr]. run. unfold withProtected. run.
  destruct (fs !! p) eqn:E; run.
  - destruct (recognize l); run; repeat split;
      eexists; rewrite <- !app_assoc; split; reflexivity.
  - repeat split. eexists. rewrite <- !app_assoc. split; reflexivity.
Qed.

Lemma extractFromText_readsOnly p : readsOnly (extractFromText p).
Proof.
  intros [fs prot tr]. run. unfold withProtected. run.
  destruct (fs !! p) eqn:E; run; repeat split;
    eexists; rewrite <- !app_assoc; split; reflexivity.
Qed.

(** The dispatch of [extractFromFile] on the media type. *)
Lemma extractFromFile_pdf file w :
  mimetype file = lit "application/pdf" ->
  extractFromFile file w =
  settle (path file) (extractFromPDF (path file) w).
Proof.
  intros Hm. unfold extractFromFile. rewrite Hm.
  unfold settle, tryCatch, bind, ret, throw. cbn [strictEq].
  change (strictEq (lit "application/pdf") (lit "application/pdf")) with true.
  cbv iota. destruct (extractFromPDF (path file) w) as [[c|e] w1];
    now rewrite cleanupFile_eq.
Qed.

Lemma extractFromFile_image file w :
  startsWith (lit "image/") (mimetype file) = true ->
  extractFromFile file w =
  settle (path file) (extractFromImage (path file) w).
Proof.
  intros Hm. unfold extractFromFile. rewrite Hm.
  assert (Hp : strictEq (mimetype file) (lit "application/pdf") = false).
  { unfold strictEq. apply bool_decide_eq_false. intros E.
    rewrite E in Hm. discriminate Hm. }
  rewrite Hp. unfold settle, tryCatch, bind, ret, throw.
  destruct (extractFromImage (path file) w) as [[c|e] w1];
    now rewrite cleanupFile_eq.
Qed.

Lemma extractFromFile_text file w :
  mimetype file = lit "text/plain" ->
  extractFromFile file w =
  settle (path file) (extractFromText (path file) w).
Proof.
  intros Hm. unfold extractFromFile. rewrite Hm.
  unfold settle, tryCatch, bind, ret, throw.
  change (strictEq (lit "text/plain") (lit "application/pdf")) with false.
  change (startsWith (lit "image/") (lit "text/plain")) with false.
  change (strictEq (lit "text/plain") (lit "text/plain")) with true.
  cbv iota. destruct (extractFromText (path file) w) as [[c|e] w1];
    now rewrite cleanupFile_eq.
Qed.

Lemma extractFromFile_other file w :
  mimetype file <> lit "application/pdf" ->
  startsWith (lit "image/") (mimetype file) = false ->
  mimetype file <> lit "text/plain" ->
  extractFromFile file w =
  settle (path file) (Thrown (unsupported (mimetype file)), w).
Proof.
  intros Hp Hi Ht. unfold extractFromFile, strictEq.
  rewrite !bool_decide_eq_false_2, Hi by assumption.
  unfold settle, tryCatch, bind, ret, throw.
  now rewrite cleanupFile_eq.
Qed.

(** Whatever the media type, [extractFromFile] settles the outcome of a
    computation that only reads. *)
Lemma extractFromFile_settles file :
  exists m : M jsstring,
    readsOnly m /\
    forall w, extractFromFile file w = settle (path file) (m w).
Proof.
  destruct (decide (mimetype file = lit "application/pdf")) as [Hp|Hp].
  { exists (extractFromPDF (path file)).
    split; [apply extractFromPDF_readsOnly|].
    intros w. now apply extractFromFile_pdf. }
  destruct (startsWith (lit "image/") (mimetype file)) eqn:Hi.
  { exists (extractFromImage (path file)).
    split; [apply extractFromImage_readsOnly|].
    intros w. now apply extractFromFile_image. }
  destruct (decide (mimetype file = lit "text/plain")) as [Ht|Ht].
  { exists (extractFromText (path file)).
    split; [apply extractFromText_readsOnly|].
    intros w. now apply extractFromFile_text. }
  exists (throw (unsupported (mimetype file))).
  split; [apply readsOnly_throw|].
  intros w. now apply extractFromFile_other.
Qed.

End Cleanup.

(** ** The orchestrator *)

Lemma countUnlinks_app p a b :
  countUnlinks p (a ++ b) = (countUnlinks p a + countUnlinks p b)%nat.
Proof. unfold countUnlinks. now rewrite List.filter_app, length_app. Qed.

Lemma since_app w delta more (w' : World) :
  trace w' = (trace w ++ delta) ++ more -> since w w' = delta ++ more.
Proof.
  intros E. unfold since. now rewrite E, <- app_assoc, drop_app_length.
Qed.

(** C2, as stated, fails: when the removal of the upload is refused, the
    extraction returns the cleaned content and the file is still there. *)
Lemma extractFromFile_leaves_protected_file :
  fst (@extractFromFile asciiLibraries notesFile lockedWorld) =
    Returned helloCleaned /\
  files (snd (@extractFromFile asciiLibraries notesFile lockedWorld))
    !! notesPath = Some (toBytes helloText).
Proof. split; vm_compute; reflexivity. Qed.

Section Orchestrator.
Context {libs : Libraries}.

Lemma fst_settle p r :
  fst (settle p r) =
  match fst r with
  | Returned content => Returned (cleanContent (Some content))
  | Thrown e => Thrown e
  end.
Proof. now destruct r as [[c|e] w]. Qed.

Lemma snd_settle p r : snd (settle p r) = snd (cleanupFile p (snd r)).
Proof. now destruct r as [[c|e] w]. Qed.

(** C2, amended: for every uploaded file that exists when it is handed
    over, [extractFromFile] attempts the removal of the file exactly once
    before it returns or throws, whatever the outcome of the extraction;
    when the removal is not refused the file no longer exists afterwards
    and no other file is touched, and when it is refused the files are
    as they were. *)
Theorem extractFromFile_cleanup (file : MulterFile) (w : World)
    (data : list byte) :
  files w !! path file = Some data ->
  let w' := snd (extractFromFile file w) in
  countUnlinks (path file) (since w w') = 1%nat /\
  (path file ∉ protected w ->
   files w' = delete (path file) (files w) /\
   files w' !! path file = None) /\
  (path file ∈ protected w -> files w' = files w).
Proof.
  intros Hdata. cbv zeta.
  destruct (extractFromFile_settles file) as (m & Hro & Heq).
  rewrite Heq, snd_settle, cleanupFile_world.
  destruct (Hro w) as (Hf & Hp & (delta & Ht & Hcount) & _).
  rewrite Hf, Hp, Hdata.
  assert (Hself : forall ev, countUnlinks (path file)
                    [FsExists (path file); FsUnlink (path file); ev] =
                  (if isUnlinkOf (path file) ev then 2 else 1)%nat).
  { intros ev. unfold countUnlinks. cbn [List.filter isUnlinkOf].
    unfold strictEq. rewrite bool_decide_eq_true_2 by reflexivity.
    now destruct (isUnlinkOf (path file) ev). }
  destruct (bool_decide (path file ∈ protected w)) eqn:Eb.
  - apply bool_decide_eq_true in Eb. split; [|split; [tauto|reflexivity]].
    erewrite since_app by (cbn [trace]; rewrite Ht; reflexivity).
    now rewrite countUnlinks_app, Hcount, Hself.
  - apply bool_decide_eq_false in Eb. split; [|split; [|tauto]].
    + erewrite since_app by (cbn [trace]; rewrite Ht; reflexivity).
      now rewrite countUnlinks_app, Hcount, Hself.
    + intros _. cbn [files]. split; [reflexivity|apply lookup_delete_eq].
Qed.

(** C3, amended: the extractor is selected by exact match for the PDF
    type, by prefix match for [image/] and by exact match for plain text;
    for every other declared type [extractFromFile] throws the error of an
    unsupported type without reading the file, and the only access to the
    file is the clean-up, which removes it. *)
Theorem extractFromFile_dispatch (file : MulterFile) (w : World) :
  (mimetype file = lit "application/pdf" ->
   extractFromFile file w =
   settle (path file) (extractFromPDF (path file) w)) /\
  (startsWith (lit "image/") (mimetype file) = true ->
   extractFromFile file w =
   settle (path file) (extractFromImage (path file) w)) /\
  (mimetype file = lit "text/plain" ->
   extractFromFile file w =
   settle (path file) (extractFromText (path file) w)) /\
  (mimetype file <> lit "application/pdf" ->
   startsWith (lit "image/") (mimetype file) = false ->
   mimetype file <> lit "text/plain" ->
   extractFromFile file w =
     (Thrown (unsupported (mimetype file)),
      snd (cleanupFile (path file) w)) /\
   Forall (fun ev => isRead ev = false)
          (since w (snd (extractFromFile file w)))).
Proof.
  split; [apply extractFromFile_pdf|].
  split; [apply extractFromFile_image|].
  split; [apply extractFromFile_text|].
  intros Hp Hi Ht. rewrite extractFromFile_other by assumption.
  split; [reflexivity|]. cbn [settle snd].
  rewrite cleanupFile_world.
  destruct (files w !! path file);
    [destruct (bool_decide (path file ∈ protected w))|];
    (erewrite since_app by (cbn [trace]; rewrite app_nil_r; reflexivity));
    repeat constructor.
Qed.

(** C4: a plain-text upload that holds
    ["  Hello   World  \n\n\n\nBye  "] is extracted as
    ["Hello World\n\nBye"], and the plain-text extractor returns the
    decoded content of the file as it is. *)
Theorem extractFromFile_plain_text (file : MulterFile) (w : World)
    (data : list byte) :
  mimetype file = lit "text/plain" ->
  files w !! path file = Some data ->
  utf8Decode data = helloText ->
  fst (extractFromFile file w) = Returned helloCleaned /\
  fst (extractFromText (path file) w) = Returned (utf8Decode data).
Proof.
  intros Hm Hdata Hdec.
  assert (Hx : fst (extractFromText (path file) w) =
               Returned (utf8Decode data)).
  { destruct w as [fs prot tr]. run. reflexivity. }
  split; [|exact Hx].
  rewrite extractFromFile_text, fst_settle, Hx, Hdec by exact Hm.
  reflexivity.
Qed.

(** C6: [cleanupFile] returns for every path and every state of the
    world; a removal that is refused is logged and nothing else happens;
    and whether removals are refused does not change what
    [extractFromFile] returns or throws. *)
Theorem cleanupFile_never_throws (p : jsstring) (w : World) :
  fst (cleanupFile p w) = Returned tt /\
  (forall data,
      files w !! p = Some data -> p ∈ protected w ->
      snd (cleanupFile p w) =
      {| files := files w; protected := protected w;
         trace := trace w ++
           [FsExists p; FsUnlink p;
            ConsoleError (lit "File cleanup error:")
                         (Fs.EPERM (lit "unlink") p)] |}) /\
  (forall file prot,
      fst (extractFromFile file (withProtected prot w)) =
      fst (extractFromFile file w)).
Proof.
  split; [apply cleanupFile_returns|]. split.
  - intros data Hdata Hprot. rewrite cleanupFile_world, Hdata.
    now rewrite bool_decide_eq_true_2.
  - intros file prot.
    destruct (extractFromFile_settles file) as (m & Hro & Heq).
    rewrite !Heq, !fst_settle.
    destruct (Hro w) as (_ & _ & _ & Hind).
    now rewrite (proj1 (Hind prot)).
Qed.

End Orchestrator.

(** C3, as stated, fails: a file declared as JSON is not read, but it is
    not left untouched either; the clean-up on the error path removes it. *)
Lemma extractFromFile_removes_unsupported_file :
  fst (@extractFromFile asciiLibraries jsonFile notesWorld) =
    Thrown (unsupported (lit "application/json")) /\
  files notesWorld !! notesPath = Some (toBytes helloText) /\
  files (snd (@extractFromFile asciiLibraries jsonFile notesWorld))
    !! notesPath = None /\
  since notesWorld (snd (@extractFromFile asciiLibraries jsonFile notesWorld)) =
    [FsExists notesPath; FsUnlink notesPath;
     ConsoleLog (Emoji.bin ++ lit " Cleaned up temporary file")].
Proof. repeat split; vm_compute; reflexivity. Qed.

Lemma extractFromFile_cleanup_witness :
  files notesWorld !! path notesFile = Some (toBytes helloText) /\
  countUnlinks (path notesFile)
    (since notesWorld
       (snd (@extractFromFile asciiLibraries notesFile notesWorld))) = 1%nat.
Proof.
  split; [reflexivity|].
  apply (@extractFromFile_cleanup asciiLibraries notesFile notesWorld
           (toBytes helloText)).
  reflexivity.
Defined.

Lemma extractFromFile_dispatch_witness :
  mimetype jsonFile <> lit "application/pdf" /\
  startsWith (lit "image/") (mimetype jsonFile) = false /\
  mimetype jsonFile <> lit "text/plain" /\
  @extractFromFile asciiLibraries jsonFile notesWorld =
    (Thrown (unsupported (mimetype jsonFile)),
     snd (cleanupFile (path jsonFile) notesWorld)).
Proof.
  assert (H1 : mimetype jsonFile <> lit "application/pdf") by discriminate.
  assert (H2 : mimetype jsonFile <> lit "text/plain") by discriminate.
  split; [exact H1|]. split; [reflexivity|]. split; [exact H2|].
  apply (proj2 (proj2 (proj2
    (@extractFromFile_dispatch asciiLibraries jsonFile notesWorld))));
    [exact H1|reflexivity|exact H2].
Defined.

Lemma extractFromFile_plain_text_witness :
  mimetype notesFile = lit "text/plain" /\
  files notesWorld !! path notesFile = Some (toBytes helloText) /\
  @utf8Decode asciiLibraries (toBytes helloText) = helloText /\
  fst (@extractFromFile asciiLibraries notesFile notesWorld) =
    Returned helloCleaned.
Proof.
  split; [reflexivity|]. split; [reflexivity|]. split; [reflexivity|].
  apply (@extractFromFile_plain_text asciiLibraries notesFile notesWorld
           (toBytes helloText)); reflexivity.
Defined.

Lemma cleanupFile_never_throws_witness :
  files lockedWorld !! notesPath = Some (toBytes helloText) /\
  notesPath ∈ protected lockedWorld /\
  snd (cleanupFile notesPath lockedWorld) =
    {| files := files lockedWorld; protected := protected lockedWorld;
       trace := trace lockedWorld ++
         [FsExists notesPath; FsUnlink notesPath;
          ConsoleError (lit "File cleanup error:")
                       (Fs.EPERM (lit "unlink") notesPath)] |}.
Proof.
  assert (Hin : notesPath ∈ protected lockedWorld).
  { unfold lockedWorld, withProtected. cbn [protected]. set_solver. }
  split; [reflexivity|]. split; [exact Hin|].
  apply (proj1 (proj2
    (@cleanupFile_never_throws asciiLibraries notesPath lockedWorld))
    (toBytes helloText)); [reflexivity|exact Hin].
Defined.

(** ** The upload route and the error envelope *)

Lemma includes_In l t : includes l t = true <-> In t l.
Proof.
  unfold includes. rewrite existsb_exists. split.
  - intros (x & Hx & E). unfold strictEq in E.
    apply bool_decide_eq_true in E. now subst.
  - intros H. exists t. split; [exact H|].
    unfold strictEq. now apply bool_decide_eq_true.
Qed.

Lemma errorMiddleware_plain e w :
  plainError e ->
  fst (errorMiddleware e w) =
  Returned {| code := 500; body := failure (message e) |}.
Proof.
  intros [Hs Hm]. unfold errorMiddleware, bind, emit, ret. cbn [fst].
  rewrite Hs. destruct (message e); [congruence|reflexivity].
Qed.

Section Route.
Context {libs : Libraries}.

Lemma extractors_throw_plain file w e w1 :
  extractFromFile file w = (Thrown e, w1) -> plainError e.
Proof.
  assert (Hsettle : forall p (m : M jsstring),
             (forall w0 e0 w2, m w0 = (Thrown e0, w2) -> plainError e0) ->
             settle p (m w) = (Thrown e, w1) -> plainError e).
  { intros p m Hm. unfold settle. destruct (m w) as [[c|e0] w2] eqn:E.
    - discriminate.
    - intros H. inversion H; subst. now apply (Hm w e w2). }
  assert (Hcase : forall (e0 : JsError) (w2 w3 : World)
                    (msg : string) (tail : jsstring),
             (Thrown (A := jsstring) (newError (lit msg ++ tail)), w3) =
             (Thrown e0, w2) -> msg <> EmptyString -> plainError e0).
  { intros e0 w2 w3 msg tail H Hmsg. inversion H; subst.
    split; [reflexivity|]. destruct msg; [congruence|discriminate]. }
  destruct (decide (mimetype file = lit "application/pdf")) as [Hp|Hp].
  { rewrite extractFromFile_pdf by exact Hp. apply Hsettle.
    intros [fs prot tr] e0 w2. run.
    destruct (fs !! path file); run; [destruct (pdfParse l); run|];
      intros H; try discriminate H;
      apply (Hcase e0 _ _ _ _ H); discriminate. }
  destruct (startsWith (lit "image/") (mimetype file)) eqn:Hi.
  { rewrite extractFromFile_image by exact Hi. apply Hsettle.
    intros [fs prot tr] e0 w2. run.
    destruct (fs !! path file); run; [destruct (recognize l); run|];
      intros H; try discriminate H;
      apply (Hcase e0 _ _ _ _ H); discriminate. }
  destruct (decide (mimetype file = lit "text/plain")) as [Ht|Ht].
  { rewrite extractFromFile_text by exact Ht. apply Hsettle.
    intros [fs prot tr] e0 w2. run.
    destruct (fs !! path file); run;
      intros H; try discriminate H;
      apply (Hcase e0 _ _ _ _ H); discriminate. }
  rewrite extractFromFile_other by assumption.
  apply (Hsettle (path file) (throw (unsupported (mimetype file)))).
  intros w0 e0 w2 H. unfold throw, unsupported in H.
  apply (Hcase e0 _ _ _ _ H); discriminate.
Qed.

Lemma postFile_responds reqFile w :
  exists r w', postFile reqFile w = (Returned r, w') /\
               (isSuccess r \/ isFailure r).
Proof.
  unfold postFile, tryCatch. destruct reqFile as [file|].
  - unfold bind at 1. unfold emit at 1. unfold bind.
    destruct (extractFromFile file _) as [[content|e] w1] eqn:E.
    + eexists _, _. split; [reflexivity|]. left.
      split; [reflexivity|]. eexists. reflexivity.
    + apply extractors_throw_plain in E.
      pose proof (errorMiddleware_plain e w1 E) as Hr.
      destruct (errorMiddleware e w1) as [r w2]. cbn [fst] in Hr. subst r.
      eexists _, _. split; [reflexivity|]. right.
      split; [cbn; lia|]. eexists. reflexivity.
  - eexists _, _. split; [reflexivity|]. right.
    split; [cbn; lia|]. eexists. reflexivity.
Qed.

Lemma uploadSingle_rejects env req w e w' :
  uploadSingle env req w = (Thrown e, w') -> w' = w /\ plainError e.
Proof.
  unfold uploadSingle. destruct (part req) as [file|]; [|discriminate].
  unfold fileFilter. destruct (includes allowedTypes (partType file)).
  - destruct (withinLimit env file); [discriminate|].
    intros H. inversion H; subst. repeat split. discriminate.
  - intros H. inversion H; subst. repeat split. discriminate.
Qed.

Lemma handleUpload_accepted env req w stored w0 :
  uploadSingle env req w = (Returned (Some stored), w0) ->
  handleUpload env req w =
  tryCatch (let* extractedContent := extractFromFile stored in
            ret {| code := 200; body := success stored extractedContent |})
           (fun error => errorMiddleware error)
           (announced stored w0).
Proof.
  intros H. unfold handleUpload, tryCatch at 1, bind at 1. rewrite H.
  unfold postFile, tryCatch, bind, emit, announced, emit. cbn [snd].
  destruct (extractFromFile stored _) as [[content|e] w1]; [reflexivity|].
  unfold errorMiddleware, bind, emit, ret. reflexivity.
Qed.

(** C8: an error thrown by an extractor leaves [extractFromFile] as it
    is; an error thrown by [extractFromFile] reaches the response with
    its message; the answer to every request is the envelope of a
    success or the envelope of a failure; and [cleanupFile] never
    throws. *)
Theorem errors_reach_response (env : Env) (req : Request) (w : World) :
  (forall file w0 e w1,
      (mimetype file = lit "application/pdf" /\
       extractFromPDF (path file) w0 = (Thrown e, w1)) \/
      (startsWith (lit "image/") (mimetype file) = true /\
       extractFromImage (path file) w0 = (Thrown e, w1)) \/
      (mimetype file = lit "text/plain" /\
       extractFromText (path file) w0 = (Thrown e, w1)) ->
      fst (extractFromFile file w0) = Thrown e) /\
  (forall stored w0 e w1,
      uploadSingle env req w = (Returned (Some stored), w0) ->
      extractFromFile stored (announced stored w0) = (Thrown e, w1) ->
      fst (handleUpload env req w) =
      Returned {| code := 500; body := failure (message e) |}) /\
  (exists r, fst (handleUpload env req w) = Returned r /\
             (isSuccess r \/ isFailure r)) /\
  (forall p w0, fst (cleanupFile p w0) = Returned tt).
Proof.
  split; [|split; [|split]].
  - intros file w0 e w1 [[Hm He]|[[Hm He]|[Hm He]]].
    + now rewrite extractFromFile_pdf, fst_settle, He.
    + now rewrite extractFromFile_image, fst_settle, He.
    + now rewrite extractFromFile_text, fst_settle, He.
  - intros stored w0 e w1 Hup He.
    rewrite (handleUpload_accepted _ _ _ _ _ Hup).
    unfold tryCatch, bind. rewrite He.
    apply errorMiddleware_plain. now apply extractors_throw_plain in He.
  - unfold handleUpload, tryCatch, bind.
    destruct (uploadSingle env req w) as [[reqFile|e] w1] eqn:E.
    + destruct (postFile_responds reqFile w1) as (r & w2 & Hr & Hshape).
      rewrite Hr. now exists r.
    + apply uploadSingle_rejects in E. destruct E as [-> He].
      rewrite (errorMiddleware_plain e w He).
      eexists. split; [reflexivity|]. right.
      split; [cbn; lia|]. eexists. reflexivity.
  - intros p w0. apply cleanupFile_returns.
Qed.

End Route.

Example fileSizeLimit_of_environment :
  fileSizeLimit {| MAX_FILE_SIZE := Some (lit "5242880");
                   uploadsDir := lit "/app/uploads" |} = Double.ofZ 5242880 /\
  fileSizeLimit {| MAX_FILE_SIZE := Some (lit "0");
                   uploadsDir := lit "/app/uploads" |} = Double.ofZ 10485760 /\
  fileSizeLimit {| MAX_FILE_SIZE := Some (lit "ten");
                   uploadsDir := lit "/app/uploads" |} = Double.ofZ 10485760 /\
  fileSizeLimit defaultEnv = Double.ofZ 10485760.
Proof. repeat split. Qed.

(** An accepted upload is stored, read, removed and answered with its
    cleaned content. *)
Example handleUpload_notes :
  @handleUpload asciiLibraries defaultEnv (requestOf notesPart) emptyWorld =
  (Returned {| code := 200; body := success notesFile helloCleaned |},
   {| files := ∅; protected := ∅;
      trace :=
        [ FsWrite notesPath;
          ConsoleLog (Emoji.page ++ lit " Processing file: notes.txt");
          FsRead notesPath;
          ConsoleLog (Emoji.memo ++ lit " Text file read: 26 characters");
          FsExists notesPath;
          FsUnlink notesPath;
          ConsoleLog (Emoji.bin ++ lit " Cleaned up temporary file") ] |}).
Proof. vm_compute. reflexivity. Qed.

(** An upload of a type that is not allowed is answered at once. *)
Example handleUpload_rejects_json :
  @handleUpload asciiLibraries defaultEnv (requestOf jsonPart) emptyWorld =
  (Returned {| code := 500;
               body := failure (lit
                 "Invalid file type. Allowed: PDF, Images (JPEG, PNG, GIF, WebP), Text files") |},
   {| files := ∅; protected := ∅;
      trace := [ ConsoleError (lit "Error:") (newError (lit
                 "Invalid file type. Allowed: PDF, Images (JPEG, PNG, GIF, WebP), Text files")) ] |}).
Proof. vm_compute. reflexivity. Qed.

Lemma errors_reach_response_witness :
  exists w0 w1,
    @uploadSingle asciiLibraries defaultEnv (requestOf pdfPart) emptyWorld =
      (Returned (Some storedPdf), w0) /\
    @extractFromFile asciiLibraries storedPdf (announced storedPdf w0) =
      (Thrown pdfFailure, w1) /\
    fst (@handleUpload asciiLibraries defaultEnv (requestOf pdfPart)
           emptyWorld) =
    Returned {| code := 500; body := failure (message pdfFailure) |}.
Proof.
  eexists _, _.
  assert (Hup : @uploadSingle asciiLibraries defaultEnv (requestOf pdfPart) emptyWorld =
                (Returned (Some storedPdf),
                 snd (@uploadSingle asciiLibraries defaultEnv (requestOf pdfPart) emptyWorld)))
    by (vm_compute; reflexivity).
  assert (Hex : @extractFromFile asciiLibraries storedPdf
                  (announced storedPdf
                     (snd (@uploadSingle asciiLibraries defaultEnv (requestOf pdfPart)
                             emptyWorld))) =
                (Thrown pdfFailure,
                 snd (@extractFromFile asciiLibraries storedPdf
                        (announced storedPdf
                           (snd (@uploadSingle asciiLibraries defaultEnv (requestOf pdfPart)
                                   emptyWorld))))))
    by (vm_compute; reflexivity).
  split; [exact Hup|]. split; [exact Hex|].
  exact (proj1 (proj2
    (@errors_reach_response asciiLibraries defaultEnv (requestOf pdfPart)
       emptyWorld)) _ _ _ _ Hup Hex).
Defined.

(** * Further properties *)

(** ** What the clean-up does to the text *)

Lemma visible_app u v : visible (u ++ v) = visible u ++ visible v.
Proof. apply List.filter_app. Qed.

Lemma visible_white s : forallb isWhiteSpace s = true <-> visible s = [].
Proof.
  induction s as [|c r IH]; [easy|]. unfold visible in *. simpl.
  destruct (isWhiteSpace c); simpl; [exact IH|easy].
Qed.

Lemma visible_dropWhile s : visible (dropWhile isWhiteSpace s) = visible s.
Proof.
  induction s as [|c r IH]; [reflexivity|]. cbn [dropWhile].
  destruct (isWhiteSpace c) eqn:E; [|reflexivity].
  rewrite IH. unfold visible. cbn [List.filter]. now rewrite E.
Qed.

Lemma visible_rev s : visible (rev s) = rev (visible s).
Proof. apply filter_rev. Qed.

Lemma visible_trim s : visible (trim s) = visible s.
Proof.
  unfold trim, trimEnd, trimStart.
  now rewrite visible_rev, visible_dropWhile, visible_rev, rev_involutive,
    visible_dropWhile.
Qed.

Section VisibleRuns.
Variables (cls : N -> bool) (min : nat) (repl : jsstring).
Hypothesis cls_white : forall c, cls c = true -> isWhiteSpace c = true.
Hypothesis repl_white : visible repl = [].

Lemma visible_class_run run : forallb cls run = true -> visible run = [].
Proof.
  intros H. apply visible_white. rewrite forallb_forall in H |- *.
  intros c Hc. now apply cls_white, H.
Qed.

Lemma visible_flushRun run :
  forallb cls run = true -> visible (flushRun min repl run) = [].
Proof.
  intros H. unfold flushRun. destruct (min <=? length run)%nat;
    [exact repl_white|now apply visible_class_run].
Qed.

Lemma visible_replaceRuns s : visible (replaceRuns cls min repl s) = visible s.
Proof.
  induction s as [run Hrun|run c rest Hrun Hc IH] using (run_ind cls).
  - rewrite replaceRuns_class by exact Hrun.
    now rewrite visible_flushRun, visible_class_run.
  - rewrite replaceRuns_run by assumption.
    rewrite !visible_app, (visible_flushRun run Hrun),
      (visible_class_run run Hrun).
    unfold visible in *. cbn [List.filter app]. now rewrite IH.
Qed.
End VisibleRuns.

Lemma visible_join ls :
  visible (join nl ls) = concat (map visible ls).
Proof.
  induction ls as [|l rest IH]; [reflexivity|].
  destruct rest as [|h t].
  - simpl. now rewrite app_nil_r.
  - rewrite join_cons, !visible_app, IH. reflexivity.
Qed.

Lemma visible_trimLines s : visible (trimLines s) = visible s.
Proof.
  unfold trimLines. rewrite visible_join, map_map.
  rewrite <- (join_split LF s) at 2. fold nl. rewrite visible_join.
  f_equal. apply map_ext. intros l. apply visible_trim.
Qed.

Lemma visible_normalizeText s : visible (normalizeText s) = visible s.
Proof.
  unfold normalizeText, collapseNewlines, collapseBlanks.
  rewrite visible_trim, visible_trimLines.
  rewrite !visible_replaceRuns; try reflexivity.
  - apply blank_is_white.
  - intros c Hc. unfold isNewline in Hc. apply N.eqb_eq in Hc. now subst c.
Qed.

(** X1: the clean-up removes or replaces white space only: the characters
    that are not white space are the same, in the same order, before and
    after. *)
Theorem cleanContent_keeps_visible (content : option jsstring) :
  visible (cleanContent content) = visible (default [] content).
Proof. rewrite cleanContent_normalizeText. apply visible_normalizeText. Qed.

Lemma tight_visible s : tight s -> visible s = [] -> s = [].
Proof.
  intros [Hb _] Hv. destruct s as [|c r]; [reflexivity|].
  simpl in Hb. unfold visible in Hv. simpl in Hv. rewrite Hb in Hv.
  discriminate Hv.
Qed.

(** X2: the cleaned text is empty exactly when the argument is absent or
    holds nothing but white space. *)
Theorem cleanContent_empty_iff (content : option jsstring) :
  cleanContent content = [] <->
  forallb isWhiteSpace (default [] content) = true.
Proof.
  rewrite visible_white, cleanContent_normalizeText.
  rewrite <- (visible_normalizeText (default [] content)). split.
  - now intros ->.
  - apply tight_visible, normalizeText_tight.
Qed.

Lemma length_trim s : (length (trim s) <= length s)%nat.
Proof.
  destruct (trim_infix s) as (u & v & E). rewrite E at 2.
  rewrite !length_app. lia.
Qed.

Lemma length_flushRun min repl run :
  (length repl <= min)%nat ->
  (length (flushRun min repl run) <= length run)%nat.
Proof.
  intros H. unfold flushRun. destruct (Nat.leb_spec min (length run)); lia.
Qed.

Lemma length_replaceRuns cls min repl s :
  (length repl <= min)%nat ->
  (length (replaceRuns cls min repl s) <= length s)%nat.
Proof.
  intros H. induction s as [run Hrun|run c rest Hrun Hc IH] using (run_ind cls).
  - rewrite replaceRuns_class by exact Hrun. now apply length_flushRun.
  - rewrite replaceRuns_run by assumption. rewrite !length_app.
    pose proof (length_flushRun min repl run H). simpl. lia.
Qed.

Lemma length_join_trim ls :
  (length (join nl (map trim ls)) <= length (join nl ls))%nat.
Proof.
  induction ls as [|l rest IH]; [reflexivity|].
  destruct rest as [|h t].
  - apply length_trim.
  - change (map trim (l :: h :: t)) with (trim l :: trim h :: map trim t).
    rewrite !join_cons, !length_app.
    change (trim h :: map trim t) with (map trim (h :: t)).
    pose proof (length_trim l). lia.
Qed.

Lemma length_trimLines s : (length (trimLines s) <= length s)%nat.
Proof.
  unfold trimLines. rewrite <- (join_split LF s) at 2. apply length_join_trim.
Qed.

(** X3: the cleaned text is never longer than the text it was made from. *)
Theorem cleanContent_not_longer (s : jsstring) :
  (length (cleanContent (Some s)) <= length s)%nat.
Proof.
  rewrite cleanContent_Some. unfold normalizeText.
  etransitivity; [apply length_trim|].
  etransitivity; [apply length_trimLines|].
  etransitivity; [apply length_replaceRuns; simpl; lia|].
  apply length_replaceRuns. simpl. lia.
Qed.

(** X4: a second pass of the clean-up over a cleaned text does nothing but
    collapse the runs of three or more newlines that the first pass has
    left, and a third pass changes nothing: the clean-up settles after two
    passes. *)
Theorem cleanContent_settles (x : jsstring) :
  let once := cleanContent (Some x) in
  let twice := cleanContent (Some once) in
  twice = collapseNewlines once /\
  cleanContent (Some twice) = twice /\
  includesStr threeNewlines twice = false.
Proof.
  cbv zeta. rewrite !cleanContent_Some.
  rewrite (normalizeText_second_pass (normalizeText x)).
  rewrite !normalizeText_second_pass.
  split; [reflexivity|]. split.
  - apply collapseNewlines_idempotent.
  - apply collapseNewlines_no_run.
Qed.

(** X5: the texts that the clean-up leaves as they are are exactly those
    with no tab, no two blanks in a row, no run of three newlines, no line
    that begins or ends with white space, and no white space at either
    end. *)
Theorem cleanContent_fixed_points (x : jsstring) :
  cleanContent (Some x) = x <->
  squeezed x = true /\
  includesStr threeNewlines x = false /\
  Forall tight (split LF x) /\
  tight x.
Proof.
  rewrite cleanContent_Some. split.
  - intros E. split; [|split; [|split]].
    + rewrite <- E. apply normalizeText_squeezed.
    + pose proof (normalizeText_second_pass x) as H2. rewrite !E in H2.
      rewrite H2. apply collapseNewlines_no_run.
    + rewrite <- E. apply normalizeText_lines.
    + rewrite <- E. apply normalizeText_tight.
  - intros (Hs & Hn & Hl & Ht). unfold normalizeText.
    rewrite collapseBlanks_id by exact Hs.
    rewrite collapseNewlines_id by exact Hn.
    rewrite trimLines_id by exact Hl.
    now apply tight_trim.
Qed.

(** ** The clean-up of the file and the outcomes of the extraction *)

Lemma cleanupFile_files p w :
  files (snd (cleanupFile p w)) =
  if bool_decide (p ∈ protected w) then files w else delete p (files w).
Proof.
  rewrite cleanupFile_world. destruct (files w !! p) eqn:E.
  - now destruct (bool_decide (p ∈ protected w)).
  - cbn [files]. rewrite delete_id by exact E.
    now destruct (bool_decide (p ∈ protected w)).
Qed.

Lemma cleanupFile_protected p w :
  protected (snd (cleanupFile p w)) = protected w.
Proof.
  rewrite cleanupFile_world. destruct (files w !! p);
    [destruct (bool_decide (p ∈ protected w))|]; reflexivity.
Qed.

Lemma since_self_app w delta (w' : World) :
  trace w' = trace w ++ delta -> since w w' = delta.
Proof. intros E. unfold since. now rewrite E, drop_app_length. Qed.

Lemma countUnlinks_cleanup_absent p w :
  files w !! p = None ->
  countUnlinks p (since w (snd (cleanupFile p w))) = 0%nat.
Proof.
  intros E. rewrite cleanupFile_world, E.
  now erewrite since_self_app by reflexivity.
Qed.

(** X6: [cleanupFile] changes no file but the one it is given and creates
    none; where no file exists it attempts no removal; and once it has
    removed the file, a second call attempts nothing and changes nothing. *)
Theorem cleanupFile_again (p : jsstring) (w : World) :
  let w1 := snd (cleanupFile p w) in
  let w2 := snd (cleanupFile p w1) in
  (forall q, q <> p -> files w1 !! q = files w !! q) /\
  (files w !! p = None ->
   files w1 = files w /\ countUnlinks p (since w w1) = 0%nat) /\
  (p ∉ protected w ->
   files w1 !! p = None /\
   files w2 = files w1 /\ countUnlinks p (since w1 w2) = 0%nat).
Proof.
  cbv zeta. split; [|split].
  - intros q Hq. rewrite cleanupFile_files.
    destruct (bool_decide (p ∈ protected w)); [reflexivity|].
    now apply lookup_delete_ne.
  - intros E. split; [|now apply countUnlinks_cleanup_absent].
    rewrite cleanupFile_files, delete_id by exact E.
    now destruct (bool_decide (p ∈ protected w)).
  - intros Hp.
    assert (E1 : files (snd (cleanupFile p w)) !! p = None).
    { rewrite cleanupFile_files, bool_decide_eq_false_2 by exact Hp.
      apply lookup_delete_eq. }
    split; [exact E1|]. split; [|now apply countUnlinks_cleanup_absent].
    rewrite (cleanupFile_files p (snd (cleanupFile p w))), delete_id by exact E1.
    now destruct (bool_decide _).
Qed.

Section Outcomes.
Context {libs : Libraries}.

Lemma extractFromPDF_outcome p w data :
  files w !! p = Some data ->
  fst (extractFromPDF p w) =
  match pdfParse data with
  | inl cause =>
      Thrown (newError (lit "Failed to extract text from PDF: " ++
                        message cause))
  | inr d => Returned (text d)
  end.
Proof.
  intros E. destruct w as [fs prot tr]. run.
  now destruct (pdfParse data).
Qed.

Lemma extractFromImage_outcome p w data :
  files w !! p = Some data ->
  fst (extractFromImage p w) =
  match recognize data with
  | inl cause =>
      Thrown (newError (lit "Failed to extract text from image: " ++
                        message cause))
  | inr t => Returned t
  end.
Proof.
  intros E. destruct w as [fs prot tr]. run.
  now destruct (recognize data).
Qed.

Lemma extractFromText_outcome p w data :
  files w !! p = Some data ->
  fst (extractFromText p w) = Returned (utf8Decode data).
Proof. intros E. destruct w as [fs prot tr]. run. reflexivity. Qed.

(** X7: what [extractFromFile] returns or throws for an upload that
    exists: the cleaned text of the PDF, the image or the plain text, or,
    when the PDF decoder or the recognition engine fails, an error whose
    message is the extractor's prefix followed by the message of the
    cause. *)
Theorem extractFromFile_outcome (file : MulterFile) (w : World)
    (data : list byte) :
  files w !! path file = Some data ->
  (mimetype file = lit "application/pdf" ->
   fst (extractFromFile file w) =
   match pdfParse data with
   | inl cause =>
       Thrown (newError (lit "Failed to extract text from PDF: " ++
                         message cause))
   | inr d => Returned (cleanContent (Some (text d)))
   end) /\
  (startsWith (lit "image/") (mimetype file) = true ->
   fst (extractFromFile file w) =
   match recognize data with
   | inl cause =>
       Thrown (newError (lit "Failed to extract text from image: " ++
                         message cause))
   | inr t => Returned (cleanContent (Some t))
   end) /\
  (mimetype file = lit "text/plain" ->
   fst (extractFromFile file w) =
   Returned (cleanContent (Some (utf8Decode data)))).
Proof.
  intros E. split; [|split]; intros Hm.
  - rewrite extractFromFile_pdf, fst_settle by exact Hm.
    rewrite (extractFromPDF_outcome _ _ _ E). now destruct (pdfParse data).
  - rewrite extractFromFile_image, fst_settle by exact Hm.
    rewrite (extractFromImage_outcome _ _ _ E). now destruct (recognize data).
  - rewrite extractFromFile_text, fst_settle by exact Hm.
    now rewrite (extractFromText_outcome _ _ _ E).
Qed.

Lemma extractFromPDF_missing p w :
  files w !! p = None ->
  fst (extractFromPDF p w) =
  Thrown (newError (lit "Failed to extract text from PDF: " ++
                    message (Fs.ENOENT (lit "open") p))).
Proof. intros E. destruct w as [fs prot tr]. run. reflexivity. Qed.

Lemma extractFromImage_missing p w :
  files w !! p = None ->
  fst (extractFromImage p w) =
  Thrown (newError (lit "Failed to extract text from image: " ++
                    message (Fs.ENOENT (lit "open") p))).
Proof. intros E. destruct w as [fs prot tr]. run. reflexivity. Qed.

Lemma extractFromText_missing p w :
  files w !! p = None ->
  fst (extractFromText p w) =
  Thrown (newError (lit "Failed to read text file: " ++
                    message (Fs.ENOENT (lit "open") p))).
Proof. intros E. destruct w as [fs prot tr]. run. reflexivity. Qed.

Lemma extractFromFile_files file w :
  files (snd (extractFromFile file w)) =
  if bool_decide (path file ∈ protected w) then files w
  else delete (path file) (files w).
Proof.
  destruct (extractFromFile_settles file) as (m & Hro & Heq).
  rewrite Heq, snd_settle, cleanupFile_files.
  destruct (Hro w) as (Hf & Hp & _). now rewrite Hf, Hp.
Qed.

(** X8: when no file exists at the path of the upload, [extractFromFile]
    throws the error of the extractor whose cause is the missing file,
    attempts no removal and leaves the files as they are. *)
Theorem extractFromFile_missing_file (file : MulterFile) (w : World) :
  files w !! path file = None ->
  let missing := message (Fs.ENOENT (lit "open") (path file)) in
  let w' := snd (extractFromFile file w) in
  files w' = files w /\
  countUnlinks (path file) (since w w') = 0%nat /\
  (mimetype file = lit "application/pdf" ->
   fst (extractFromFile file w) =
   Thrown (newError (lit "Failed to extract text from PDF: " ++ missing))) /\
  (startsWith (lit "image/") (mimetype file) = true ->
   fst (extractFromFile file w) =
   Thrown (newError (lit "Failed to extract text from image: " ++ missing))) /\
  (mimetype file = lit "text/plain" ->
   fst (extractFromFile file w) =
   Thrown (newError (lit "Failed to read text file: " ++ missing))).
Proof.
  intros E. cbv zeta. split; [|split; [|split; [|split]]].
  - rewrite extractFromFile_files, delete_id by exact E.
    now destruct (bool_decide _).
  - destruct (extractFromFile_settles file) as (m & Hro & Heq).
    rewrite Heq, snd_settle.
    destruct (Hro w) as (Hf & Hp & (delta & Ht & Hcount) & _).
    rewrite cleanupFile_world, Hf, E.
    erewrite since_app by (cbn [trace]; rewrite Ht; reflexivity).
    now rewrite countUnlinks_app, Hcount.
  - intros Hm. rewrite extractFromFile_pdf, fst_settle by exact Hm.
    now rewrite extractFromPDF_missing.
  - intros Hm. rewrite extractFromFile_image, fst_settle by exact Hm.
    now rewrite extractFromImage_missing.
  - intros Hm. rewrite extractFromFile_text, fst_settle by exact Hm.
    now rewrite extractFromText_missing.
Qed.

Lemma concernsOnly_throw {A} p e : concernsOnly p (@throw A e).
Proof. intros w. exists []. cbn. now rewrite app_nil_r. Qed.

Lemma extractFromPDF_concerns p : concernsOnly p (extractFromPDF p).
Proof.
  intros [fs prot tr]. run. destruct (fs !! p) eqn:E; run.
  - destruct (pdfParse l); run; eexists; rewrite <- !app_assoc;
      (split; [reflexivity|]); repeat constructor.
  - eexists. rewrite <- !app_assoc. split; [reflexivity|]. repeat constructor.
Qed.

Lemma extractFromImage_concerns p : concernsOnly p (extractFromImage p).
Proof.
  intros [fs prot tr]. run. destruct (fs !! p) eqn:E; run.
  - destruct (recognize l); run; eexists; rewrite <- !app_assoc;
      (split; [reflexivity|]); repeat constructor.
  - eexists. rewrite <- !app_assoc. split; [reflexivity|]. repeat constructor.
Qed.

Lemma extractFromText_concerns p : concernsOnly p (extractFromText p).
Proof.
  intros [fs prot tr]. run. destruct (fs !! p) eqn:E; run;
    eexists; rewrite <- !app_assoc; (split; [reflexivity|]);
    repeat constructor.
Qed.

Lemma cleanupFile_concerns p : concernsOnly p (cleanupFile p).
Proof.
  intros w. rewrite cleanupFile_world.
  destruct (files w !! p); [destruct (bool_decide (p ∈ protected w))|];
    eexists; (split; [reflexivity|]); repeat constructor.
Qed.

(** X9: [extractFromFile] writes no file, and reads, tests and removes no
    file but the upload it is given. *)
Theorem extractFromFile_concerns_its_file (file : MulterFile) (w : World) :
  Forall (concerns (path file)) (since w (snd (extractFromFile file w))).
Proof.
  assert (Hsettle : forall m : M jsstring,
             concernsOnly (path file) m ->
             Forall (concerns (path file))
                    (since w (snd (settle (path file) (m w))))).
  { intros m Hm. rewrite snd_settle.
    destruct (Hm w) as (d1 & E1 & H1).
    destruct (cleanupFile_concerns (path file) (snd (m w))) as (d2 & E2 & H2).
    erewrite since_app by (rewrite E2, E1; reflexivity).
    apply Forall_app. now split. }
  destruct (decide (mimetype file = lit "application/pdf")) as [Hp|Hp].
  { rewrite extractFromFile_pdf by exact Hp.
    apply Hsettle, extractFromPDF_concerns. }
  destruct (startsWith (lit "image/") (mimetype file)) eqn:Hi.
  { rewrite extractFromFile_image by exact Hi.
    apply Hsettle, extractFromImage_concerns. }
  destruct (decide (mimetype file = lit "text/plain")) as [Ht|Ht].
  { rewrite extractFromFile_text by exact Ht.
    apply Hsettle, extractFromText_concerns. }
  rewrite extractFromFile_other by assumption.
  apply (Hsettle (throw (unsupported (mimetype file)))), concernsOnly_throw.
Qed.

End Outcomes.

Lemma extractFromFile_outcome_witness :
  files pdfWorld !! path storedPdf = Some (toBytes helloText) /\
  mimetype storedPdf = lit "application/pdf" /\
  fst (@extractFromFile asciiLibraries storedPdf pdfWorld) =
  Thrown pdfFailure.
Proof.
  split; [reflexivity|]. split; [reflexivity|].
  exact (proj1 (@extractFromFile_outcome asciiLibraries storedPdf pdfWorld
                  (toBytes helloText) eq_refl) eq_refl).
Defined.

Lemma extractFromFile_missing_file_witness :
  files emptyWorld !! path notesFile = None /\
  files (snd (@extractFromFile asciiLibraries notesFile emptyWorld)) =
  files emptyWorld.
Proof.
  split; [reflexivity|].
  exact (proj1 (@extractFromFile_missing_file asciiLibraries notesFile
                  emptyWorld eq_refl)).
Defined.

(** ** The names of the stored files *)

Lemma lit_cons a s : lit (String a s) = N_of_ascii a :: lit s.
Proof. reflexivity. Qed.

Lemma lit_inj a b : lit a = lit b -> a = b.
Proof.
  revert b. induction a as [|x a IH]; intros [|y b]; try discriminate;
    [reflexivity|].
  rewrite !lit_cons. intros H. inversion H as [[Hx Hab]].
  f_equal; [|now apply IH].
  rewrite <- (ascii_N_embedding x), <- (ascii_N_embedding y). now f_equal.
Qed.

Lemma digits_of_uint d :
  Forall (fun c => isDigit c = true) (lit (NilEmpty.string_of_uint d)).
Proof.
  induction d; cbn [NilEmpty.string_of_uint]; try rewrite lit_cons;
    constructor; solve [reflexivity | assumption].
Qed.

Lemma to_uint_not_nil n : N.to_uint n <> Decimal.Nil.
Proof.
  destruct n as [|p]; [discriminate|]. apply DecimalPos.Unsigned.to_uint_nonnil.
Qed.

Lemma to_uint_no_leading_zero p d : Pos.to_uint p <> Decimal.D0 d.
Proof.
  intros E.
  pose proof (DecimalN.Unsigned.to_of (N.to_uint (N.pos p))) as H.
  rewrite DecimalN.Unsigned.of_to in H. cbn [N.to_uint] in H.
  destruct (Decimal.uint_eq_dec (Decimal.nzhead (Pos.to_uint p)) Decimal.Nil)
    as [Hz|Hz].
  - apply unorm_0 in Hz. rewrite Hz in H.
    now apply (DecimalPos.Unsigned.to_uint_nonzero p).
  - rewrite (unorm_nzhead _ Hz) in H. rewrite E in H at 1.
    symmetry in H. now apply nzhead_nonzero in H.
Qed.

Lemma decimal_uint n :
  decimal n = lit (NilEmpty.string_of_uint (N.to_uint n)).
Proof.
  unfold decimal, NilZero.string_of_uint.
  pose proof (to_uint_not_nil n). now destruct (N.to_uint n).
Qed.

Lemma decimal_digits n : Forall (fun c => isDigit c = true) (decimal n).
Proof. rewrite decimal_uint. apply digits_of_uint. Qed.

Lemma decimal_inj a b : decimal a = decimal b -> a = b.
Proof.
  rewrite !decimal_uint. intros H. apply lit_inj in H.
  apply (f_equal NilEmpty.uint_of_string) in H. rewrite !NilEmpty.usu in H.
  inversion H as [H']. apply (f_equal N.of_uint) in H'.
  now rewrite !DecimalN.Unsigned.of_to in H'.
Qed.

Lemma digits_then_dash d1 d2 r1 r2 :
  Forall (fun c => isDigit c = true) d1 ->
  Forall (fun c => isDigit c = true) d2 ->
  d1 ++ 45 :: r1 = d2 ++ 45 :: r2 -> d1 = d2 /\ r1 = r2.
Proof.
  intros H1. revert d2. induction H1 as [|c d1 Hc _ IH]; intros d2 H2 E.
  - destruct d2 as [|c2 d2]; simpl in E.
    + inversion E. now split.
    + inversion E; subst. inversion H2; subst. discriminate.
  - destruct d2 as [|c2 d2]; simpl in E.
    + inversion E; subst. discriminate.
    + inversion E; subst. inversion H2; subst.
      destruct (IH d2) as [-> ->]; [assumption|assumption|]. now split.
Qed.

(** X10: the name under which an upload is stored determines the time, the
    random number and the original name it was made from: two uploads get
    the same name only when all three coincide. *)
Theorem filename_injective (req req' : Request) (file file' : Part) :
  filename req file = filename req' file' ->
  now req = now req' /\ rnd req = rnd req' /\ partName file = partName file'.
Proof.
  unfold filename. change (lit "-") with [45]. rewrite <- !app_assoc.
  cbn [app]. intros E.
  apply digits_then_dash in E; try apply decimal_digits.
  destruct E as [En E]. apply digits_then_dash in E; try apply decimal_digits.
  destruct E as [Er Ename]. apply decimal_inj in En, Er. now repeat split.
Qed.

Lemma filename_injective_witness :
  filename (requestOf notesPart) notesPart =
    filename (requestOf notesPart) notesPart /\
  now (requestOf notesPart) = now (requestOf notesPart).
Proof.
  split; [reflexivity|].
  exact (proj1 (filename_injective (requestOf notesPart) (requestOf notesPart)
                  notesPart notesPart eq_refl)).
Defined.

(** ** The size limit read from the environment *)

Lemma isDigit_cases c :
  isDigit c = true ->
  c = 48 \/ c = 49 \/ c = 50 \/ c = 51 \/ c = 52 \/
  c = 53 \/ c = 54 \/ c = 55 \/ c = 56 \/ c = 57.
Proof.
  unfold isDigit. intros H. apply andb_prop in H. destruct H as [H1 H2].
  apply N.leb_le in H1, H2. lia.
Qed.

Lemma parseDigits_cons radix acc c r d :
  Js.digitValue c = Some d -> (d <? radix) = true ->
  Js.parseDigits radix acc (c :: r) =
  Js.parseDigits radix (Some (radix * default 0 acc + d)) r.
Proof. intros Hd Hr. cbn [Js.parseDigits]. now rewrite Hd, Hr. Qed.

Lemma digitValue_not_digit c :
  isDigit c = false ->
  Js.digitValue c = None \/ exists v, Js.digitValue c = Some v /\ 10 <= v.
Proof.
  unfold isDigit, Js.digitValue. intros H.
  destruct (N.leb_spec 48 c), (N.leb_spec c 57); cbn [andb] in *;
    try discriminate H;
    destruct (N.leb_spec 97 c), (N.leb_spec c 122); cbn [andb];
    try (right; eexists; split; [reflexivity|lia]);
    destruct (N.leb_spec 65 c), (N.leb_spec c 90); cbn [andb];
    try (right; eexists; split; [reflexivity|lia]);
    now left.
Qed.

Lemma parseDigits_stop acc s :
  beginsWith isDigit s = false -> Js.parseDigits 10 acc s = acc.
Proof.
  destruct s as [|c r]; [reflexivity|]. cbn [beginsWith Js.parseDigits].
  intros H. destruct (digitValue_not_digit c H) as [->|(v & -> & Hv)];
    [reflexivity|].
  destruct (N.ltb_spec v 10); [lia|reflexivity].
Qed.

Section DecimalDigits.
Variable suffix : jsstring.
Hypothesis suffix_stops : beginsWith isDigit suffix = false.

Lemma parseDigits_acc d (acc : positive) :
  Js.parseDigits 10 (Some (N.pos acc))
    (lit (NilEmpty.string_of_uint d) ++ suffix) =
  Some (N.pos (Pos.of_uint_acc d acc)).
Proof.
  revert acc. induction d; intros acc; cbn [NilEmpty.string_of_uint];
    try (rewrite lit_cons; cbn [app];
         erewrite parseDigits_cons by reflexivity;
         cbn [Pos.of_uint_acc]; rewrite <- IHd; do 2 f_equal;
         unfold default; cbn [from_option id];
         match goal with
         | |- context [N_of_ascii ?a - 48] =>
             let v := eval vm_compute in (N_of_ascii a - 48) in
             change (N_of_ascii a - 48) with v
         end; lia).
  now apply parseDigits_stop.
Qed.

Lemma parseDigits_zero d :
  Js.parseDigits 10 (Some 0) (lit (NilEmpty.string_of_uint d) ++ suffix) =
  Some (Pos.of_uint d).
Proof.
  induction d; cbn [NilEmpty.string_of_uint];
    try (rewrite lit_cons; cbn [app];
         erewrite parseDigits_cons by reflexivity;
         cbn [Pos.of_uint]; first [exact IHd | apply parseDigits_acc]).
  now apply parseDigits_stop.
Qed.

Lemma parseDigits_decimal n :
  Js.parseDigits 10 None (decimal n ++ suffix) = Some n.
Proof.
  rewrite decimal_uint.
  rewrite <- (DecimalN.Unsigned.of_to n) at 2. unfold N.of_uint.
  rewrite <- parseDigits_zero.
  pose proof (to_uint_not_nil n) as Hn.
  destruct (N.to_uint n); try congruence; reflexivity.
Qed.

Lemma parseInt_decimal n :
  n <> 0 -> Js.parseInt (decimal n ++ suffix) = Double.round n.
Proof.
  intros Hn. pose proof (parseDigits_decimal n) as Hd.
  assert (Hhead : exists c r, decimal n ++ suffix = c :: r /\
                              isDigit c = true /\ c <> 48).
  { rewrite decimal_uint. destruct n as [|p]; [congruence|].
    cbn [N.to_uint].
    pose proof (DecimalPos.Unsigned.to_uint_nonnil p) as H1.
    pose proof (DecimalPos.Unsigned.of_to p) as H2.
    destruct (Pos.to_uint p) as [|d|d|d|d|d|d|d|d|d|d] eqn:E;
      try congruence; cbn [NilEmpty.string_of_uint]; rewrite lit_cons;
      try (eexists _, _; split; [reflexivity|split; [reflexivity|discriminate]]).
    exfalso. now apply (to_uint_no_leading_zero p d). }
  destruct Hhead as (c & r & E & Hc & Hne). rewrite E in Hd |- *.
  unfold Js.parseInt, trimStart.
  destruct (isDigit_cases c Hc) as [->|[->|[->|[->|[->|[->|[->|[->|[->| ->]]]]]]]]];
    try congruence; cbn [dropWhile isWhiteSpace N.eqb Pos.eqb orb andb];
    cbn -[Js.parseDigits Double.round];
    cbn -[Js.parseDigits Double.round] in Hd;
    rewrite Hd; reflexivity.
Qed.

End DecimalDigits.

Lemma truthy_ofN n : Double.truthy (Double.ofN n) = negb (n =? 0).
Proof.
  unfold Double.truthy, Double.ofN, Double.ofZ, QArith_base.Qeq_bool.
  cbn [QArith_base.inject_Z QArith_base.Qnum QArith_base.Qden].
  rewrite !Z.mul_1_r. f_equal.
  destruct n; reflexivity.
Qed.

Lemma round_exact n : n < 2 ^ 53 -> Double.round n = Double.ofN n.
Proof.
  intros H. unfold Double.round. apply N.ltb_lt in H. now rewrite H.
Qed.

Lemma round_truthy n : n <> 0 -> Double.truthy (Double.round n) = true.
Proof.
  intros Hn. unfold Double.round.
  destruct (N.ltb_spec n (2 ^ 53)) as [Hs|Hl].
  - rewrite truthy_ofN. apply negb_true_iff. now apply N.eqb_neq.
  - cbv zeta.
    match goal with
    | |- context [N.shiftl ?q' (N.log2 n - 52) <? 2 ^ 1024] =>
        set (v := N.shiftl q' (N.log2 n - 52)); set (m := q') in v
    end.
    destruct (v <? 2 ^ 1024); [|reflexivity].
    rewrite truthy_ofN. apply negb_true_iff, N.eqb_neq.
    subst v. rewrite N.shiftl_mul_pow2.
    assert (Hq : 1 <= N.shiftr n (N.log2 n - 52)).
    { rewrite N.shiftr_div_pow2. apply N.div_le_lower_bound.
      - apply N.pow_nonzero. discriminate.
      - rewrite N.mul_1_r.
        transitivity (2 ^ N.log2 n).
        + apply N.pow_le_mono_r; [discriminate|]. apply N.le_sub_l.
        + apply N.log2_spec. lia. }
    assert (Hm : 1 <= m).
    { subst m. destruct (_ || _); lia. }
    assert (Hp : 2 ^ (N.log2 n - 52) <> 0) by (apply N.pow_nonzero; discriminate).
    nia.
Qed.

(** X11: the size limit is never zero nor [NaN]; when [MAX_FILE_SIZE]
    holds the decimal form of a number [n] that is not zero, followed or
    not by text that does not begin with a digit, the limit is the double
    nearest to [n], which is [n] itself below 2^53; and when it holds
    ["0"], the limit is the default of 10 MiB. *)
Theorem fileSizeLimit_configured (env : Env) :
  Double.truthy (fileSizeLimit env) = true /\
  (forall n suffix,
      n <> 0 -> beginsWith isDigit suffix = false ->
      MAX_FILE_SIZE env = Some (decimal n ++ suffix) ->
      fileSizeLimit env = Double.round n /\
      (n < 2 ^ 53 -> fileSizeLimit env = Double.ofN n)) /\
  (MAX_FILE_SIZE env = Some (lit "0") ->
   fileSizeLimit env = Double.ofZ (10 * 1024 * 1024)).
Proof.
  split; [|split].
  - unfold fileSizeLimit, Js.orNumber.
    destruct (Double.truthy (Js.parseInt _)) eqn:E; [exact E|reflexivity].
  - intros n suffix Hn Hs E.
    assert (H : fileSizeLimit env = Double.round n).
    { unfold fileSizeLimit. rewrite E. cbn [Js.toString].
      rewrite (parseInt_decimal suffix Hs n Hn).
      unfold Js.orNumber. now rewrite round_truthy. }
    split; [exact H|]. intros Hsmall. now rewrite H, round_exact.
  - intros E. unfold fileSizeLimit. now rewrite E.
Qed.

Example fileSizeLimit_with_unit :
  fileSizeLimit {| MAX_FILE_SIZE := Some (lit "10MB");
                   uploadsDir := lit "/app/uploads" |} = Double.ofZ 10.
Proof. reflexivity. Qed.

(** Beyond 2^53 the limit is the nearest double: 2^53 + 1 is read as
    2^53. *)
Example fileSizeLimit_rounds :
  fileSizeLimit {| MAX_FILE_SIZE := Some (lit "9007199254740993");
                   uploadsDir := lit "/app/uploads" |} =
  Double.ofZ 9007199254740992.
Proof. vm_compute. reflexivity. Qed.

(** ** What the upload middleware lets through *)

Section Admission.
Context {libs : Libraries}.


End Admission.


(** ** An upload from its arrival to the answer *)

Section UploadRoundTrip.
Context {libs : Libraries}.

Lemma uploadSingle_stores env req file w :
  part req = Some file -> accepted env file = true ->
  uploadSingle env req w =
  (Returned (Some {| path := storedPath env req file;
                     mimetype := partType file;
                     originalname := partName file |}),
   {| files := <[storedPath env req file := partData file]> (files w);
      protected := protected w;
      trace := trace w ++ [FsWrite (storedPath env req file)] |}).
Proof.
  intros Hp Ha. unfold accepted in Ha. apply andb_prop in Ha.
  destruct Ha as [Hi Hl]. unfold uploadSingle, fileFilter.
  rewrite Hp, Hi, Hl. reflexivity.
Qed.

Lemma uploadSingle_refuses env req file w :
  part req = Some file -> accepted env file = false ->
  exists e, uploadSingle env req w = (Thrown e, w).
Proof.
  intros Hp Ha. unfold accepted in Ha. unfold uploadSingle, fileFilter.
  rewrite Hp. destruct (includes allowedTypes (partType file));
    [|eexists; reflexivity].
  cbn [andb] in Ha. rewrite Ha. eexists. reflexivity.
Qed.

Lemma tryCatch_errorMiddleware_files {A} (m : M A) (k : A -> Response) w :
  files (snd (tryCatch (let* a := m in ret (k a))
                       (fun error => errorMiddleware error) w)) =
  files (snd (m w)).
Proof.
  unfold tryCatch, bind, ret. destruct (m w) as [[a|e] w1]; reflexivity.
Qed.

(** X12: an upload leaves no file behind.  When the removal of the stored
    file is not refused, the files after the answer to an accepted upload
    are the files before it without the path it was stored at; if no file
    was there before, nothing has changed.  A refused upload changes no
    file. *)
Theorem handleUpload_leaves_no_file (env : Env) (req : Request)
    (file : Part) (w : World) :
  part req = Some file ->
  storedPath env req file ∉ protected w ->
  let w' := snd (handleUpload env req w) in
  files w' =
    (if accepted env file then delete (storedPath env req file) (files w)
     else files w) /\
  (files w !! storedPath env req file = None -> files w' = files w).
Proof.
  intros Hp Hprot. cbv zeta.
  assert (H : files (snd (handleUpload env req w)) =
              if accepted env file
              then delete (storedPath env req file) (files w)
              else files w).
  { destruct (accepted env file) eqn:Ha.
    - rewrite (handleUpload_accepted _ _ _ _ _
                 (uploadSingle_stores env req file w Hp Ha)).
      rewrite (tryCatch_errorMiddleware_files (extractFromFile _)).
      rewrite extractFromFile_files. cbn [path announced emit snd protected files].
      rewrite bool_decide_eq_false_2 by exact Hprot.
      apply delete_insert_eq.
    - destruct (uploadSingle_refuses env req file w Hp Ha) as [e He].
      unfold handleUpload, tryCatch, bind. rewrite He. reflexivity. }
  split; [exact H|]. intros Hfresh. rewrite H.
  destruct (accepted env file); [now apply delete_id|reflexivity].
Qed.

End UploadRoundTrip.

Lemma handleUpload_leaves_no_file_witness :
  part (requestOf notesPart) = Some notesPart /\
  (storedPath defaultEnv (requestOf notesPart) notesPart
     ∉ protected emptyWorld) /\
  files emptyWorld !! storedPath defaultEnv (requestOf notesPart) notesPart =
    None /\
  files (snd (@handleUpload asciiLibraries defaultEnv (requestOf notesPart)
                emptyWorld)) = files emptyWorld.
Proof.
  assert (Hp : storedPath defaultEnv (requestOf notesPart) notesPart
               ∉ protected emptyWorld) by (cbn [protected emptyWorld]; set_solver).
  split; [reflexivity|]. split; [exact Hp|]. split; [reflexivity|].
  exact (proj2 (@handleUpload_leaves_no_file asciiLibraries defaultEnv
                  (requestOf notesPart) notesPart emptyWorld eq_refl Hp)
               eq_refl).
Defined.

(** ** The errors of the runtime *)

Lemma thrownByRuntime_plain e : thrownByRuntime e -> plainError e.
Proof.
  intros [->|[[callee ->]|[(base & property & ->)|
                           (property & holder & base & ->)]]];
    (split; [reflexivity|]); cbn [TypeError.cannotConvert
      TypeError.notAFunction TypeError.cannotRead TypeError.cannotDestructure
      newError message].
  - discriminate.
  - intros E. apply app_eq_nil in E as [_ E]. discriminate E.
  - discriminate.
  - discriminate.
Qed.

Lemma errorMiddleware_crash e w :
  thrownByRuntime e ->
  errorMiddleware e w = (Returned (crashResponse e), reported e w).
Proof.
  intros H. apply thrownByRuntime_plain in H as [Hs Hm].
  unfold errorMiddleware, crashResponse, reported, failure, bind, emit, ret.
  cbn [snd]. rewrite Hs. destruct (message e); [congruence|reflexivity].
Qed.

Lemma next_crash {D} e w :
  thrownByRuntime e ->
  @next D e w = (Returned (Sent (crashResponse e)), reported e w).
Proof.
  intros H. unfold next, bind, ret. now rewrite errorMiddleware_crash.
Qed.

Lemma next_wrapped {D} (prefix : jsstring) (cause : JsError) (w : World) :
  prefix <> [] ->
  @next D (newError (prefix ++ message cause)) w =
  (Returned (serverError (prefix ++ message cause)),
   snd (emit (ConsoleError (lit "Error:")
                (newError (prefix ++ message cause))) w)).
Proof.
  intros Hp. unfold next, errorMiddleware, bind, emit, ret, serverError, failure.
  cbn [newError message status Js.orStatus snd].
  destruct prefix as [|c prefix]; [congruence|]. reflexivity.
Qed.

Lemma cannotConvert_thrown : thrownByRuntime TypeError.cannotConvert.
Proof. now left. Qed.

Lemma notAFunction_thrown callee :
  thrownByRuntime (TypeError.notAFunction callee).
Proof. right. left. now exists callee. Qed.

Lemma cannotRead_thrown base property :
  thrownByRuntime (TypeError.cannotRead base property).
Proof. right. right. left. now exists base, property. Qed.

Lemma cannotDestructure_thrown property holder base :
  thrownByRuntime (TypeError.cannotDestructure property holder base).
Proof. right. right. right. now exists property, holder, base. Qed.

Create HintDb runtime.

#[local] Hint Resolve cannotConvert_thrown notAFunction_thrown
  cannotRead_thrown cannotDestructure_thrown : runtime.

Section Conversions.
Context {engine : Engine}.

Lemma printItems_error (print : Value -> JsError + jsstring) items e :
  Forall (fun item => forall e, print item = inl e ->
                                e = TypeError.cannotConvert) items ->
  JsValue.printItems print items = inl e -> e = TypeError.cannotConvert.
Proof.
  induction 1 as [|item rest Hitem Hrest IH]; cbn [JsValue.printItems].
  - discriminate.
  - destruct (match item with
              | VUndefined | VNull => inr []
              | _ => print item
              end) as [e0|s] eqn:E.
    + intros [= <-]. destruct item; try discriminate E; now apply Hitem.
    + destruct (JsValue.printItems print rest) as [e1|ss]; [|discriminate].
      intros [= <-]. now apply IH.
Qed.

Lemma toStr_error v e :
  JsValue.toStr v = inl e -> e = TypeError.cannotConvert.
Proof.
  revert e. induction v as [| |b|x|s|items IH|fields] using value_ind;
    intros e; cbn [JsValue.toStr]; try discriminate.
  - destruct (JsValue.printItems JsValue.toStr items) as [e0|ss] eqn:E;
      [|discriminate].
    intros [= <-]. now apply (printItems_error _ _ _ IH E).
  - destruct (JsValue.has _ fields); [|discriminate]. now intros [= <-].
Qed.

Lemma joinValues_error sep items e :
  JsValue.joinValues sep items = inl e -> e = TypeError.cannotConvert.
Proof.
  unfold JsValue.joinValues, andThen.
  destruct (JsValue.printItems JsValue.toStr items) as [e0|ss] eqn:E;
    [|discriminate].
  intros [= <-]. apply (printItems_error JsValue.toStr items e0); [|exact E].
  apply List.Forall_forall. intros item _ e1. apply toStr_error.
Qed.

Lemma toNumber_error v e :
  JsValue.toNumber v = inl e -> e = TypeError.cannotConvert.
Proof.
  destruct v; cbn [JsValue.toNumber]; try discriminate;
    unfold andThen;
    match goal with
    | |- context [JsValue.toStr ?u] =>
        destruct (JsValue.toStr u) as [e0|s] eqn:E; [|discriminate]
    end; intros [= <-]; now apply toStr_error in E.
Qed.

Lemma toNumber_toStr v x :
  JsValue.toNumber v = inr x -> exists s, JsValue.toStr v = inr s.
Proof.
  destruct v; cbn [JsValue.toNumber]; try (intros _; eexists; reflexivity);
    unfold andThen;
    match goal with
    | |- context [JsValue.toStr ?u] =>
        destruct (JsValue.toStr u) as [e0|s] eqn:E; [discriminate|]
    end; intros _; now exists s.
Qed.

Lemma lessThan_error v c e :
  JsValue.lessThan v c = inl e -> e = TypeError.cannotConvert.
Proof.
  unfold JsValue.lessThan, andThen.
  destruct (JsValue.toNumber v) eqn:E; [|discriminate].
  intros [= <-]. now apply toNumber_error in E.
Qed.

Lemma greaterThan_error v c e :
  JsValue.greaterThan v c = inl e -> e = TypeError.cannotConvert.
Proof.
  unfold JsValue.greaterThan, andThen.
  destruct (JsValue.toNumber v) eqn:E; [|discriminate].
  intros [= <-]. now apply toNumber_error in E.
Qed.

End Conversions.

Lemma lengthOf_error v e :
  JsValue.lengthOf v = inl e -> e = TypeError.cannotRead v "length".
Proof. destruct v; cbn; try discriminate; now intros [= <-]. Qed.

Lemma arrayOf_error name method v e :
  JsValue.arrayOf name method v = inl e -> thrownByRuntime e.
Proof.
  destruct v; cbn; try discriminate; intros [= <-]; auto with runtime.
Qed.

Lemma read_error key v e :
  JsValue.read key v = inl e -> thrownByRuntime e.
Proof.
  unfold JsValue.read. destruct (JsValue.nullish v); [|discriminate].
  intros [= <-]. auto with runtime.
Qed.

Lemma trimOf_error name v e :
  JsValue.trimOf name v = inl e -> thrownByRuntime e.
Proof.
  destruct v; cbn; try discriminate; intros [= <-]; auto with runtime.
Qed.

Lemma substringOf_error name n v e :
  JsValue.substringOf name n v = inl e -> thrownByRuntime e.
Proof.
  destruct v; cbn; try discriminate; intros [= <-]; auto with runtime.
Qed.

(** ** The route for pasted text *)

Lemma trim_empty_iff s : trim s = [] <-> forallb isWhiteSpace s = true.
Proof.
  rewrite visible_white, <- (visible_trim s). split.
  - now intros ->.
  - apply tight_visible, trim_tight.
Qed.

Lemma blank_string name s :
  JsValue.blank name (VStr s) = inr (forallb isWhiteSpace s).
Proof.
  unfold JsValue.blank, andThen. cbn [JsValue.truthy JsValue.trimOf].
  destruct s as [|c s]; [reflexivity|]. cbn [length Nat.eqb negb].
  f_equal. unfold jsLength.
  destruct (forallb isWhiteSpace (c :: s)) eqn:E.
  - apply trim_empty_iff in E. now rewrite E.
  - destruct (trim (c :: s)) eqn:T; [|reflexivity].
    apply trim_empty_iff in T. congruence.
Qed.

Lemma blank_isBlankText name v :
  isBlankText v -> JsValue.blank name v = inr true.
Proof.
  intros [H|(s & -> & H)].
  - unfold JsValue.blank. now rewrite H.
  - now rewrite blank_string, H.
Qed.

Lemma blank_hasText name v :
  hasText v -> JsValue.blank name v = inr false.
Proof. intros (s & -> & H). now rewrite blank_string, H. Qed.

Lemma blank_truthyNonString name v :
  truthyNonString v ->
  JsValue.blank name v = inl (TypeError.notAFunction (name ++ ".trim")).
Proof.
  intros [Ht Hs]. unfold JsValue.blank, andThen. rewrite Ht. cbn [negb].
  destruct v; try discriminate Ht; try reflexivity.
  now contradiction (Hs s).
Qed.

(** A value is a blank text, a text, or a truthy value that is no
    string. *)
Lemma value_cases v : isBlankText v \/ hasText v \/ truthyNonString v.
Proof.
  destruct (JsValue.truthy v) eqn:Ht; [|left; now left].
  destruct v; try discriminate Ht;
    try (right; right; split; [exact Ht|discriminate]).
  destruct (forallb isWhiteSpace s) eqn:E.
  - left. right. now exists s.
  - right. left. now exists s.
Qed.

Lemma destructure_nullish first holder v :
  JsValue.nullish v = true ->
  JsValue.destructure first holder v =
  inl (TypeError.cannotDestructure first holder v).
Proof. intros H. unfold JsValue.destructure. now rewrite H. Qed.

Lemma destructure_object first holder v :
  JsValue.nullish v = false ->
  JsValue.destructure first holder v = inr (fun key => JsValue.get key v).
Proof. intros H. unfold JsValue.destructure. now rewrite H. Qed.

(** X13: [POST /text] reads the property [text] of the body.  When it is
    falsy or a string of white space, the answer is 400 with "No text
    content provided", without any effect.  When it is a string with a
    character that is not white space, the answer is 200 with the trimmed
    text, which is not empty, neither begins nor ends with white space and
    has the characters of the text that are not white space, and with its
    length.  When it is truthy and no string, the call of [trim] fails and
    the error-handling middleware answers 500 with the message of the
    runtime; and so it does when the body itself is [null] or
    [undefined]. *)
Theorem postText_answers (reqBody : Value) (w : World) :
  let text := JsValue.get "text" reqBody in
  (JsValue.nullish reqBody = true ->
   postText reqBody w =
   (Returned (crashResponse
                (TypeError.cannotDestructure "text" "req.body" reqBody)),
    reported (TypeError.cannotDestructure "text" "req.body" reqBody) w)) /\
  (JsValue.nullish reqBody = false ->
   (isBlankText text ->
    postText reqBody w =
    (Returned {| code := 400;
                 body := failure (lit "No text content provided") |}, w)) /\
   (forall s, text = VStr s -> forallb isWhiteSpace s = false ->
    postText reqBody w =
    (Returned {| code := 200;
                 body := JObj
                   [ ("success"%string, JBool true);
                     ("data"%string, JObj
                       [ ("content"%string, JStr (trim s));
                         ("contentLength"%string,
                          JNum (N.of_nat (length (trim s)))) ]) ] |},
     w) /\
    trim s <> [] /\ tight (trim s) /\ visible (trim s) = visible s) /\
   (truthyNonString text ->
    postText reqBody w =
    (Returned (crashResponse (TypeError.notAFunction "text.trim")),
     reported (TypeError.notAFunction "text.trim") w))).
Proof.
  cbv zeta. split.
  - intros Hn. unfold postText, tryCatch, bind, liftLib.
    rewrite destructure_nullish by exact Hn. unfold throw.
    apply errorMiddleware_crash. auto with runtime.
  - intros Hn. split; [|split].
    + intros Hb. unfold postText, tryCatch, bind, liftLib.
      rewrite destructure_object by exact Hn. unfold ret at 1.
      now rewrite (blank_isBlankText "text" _ Hb).
    + intros s Es Hs.
      assert (Hne : trim s <> []).
      { intros E. apply trim_empty_iff in E. congruence. }
      split; [|split; [exact Hne|split; [apply trim_tight|apply visible_trim]]].
      unfold postText, tryCatch, bind, liftLib.
      rewrite destructure_object by exact Hn. unfold ret at 1.
      rewrite Es, blank_string, Hs. reflexivity.
    + intros Ht. unfold postText, tryCatch, bind, liftLib.
      rewrite destructure_object by exact Hn. unfold ret at 1.
      rewrite (blank_truthyNonString "text" _ Ht). unfold throw.
      apply errorMiddleware_crash. auto with runtime.
Qed.

Example postText_blank :
  fst (postText (bodyOf [("text"%string, VStr (lit "   " ++ [LF; TAB]))])
         emptyWorld) =
  Returned {| code := 400; body := failure (lit "No text content provided") |}.
Proof. reflexivity. Qed.

(** A text that is a number is answered with status 500. *)
Example postText_number :
  fst (postText (bodyOf [("text"%string, VNum (Double.ofZ 123))])
         emptyWorld) =
  Returned {| code := 500;
              body := failure (lit "text.trim is not a function") |}.
Proof. reflexivity. Qed.

(** ** The quiz service *)

Lemma bind_liftLib {A B} (r : JsError + A) (k : A -> M B) (w : World) :
  bind (liftLib r) k w =
  match r with
  | inl e => (Thrown e, w)
  | inr a => k a w
  end.
Proof. destruct r; reflexivity. Qed.

Section QuizService.
Context {assistant : Assistant} {engine : Engine}.

Lemma topicsLine_error specificTopics e :
  topicsLine specificTopics = inl e -> thrownByRuntime e.
Proof.
  unfold topicsLine, andThen.
  destruct (JsValue.lengthOf specificTopics) as [e0|size] eqn:El.
  { intros [= <-]. apply lengthOf_error in El. subst. auto with runtime. }
  destruct (JsValue.greaterThan size _) as [e0|some] eqn:Eg.
  { intros [= <-]. apply greaterThan_error in Eg. subst. auto with runtime. }
  destruct some; [|discriminate].
  destruct (JsValue.arrayOf _ _ specificTopics) as [e0|items] eqn:Ea.
  { intros [= <-]. now apply arrayOf_error in Ea. }
  destruct (JsValue.joinValues _ items) as [e0|listed] eqn:Ej; [|discriminate].
  intros [= <-]. apply joinValues_error in Ej. subst. auto with runtime.
Qed.

Lemma buildUserPrompt_error options e :
  buildUserPrompt options = inl e -> thrownByRuntime e.
Proof.
  unfold buildUserPrompt, andThen.
  destruct (JsValue.toStr (Generate.numberOfQuestions options))
    as [e0|number] eqn:En.
  { intros [= <-]. apply toStr_error in En. subst. auto with runtime. }
  destruct (topicsLine (Generate.specificTopics options)) as [e0|topics] eqn:Et.
  { intros [= <-]. now apply topicsLine_error in Et. }
  discriminate.
Qed.

Lemma generateQuiz_cases options isoTime w :
  (exists e,
     buildUserPrompt options = inl e /\
     generateQuiz options isoTime w = (Thrown e, w)) \/
  (exists userPrompt,
     buildUserPrompt options = inr userPrompt /\
     ((exists quiz count,
         generated userPrompt quiz count /\
         generateQuiz options isoTime w =
         (Returned {| Generate.quiz := quiz;
                      Generate.metadata :=
                        {| Generate.totalQuestions := count;
                           Generate.metaDifficulty :=
                             Generate.difficulty options;
                           Generate.metaQuestionTypes :=
                             Generate.questionTypes options;
                           Generate.generatedAt := isoTime |} |},
          snd (emit (ConsoleLog (Sign.check ++ lit " Generated " ++
                                 showCounted count ++ lit " questions")) w))) \/
      serviceFails (lit "Quiz generation error:")
        (lit "Failed to generate quiz: ") w
        (generateQuiz options isoTime w))).
Proof.
  unfold generateQuiz. rewrite bind_liftLib.
  destruct (buildUserPrompt options) as [e|userPrompt] eqn:Eb.
  { left. now exists e. }
  right. exists userPrompt. split; [reflexivity|].
  unfold generated, serviceFails, tryCatch, bind, liftLib, throw, ret, emit.
  destruct (createCompletion _) as [e|answer] eqn:Ea; [right; now exists e|].
  destruct (jsonParse answer) as [e|quiz] eqn:Ep; [right; now exists e|].
  destruct (countQuestions quiz) as [e|count] eqn:Ec; [right; now exists e|].
  left. exists quiz, count. split; [|reflexivity].
  eexists _, answer.
  split; [|split; [|split; [exact Ea|split; [exact Ep|exact Ec]]]];
    reflexivity.
Qed.

Lemma analyzeTopics_cases content w :
  (exists topics, analyzeTopics content w = (Returned topics, w)) \/
  serviceFails (lit "Topic analysis error:") (lit "Failed to analyze topics: ")
    w (analyzeTopics content w).
Proof.
  unfold analyzeTopics, serviceFails, tryCatch, bind, liftLib, throw, ret, emit.
  destruct (createCompletion _) as [e|answer]; [right; now exists e|].
  destruct (jsonParse answer) as [e|topics]; [right; now exists e|].
  left. now exists topics.
Qed.

Lemma helpPrompt_error questionData e :
  helpPrompt questionData = inl e -> e = TypeError.cannotConvert.
Proof.
  unfold helpPrompt, andThen.
  repeat match goal with
  | |- context [JsValue.toStr ?v] =>
      let E := fresh "E" in
      destruct (JsValue.toStr v) eqn:E;
        [intros [= <-]; now apply toStr_error in E|]
  | |- context [if ?b then _ else _] => destruct b
  end; discriminate.
Qed.

Lemma getDetailedExplanation_cases questionData w :
  (exists e,
     helpPrompt questionData = inl e /\
     getDetailedExplanation questionData w = (Thrown e, w)) \/
  (exists prompt,
     helpPrompt questionData = inr prompt /\
     ((exists answer shown,
         JsValue.toStr (JsValue.or (Help.topic questionData)
                                   (VStr (lit "general"))) = inr shown /\
         getDetailedExplanation questionData w =
         (Returned {| Help.detailedExplanation := answer;
                      Help.resultQuestion := Help.question questionData;
                      Help.resultCorrectAnswer :=
                        Help.correctAnswer questionData;
                      Help.resultTopic := Help.topic questionData |},
          snd (emit (ConsoleLog (Sign.check ++
                                 lit " AI Help generated for topic: " ++
                                 shown)) w))) \/
      serviceFails (lit "AI Help error:") (lit "Failed to get AI help: ")
        w (getDetailedExplanation questionData w))).
Proof.
  unfold getDetailedExplanation. rewrite bind_liftLib.
  destruct (helpPrompt questionData) as [e|prompt] eqn:Eb.
  { left. now exists e. }
  right. exists prompt. split; [reflexivity|].
  unfold serviceFails, tryCatch, bind, liftLib, throw, ret, emit.
  destruct (createCompletion _) as [e|answer]; [right; now exists e|].
  destruct (JsValue.toStr _) as [e|shown] eqn:Es; [right; now exists e|].
  left. now exists answer, shown.
Qed.

Lemma copyHistory_error items e :
  copyHistory items = inl e -> thrownByRuntime e.
Proof.
  induction items as [|msg rest IH]; cbn [copyHistory]; [discriminate|].
  unfold andThen.
  destruct (JsValue.read "role" msg) as [e0|role] eqn:Er.
  { intros [= <-]. now apply read_error in Er. }
  destruct (JsValue.read "content" msg) as [e0|content] eqn:Ec.
  { intros [= <-]. now apply read_error in Ec. }
  destruct (copyHistory rest) as [e0|copied]; [|discriminate].
  intros [= <-]. now apply IH.
Qed.

Lemma tutorMessages_error options e :
  tutorMessages options = inl e -> thrownByRuntime e.
Proof.
  unfold tutorMessages, andThen.
  destruct (JsValue.toStr (Tutor.question options)) as [e0|asked] eqn:E1.
  { intros [= <-]. apply toStr_error in E1. subst. auto with runtime. }
  destruct (JsValue.toStr (Tutor.correctAnswer options))
    as [e0|expected] eqn:E2.
  { intros [= <-]. apply toStr_error in E2. subst. auto with runtime. }
  destruct (JsValue.toStr (JsValue.or _ _)) as [e0|named] eqn:E3.
  { intros [= <-]. apply toStr_error in E3. subst. auto with runtime. }
  destruct (JsValue.truthy (Tutor.chatHistory options)); [|discriminate].
  destruct (JsValue.lengthOf _) as [e0|size] eqn:El.
  { intros [= <-]. apply lengthOf_error in El. subst. auto with runtime. }
  destruct (JsValue.greaterThan size _) as [e0|some] eqn:Eg.
  { intros [= <-]. apply greaterThan_error in Eg. subst. auto with runtime. }
  destruct some; [|discriminate].
  destruct (JsValue.arrayOf _ _ _) as [e0|items] eqn:Ea.
  { intros [= <-]. now apply arrayOf_error in Ea. }
  destruct (copyHistory items) as [e0|copied] eqn:Ec; [|discriminate].
  intros [= <-]. now apply copyHistory_error in Ec.
Qed.

Lemma chatWithTutor_cases options w :
  (exists e,
     tutorMessages options = inl e /\
     chatWithTutor options w = (Thrown e, w)) \/
  (exists sent,
     tutorMessages options = inr sent /\
     ((exists answer, chatWithTutor options w = (Returned answer, w)) \/
      serviceFails (lit "Chat error:") (lit "Failed to chat with AI: ")
        w (chatWithTutor options w))).
Proof.
  unfold chatWithTutor. rewrite bind_liftLib.
  destruct (tutorMessages options) as [e|sent] eqn:Eb.
  { left. now exists e. }
  right. exists sent. split; [reflexivity|].
  unfold serviceFails, tryCatch, bind, liftLib, throw, ret, emit.
  destruct (createCompletion _) as [e|answer]; [right; now exists e|].
  left. now exists answer.
Qed.

End QuizService.

(** ** The route that generates a quiz *)

Lemma tryCatch_liftLib {A B} (r : JsError + A) (k : A -> M B)
    (handler : JsError -> M B) (w : World) :
  tryCatch (bind (liftLib r) k) handler w =
  match r with
  | inl e => handler e w
  | inr a => tryCatch (k a) handler w
  end.
Proof. destruct r; reflexivity. Qed.

Lemma tryCatch_if {B} (b : bool) (m1 m2 : M B) (handler : JsError -> M B)
    (w : World) :
  tryCatch (if b then m1 else m2) handler w =
  if b then tryCatch m1 handler w else tryCatch m2 handler w.
Proof. destruct b; reflexivity. Qed.

Lemma tryCatch_badRequest {D} (msg : string) (handler : JsError -> M (Reply D))
    (w : World) :
  tryCatch (badRequest msg) handler w = (Returned (badReply (lit msg)), w).
Proof. reflexivity. Qed.

Section GenerateRoute.
Context {assistant : Assistant} {engine : Engine}.

(** The checks of the route, one after the other, and what follows
    them. *)
Lemma postGenerate_steps reqBody isoTime w :
  JsValue.nullish reqBody = false ->
  postGenerate reqBody isoTime w =
  match JsValue.blank "content" (JsValue.get "content" reqBody) with
  | inl e => next e w
  | inr true =>
      (Returned (badReply (lit "Content is required to generate quiz")), w)
  | inr false =>
      match (let? below := JsValue.lessThan (askedNumber reqBody)
                                            (Double.ofZ 1) in
             if below then inr true
             else JsValue.greaterThan (askedNumber reqBody) (Double.ofZ 30))
      with
      | inl e => next e w
      | inr true =>
          (Returned (badReply
             (lit "Number of questions must be between 1 and 30")), w)
      | inr false =>
          if negb (JsValue.includedIn validDifficulties
                     (askedDifficulty reqBody))
          then (Returned (badReply
                  (lit "Difficulty must be: easy, medium, or hard")), w)
          else
            match JsValue.arrayOf "questionTypes" "filter"
                    (askedTypes reqBody) with
            | inl e => next e w
            | inr types =>
                let invalidTypes :=
                  List.filter
                    (fun type =>
                       negb (JsValue.includedIn validQuestionTypes type))
                    types in
                if (0 <? length invalidTypes)%nat then
                  match JsValue.joinValues (lit ", ") invalidTypes with
                  | inl e => next e w
                  | inr listed =>
                      (Returned (badReply (lit "Invalid question types: " ++
                                           listed)), w)
                  end
                else
                  match JsValue.toStr (askedNumber reqBody) with
                  | inl e => next e w
                  | inr number =>
                      match JsValue.toStr (askedDifficulty reqBody) with
                      | inl e => next e w
                      | inr level =>
                          match generateQuiz (optionsOf reqBody) isoTime
                                  (snd (emit (ConsoleLog
                                     (Sign.target ++ lit " Generating quiz: " ++
                                      number ++ lit " questions, " ++
                                      level ++ lit " difficulty")) w)) with
                          | (Returned quiz, w2) => (Returned (SentData quiz), w2)
                          | (Thrown e, w2) => next e w2
                          end
                      end
                  end
            end
      end
  end.
Proof.
  intros Hn. unfold postGenerate.
  rewrite tryCatch_liftLib, destructure_object by exact Hn.
  cbv beta zeta.
  fold (askedNumber reqBody) (askedDifficulty reqBody) (askedTypes reqBody)
       (askedTopics reqBody) (askedPriority reqBody).
  rewrite tryCatch_liftLib.
  destruct (JsValue.blank "content" _) as [e|[|]]; [reflexivity|reflexivity|].
  rewrite tryCatch_liftLib.
  destruct (andThen _ _) as [e|[|]]; [reflexivity|reflexivity|].
  rewrite tryCatch_if.
  destruct (negb _); [reflexivity|].
  rewrite tryCatch_liftLib.
  destruct (JsValue.arrayOf _ _ _) as [e|types] eqn:Ea; [reflexivity|].
  rewrite tryCatch_if.
  destruct (0 <? _)%nat.
  { rewrite tryCatch_liftLib.
    destruct (JsValue.joinValues _ _); reflexivity. }
  rewrite tryCatch_liftLib.
  destruct (JsValue.toStr (askedNumber reqBody)) as [e|number]; [reflexivity|].
  rewrite tryCatch_liftLib.
  destruct (JsValue.toStr (askedDifficulty reqBody)) as [e|level];
    [reflexivity|].
  assert (Ho : optionsOf reqBody =
    {| Generate.content := JsValue.text (JsValue.get "content" reqBody);
       Generate.numberOfQuestions := askedNumber reqBody;
       Generate.difficulty := JsValue.text (askedDifficulty reqBody);
       Generate.questionTypes := map JsValue.text types;
       Generate.specificTopics := askedTopics reqBody;
       Generate.prioritizeImportant := askedPriority reqBody |}).
  { unfold optionsOf. destruct (askedTypes reqBody); try discriminate Ea.
    now injection Ea as ->. }
  rewrite Ho. unfold tryCatch, bind, emit, ret. cbn [snd].
  match goal with
  | |- context [generateQuiz ?o ?t ?w0] =>
      destruct (generateQuiz o t w0) as [[quiz|e] w2]
  end; reflexivity.
Qed.

End GenerateRoute.

Section GenerateRoute.
Context {assistant : Assistant} {engine : Engine}.

Lemma rangeCheck_number v x :
  JsValue.toNumber v = inr x ->
  (let? below := JsValue.lessThan v (Double.ofZ 1) in
   if below then inr true else JsValue.greaterThan v (Double.ofZ 30)) =
  inr (Double.ltb x (Double.ofZ 1) || Double.ltb (Double.ofZ 30) x).
Proof.
  intros E. unfold JsValue.lessThan, JsValue.greaterThan, andThen.
  rewrite E. now destruct (Double.ltb x _).
Qed.

Lemma rangeCheck_error v e :
  JsValue.toNumber v = inl e ->
  (let? below := JsValue.lessThan v (Double.ofZ 1) in
   if below then inr true else JsValue.greaterThan v (Double.ofZ 30)) =
  inl e.
Proof.
  intros E. unfold JsValue.lessThan, andThen. now rewrite E.
Qed.

Lemma notOutside_check x :
  notOutside x <->
  Double.ltb x (Double.ofZ 1) || Double.ltb (Double.ofZ 30) x = false.
Proof. unfold notOutside. now rewrite orb_false_iff. Qed.

Lemma invalid_nil (types : list Value) :
  List.filter (fun type => negb (JsValue.includedIn validQuestionTypes type))
              types = [] <->
  Forall (fun type => JsValue.includedIn validQuestionTypes type = true) types.
Proof.
  induction types as [|t types IH]; cbn [List.filter].
  - split; [constructor|reflexivity].
  - destruct (JsValue.includedIn validQuestionTypes t) eqn:E; cbn [negb].
    + rewrite IH. split; [now constructor|now inversion 1].
    + split; [discriminate|]. inversion 1; subst. congruence.
Qed.

Lemma includedIn_string l v :
  JsValue.includedIn l v = true -> exists s, v = VStr s /\ In s l.
Proof.
  destruct v; try discriminate. cbn [JsValue.includedIn].
  intros H. exists s. split; [reflexivity|]. now apply includes_In.
Qed.

Lemma passes_steps reqBody :
  passes reqBody ->
  exists number level types,
    JsValue.blank "content" (JsValue.get "content" reqBody) = inr false /\
    (let? below := JsValue.lessThan (askedNumber reqBody) (Double.ofZ 1) in
     if below then inr true
     else JsValue.greaterThan (askedNumber reqBody) (Double.ofZ 30)) =
      inr false /\
    JsValue.includedIn validDifficulties (askedDifficulty reqBody) = true /\
    askedTypes reqBody = VArr types /\
    List.filter (fun type => negb (JsValue.includedIn validQuestionTypes type))
                types = [] /\
    JsValue.toStr (askedNumber reqBody) = inr number /\
    askedDifficulty reqBody = VStr level.
Proof.
  intros (_ & Hc & (x & Ex & Hx) & Hd & types & Et & Hall).
  destruct (toNumber_toStr _ _ Ex) as [number En].
  destruct (includedIn_string _ _ Hd) as (level & El & _).
  exists number, level, types.
  split; [now apply blank_hasText|].
  split; [rewrite (rangeCheck_number _ _ Ex); f_equal;
          now apply notOutside_check|].
  split; [exact Hd|]. split; [exact Et|].
  split; [now apply invalid_nil|]. now split.
Qed.

(** What becomes of a request that passes the checks. *)
Lemma postGenerate_serves reqBody isoTime w :
  passes reqBody ->
  exists number level further,
    JsValue.toStr (askedNumber reqBody) = inr number /\
    askedDifficulty reqBody = VStr level /\
    trace (snd (postGenerate reqBody isoTime w)) =
    trace w ++
    ConsoleLog (Sign.target ++ lit " Generating quiz: " ++ number ++
                lit " questions, " ++ level ++ lit " difficulty") :: further /\
    ((exists e,
        buildUserPrompt (optionsOf reqBody) = inl e /\ thrownByRuntime e /\
        fst (postGenerate reqBody isoTime w) =
          Returned (Sent (crashResponse e)) /\
        further = [ConsoleError (lit "Error:") e]) \/
     (exists userPrompt quiz count,
        buildUserPrompt (optionsOf reqBody) = inr userPrompt /\
        generated userPrompt quiz count /\
        fst (postGenerate reqBody isoTime w) =
        Returned (SentData
          {| Generate.quiz := quiz;
             Generate.metadata :=
               {| Generate.totalQuestions := count;
                  Generate.metaDifficulty := level;
                  Generate.metaQuestionTypes :=
                    Generate.questionTypes (optionsOf reqBody);
                  Generate.generatedAt := isoTime |} |}) /\
        further = [ ConsoleLog (Sign.check ++ lit " Generated " ++
                                showCounted count ++ lit " questions") ]) \/
     (exists cause,
        fst (postGenerate reqBody isoTime w) =
        Returned (serverError (lit "Failed to generate quiz: " ++
                               message cause)) /\
        further = failureLog (lit "Quiz generation error:")
                    (lit "Failed to generate quiz: ") cause)).
Proof.
  intros Hok. pose proof Hok as (Hn & _).
  destruct (passes_steps reqBody Hok)
    as (number & level & types & Hb & Hr & Hd & Et & Hi & En & El).
  exists number, level.
  rewrite (postGenerate_steps reqBody isoTime w Hn).
  rewrite Hb, Hr, Hd, Et. cbn [negb JsValue.arrayOf]. cbv zeta.
  rewrite Hi. cbn [length Nat.ltb Nat.leb]. rewrite En, El.
  cbn [JsValue.toStr].
  match goal with
  | |- context [generateQuiz ?o ?t ?w0] =>
      destruct (generateQuiz_cases o t w0)
        as [(e & Eb & ->)|(userPrompt & Eb &
              [(quiz & count & Hg & ->)|(cause & ->)])]
  end.
  - pose proof (buildUserPrompt_error _ _ Eb) as He.
    rewrite (next_crash e _ He).
    eexists. split; [reflexivity|]. split; [reflexivity|].
    split; [unfold reported, emit; cbn [snd trace]; rewrite <- app_assoc;
            reflexivity|].
    left. exists e. now repeat split.
  - eexists. split; [reflexivity|]. split; [reflexivity|].
    split; [unfold emit; cbn [snd trace]; rewrite <- app_assoc; reflexivity|].
    right. left. exists userPrompt, quiz, count.
    split; [exact Eb|]. split; [exact Hg|]. split; [|reflexivity].
    cbn [fst]. unfold optionsOf at 1. rewrite El. reflexivity.
  - rewrite next_wrapped by discriminate.
    eexists. split; [reflexivity|]. split; [reflexivity|].
    split; [unfold emit; cbn [snd trace]; rewrite <- !app_assoc; reflexivity|].
    right. right. exists cause. split; reflexivity.
Qed.

End GenerateRoute.

Lemma ltb_ofZ a b : Double.ltb (Double.ofZ a) (Double.ofZ b) = (a <? b)%Z.
Proof.
  unfold Double.ltb, Double.ofZ, QArith_base.Qle_bool.
  cbn [QArith_base.inject_Z QArith_base.Qnum QArith_base.Qden].
  rewrite !Z.mul_1_r. rewrite Z.ltb_antisym. reflexivity.
Qed.

Lemma notOutside_integer (n : Z) :
  notOutside (Double.ofZ n) <-> (1 <= n <= 30)%Z.
Proof.
  unfold notOutside. rewrite !ltb_ofZ, !Z.ltb_ge. lia.
Qed.

Section GenerateRoute.
Context {assistant : Assistant} {engine : Engine}.

Lemma arrayOf_array name method v items :
  JsValue.arrayOf name method v = inr items -> v = VArr items.
Proof. destruct v; try discriminate. now intros [= ->]. Qed.

(** What becomes of a request that does not pass the checks: a refusal,
    or the answer to an error of the runtime, and nothing else. *)
Lemma postGenerate_rejects reqBody isoTime w :
  JsValue.nullish reqBody = false -> ~ passes reqBody ->
  (exists msg,
     postGenerate reqBody isoTime w = (Returned (badReply msg), w)) \/
  (exists e, thrownByRuntime e /\
     postGenerate reqBody isoTime w =
     (Returned (Sent (crashResponse e)), reported e w)).
Proof.
  intros Hn Hbad. rewrite (postGenerate_steps reqBody isoTime w Hn).
  destruct (value_cases (JsValue.get "content" reqBody)) as [Hc|[Hc|Hc]].
  { rewrite (blank_isBlankText _ _ Hc). left. now eexists. }
  2:{ rewrite (blank_truthyNonString _ _ Hc). right. eexists.
      split; [|apply next_crash]; auto with runtime. }
  rewrite (blank_hasText _ _ Hc).
  destruct (JsValue.toNumber (askedNumber reqBody)) as [e|x] eqn:Ex.
  { rewrite (rangeCheck_error _ _ Ex). apply toNumber_error in Ex. subst e.
    right. eexists. split; [|apply next_crash]; auto with runtime. }
  rewrite (rangeCheck_number _ _ Ex).
  destruct (Double.ltb x _ || Double.ltb _ x) eqn:Hx;
    [left; now eexists|].
  apply notOutside_check in Hx.
  destruct (JsValue.includedIn validDifficulties _) eqn:Hd; cbn [negb];
    [|left; now eexists].
  destruct (JsValue.arrayOf _ _ _) as [e|types] eqn:Ea.
  { right. exists e. split; [now apply arrayOf_error in Ea|].
    apply next_crash. now apply arrayOf_error in Ea. }
  apply arrayOf_array in Ea. cbv zeta.
  destruct (List.filter _ types) as [|t ts] eqn:Hi.
  { contradiction Hbad. split; [exact Hn|]. split; [exact Hc|].
    split; [now exists x|]. split; [exact Hd|].
    exists types. split; [exact Ea|]. now apply invalid_nil. }
  cbn [length Nat.ltb Nat.leb].
  destruct (JsValue.joinValues _ _) as [e|listed] eqn:Ej.
  - apply joinValues_error in Ej. subst e. right. eexists.
    split; [|apply next_crash]; auto with runtime.
  - left. now eexists.
Qed.

(** X14: [POST /generate] checks its request before anything else.  A
    content that is falsy or a string of white space, a number of questions
    that converts to a number below 1 or above 30, a difficulty that is
    not one of the strings easy, medium and hard, or an array of question
    types with an element outside the four known types is refused with
    status 400 and the message of the first check that fails, the last one
    listing the unknown types in the order given; a refusal has no effect.
    A content that is truthy and no string, question types that are no
    array, and values that have no primitive value make the runtime throw:
    the answer is 500 with the message of the runtime.  A number of
    questions that converts to [NaN] is not refused, an integer is refused
    exactly when it is outside 1..30, and a request that gives only a
    content with a character that is not white space passes the checks.
    A request that does not pass them is answered without a call of the
    service, and a request that passes is never answered 400. *)
Theorem postGenerate_validates (reqBody : Value) (isoTime : jsstring)
    (w : World) :
  let content := JsValue.get "content" reqBody in
  let refused (msg : jsstring) :=
    postGenerate reqBody isoTime w = (Returned (badReply msg), w) in
  let crashed (e : JsError) :=
    postGenerate reqBody isoTime w =
    (Returned (Sent (crashResponse e)), reported e w) in
  (JsValue.nullish reqBody = true ->
   crashed (TypeError.cannotDestructure "content" "req.body" reqBody)) /\
  (JsValue.nullish reqBody = false ->
   (isBlankText content ->
    refused (lit "Content is required to generate quiz")) /\
   (truthyNonString content ->
    crashed (TypeError.notAFunction "content.trim")) /\
   (hasText content ->
    (forall e, JsValue.toNumber (askedNumber reqBody) = inl e -> crashed e) /\
    (forall x, JsValue.toNumber (askedNumber reqBody) = inr x ->
     ~ notOutside x ->
     refused (lit "Number of questions must be between 1 and 30")) /\
    (forall x, JsValue.toNumber (askedNumber reqBody) = inr x ->
     notOutside x ->
     (JsValue.includedIn validDifficulties (askedDifficulty reqBody) = false ->
      refused (lit "Difficulty must be: easy, medium, or hard")) /\
     (JsValue.includedIn validDifficulties (askedDifficulty reqBody) = true ->
      (forall e,
         JsValue.arrayOf "questionTypes" "filter" (askedTypes reqBody) = inl e ->
         crashed e) /\
      (forall types, askedTypes reqBody = VArr types ->
       let invalidTypes :=
         List.filter
           (fun type => negb (JsValue.includedIn validQuestionTypes type))
           types in
       invalidTypes <> [] ->
       (forall listed,
          JsValue.joinValues (lit ", ") invalidTypes = inr listed ->
          refused (lit "Invalid question types: " ++ listed)) /\
       (forall e,
          JsValue.joinValues (lit ", ") invalidTypes = inl e ->
          crashed e))))) /\
   (~ passes reqBody ->
    (exists msg, refused msg) \/ (exists e, thrownByRuntime e /\ crashed e)) /\
   (passes reqBody ->
    forall msg,
      fst (postGenerate reqBody isoTime w) <> Returned (badReply msg))) /\
  notOutside Double.NaN /\
  (forall n : Z, notOutside (Double.ofZ n) <-> (1 <= n <= 30)%Z) /\
  (forall text, hasText (VStr text) -> passes (onlyContent text)).
Proof.
  cbv zeta. split; [|split; [|split; [|split]]].
  - intros Hn. unfold postGenerate.
    rewrite tryCatch_liftLib, destructure_nullish by exact Hn.
    apply next_crash. auto with runtime.
  - intros Hn. rewrite (postGenerate_steps reqBody isoTime w Hn).
    split; [|split; [|split; [|split]]].
    + intros Hc. now rewrite (blank_isBlankText _ _ Hc).
    + intros Hc. rewrite (blank_truthyNonString _ _ Hc).
      apply next_crash. auto with runtime.
    + intros Hc. rewrite (blank_hasText _ _ Hc). split; [|split].
      * intros e Ex. rewrite (rangeCheck_error _ _ Ex).
        apply toNumber_error in Ex. subst e. apply next_crash.
        auto with runtime.
      * intros x Ex Hx. rewrite (rangeCheck_number _ _ Ex).
        destruct (Double.ltb x _ || Double.ltb _ x) eqn:E; [reflexivity|].
        now apply notOutside_check in E.
      * intros x Ex Hx. rewrite (rangeCheck_number _ _ Ex).
        apply notOutside_check in Hx. rewrite Hx. split.
        -- intros Hd. now rewrite Hd.
        -- intros Hd. rewrite Hd. cbn [negb]. split.
           ++ intros e Ea. rewrite Ea. apply next_crash.
              now apply arrayOf_error in Ea.
           ++ intros types Et Hi. rewrite Et. cbn [JsValue.arrayOf].
              cbv zeta.
              destruct (List.filter _ types) as [|t ts]; [congruence|].
              cbn [length Nat.ltb Nat.leb]. split.
              ** intros listed Ej. now rewrite Ej.
              ** intros e Ej. rewrite Ej. apply joinValues_error in Ej.
                 subst e. apply next_crash. auto with runtime.
    + intros Hbad.
      rewrite <- (postGenerate_steps reqBody isoTime w Hn).
      now apply postGenerate_rejects.
    + intros Hok msg.
      rewrite <- (postGenerate_steps reqBody isoTime w Hn).
      destruct (postGenerate_serves reqBody isoTime w Hok)
        as (number & level & further & _ & _ & _ &
            [(e & _ & _ & -> & _)|[(p & quiz & count & _ & _ & -> & _)|
                                   (cause & -> & _)]]);
        discriminate.
  - split; reflexivity.
  - apply notOutside_integer.
  - intros text Hc. split; [reflexivity|]. split; [exact Hc|].
    split; [exists (Double.ofZ 10); split; [reflexivity|];
            now apply notOutside_integer|].
    split; [reflexivity|].
    exists [VStr (lit "multiple-choice")]. split; [reflexivity|].
    constructor; [reflexivity|constructor].
Qed.

End GenerateRoute.

Section GenerateRoute.
Context {assistant : Assistant} {engine : Engine}.

Lemma printItems_strings (l : list jsstring) :
  JsValue.printItems JsValue.toStr (map VStr l) = inr l.
Proof.
  induction l as [|s l IH]; [reflexivity|].
  cbn [map JsValue.printItems JsValue.toStr].
  change ((fix go (items : list Value) : JsError + list jsstring :=
             match items with
             | [] => inr []
             | item :: rest =>
                 match
                   match item with
                   | VUndefined | VNull => inr []
                   | _ => JsValue.toStr item
                   end
                 with
                 | inl e => inl e
                 | inr s0 =>
                     match go rest with
                     | inl e => inl e
                     | inr ss => inr (s0 :: ss)
                     end
                 end
             end) (map VStr l))
    with (JsValue.printItems JsValue.toStr (map VStr l)).
  now rewrite IH.
Qed.

Lemma topicsLine_strings (topics : list jsstring) :
  exists line, topicsLine (VArr (map VStr topics)) = inr line.
Proof.
  unfold topicsLine, andThen. cbn [JsValue.lengthOf].
  unfold JsValue.greaterThan, andThen. cbn [JsValue.toNumber].
  destruct (Double.ltb _ _); [|eexists; reflexivity].
  cbn [JsValue.arrayOf]. unfold JsValue.joinValues, andThen.
  rewrite printItems_strings. eexists. reflexivity.
Qed.

(** X15: a request for a quiz that passes the checks is announced on the
    console with its number of questions and its difficulty, and then
    answered in one of three ways.  With the data: the quiz is what the
    model answered to the system prompt and the user prompt, once parsed,
    and the metadata repeat the difficulty and the question types of the
    request, with the absent fields replaced, and the time of generation;
    one more line on the console tells the number of questions.  With
    status 500 and the message "Failed to generate quiz: " followed by the
    message of the cause, after the cause and the error have been written
    on the console.  Or, when the user prompt cannot be built, with status
    500 and the bare message of the runtime, the service having written
    nothing: so it is when the topics are [null], while topics that are
    absent or an array of strings never prevent the prompt. *)
Theorem postGenerate_outcome (reqBody : Value) (isoTime : jsstring)
    (w : World) :
  passes reqBody ->
  (exists number level further,
    JsValue.toStr (askedNumber reqBody) = inr number /\
    askedDifficulty reqBody = VStr level /\
    trace (snd (postGenerate reqBody isoTime w)) =
    trace w ++
    ConsoleLog (Sign.target ++ lit " Generating quiz: " ++ number ++
                lit " questions, " ++ level ++ lit " difficulty") :: further /\
    ((exists e,
        buildUserPrompt (optionsOf reqBody) = inl e /\ thrownByRuntime e /\
        fst (postGenerate reqBody isoTime w) =
          Returned (Sent (crashResponse e)) /\
        further = [ConsoleError (lit "Error:") e]) \/
     (exists userPrompt quiz count,
        buildUserPrompt (optionsOf reqBody) = inr userPrompt /\
        generated userPrompt quiz count /\
        fst (postGenerate reqBody isoTime w) =
        Returned (SentData
          {| Generate.quiz := quiz;
             Generate.metadata :=
               {| Generate.totalQuestions := count;
                  Generate.metaDifficulty := level;
                  Generate.metaQuestionTypes :=
                    Generate.questionTypes (optionsOf reqBody);
                  Generate.generatedAt := isoTime |} |}) /\
        further = [ ConsoleLog (Sign.check ++ lit " Generated " ++
                                showCounted count ++ lit " questions") ]) \/
     (exists cause,
        fst (postGenerate reqBody isoTime w) =
        Returned (serverError (lit "Failed to generate quiz: " ++
                               message cause)) /\
        further = failureLog (lit "Quiz generation error:")
                    (lit "Failed to generate quiz: ") cause))) /\
  (askedTopics reqBody = VNull ->
   buildUserPrompt (optionsOf reqBody) =
   inl (TypeError.cannotRead VNull "length")) /\
  (forall topics, askedTopics reqBody = VArr (map VStr topics) ->
   exists userPrompt, buildUserPrompt (optionsOf reqBody) = inr userPrompt).
Proof.
  intros Hok. split; [now apply postGenerate_serves|].
  destruct (passes_steps reqBody Hok)
    as (number & level & types & _ & _ & _ & _ & _ & En & _).
  split.
  - intros Et. unfold buildUserPrompt, andThen.
    cbn [optionsOf Generate.numberOfQuestions Generate.specificTopics].
    now rewrite En, Et.
  - intros topics Et. unfold buildUserPrompt, andThen.
    cbn [optionsOf Generate.numberOfQuestions Generate.specificTopics].
    rewrite En, Et. destruct (topicsLine_strings topics) as [line ->].
    eexists. reflexivity.
Qed.

End GenerateRoute.

Lemma postGenerate_outcome_witness :
  @passes digitsEngine
    (onlyContent (lit "Photosynthesis turns light into sugar.")) /\
  exists userPrompt,
    @buildUserPrompt echoAssistant digitsEngine
      (optionsOf (onlyContent (lit "Photosynthesis turns light into sugar."))) =
    inr userPrompt.
Proof.
  assert (H : @passes digitsEngine
                (onlyContent (lit "Photosynthesis turns light into sugar."))).
  { split; [reflexivity|]. split; [unfold hasText; eexists; split; reflexivity|].
    split; [exists (Double.ofZ 10); split; [reflexivity|];
            now apply notOutside_integer|].
    split; [reflexivity|].
    exists [VStr (lit "multiple-choice")]. split; [reflexivity|].
    constructor; [reflexivity|constructor]. }
  split; [exact H|].
  apply (proj2 (proj2
    (@postGenerate_outcome echoAssistant digitsEngine
       (onlyContent (lit "Photosynthesis turns light into sugar."))
       (lit "2024-05-01T10:00:00.000Z") emptyWorld H)) []).
  reflexivity.
Defined.

(** A content that is a number is answered with status 500. *)
Example postGenerate_content_number :
  fst (@postGenerate echoAssistant digitsEngine
         (bodyOf [("content"%string, VNum (Double.ofZ 123))])
         (lit "2024-05-01T10:00:00.000Z") emptyWorld) =
  Returned (serverError (lit "content.trim is not a function")).
Proof. reflexivity. Qed.

(** A number of questions that is no number passes the checks, and is
    written into the prompt as it is. *)
Example postGenerate_number_text :
  @passes digitsEngine
    (bodyOf [("content"%string, VStr (lit "Cells"));
             ("numberOfQuestions"%string, VStr (lit "abc"))]) /\
  exists userPrompt,
    @buildUserPrompt echoAssistant digitsEngine
      (optionsOf (bodyOf [("content"%string, VStr (lit "Cells"));
                          ("numberOfQuestions"%string, VStr (lit "abc"))])) =
    inr userPrompt /\
    includesStr (lit "Generate a quiz with exactly abc questions")
      userPrompt = true.
Proof.
  split.
  - split; [reflexivity|]. split; [unfold hasText; eexists; split; reflexivity|].
    split; [exists Double.NaN; split; [reflexivity|split; reflexivity]|].
    split; [reflexivity|].
    exists [VStr (lit "multiple-choice")]. split; [reflexivity|].
    constructor; [reflexivity|constructor].
  - eexists. split; [reflexivity|]. vm_compute. reflexivity.
Qed.

(** Topics that are [null] pass the checks and stop the service before it
    calls the model: the answer is the bare error of the runtime. *)
Example postGenerate_topics_null :
  @postGenerate echoAssistant digitsEngine
    (bodyOf [("content"%string, VStr (lit "Cells"));
             ("specificTopics"%string, VNull)])
    (lit "2024-05-01T10:00:00.000Z") emptyWorld =
  (Returned (serverError
     (lit "Cannot read properties of null (reading 'length')")),
   {| files := ∅; protected := ∅;
      trace :=
        [ ConsoleLog (Sign.target ++
                      lit " Generating quiz: 10 questions, medium difficulty");
          ConsoleError (lit "Error:")
            (TypeError.cannotRead VNull "length") ] |}).
Proof. vm_compute. reflexivity. Qed.

(** ** The routes of the quiz answer *)

Lemma since_trace w further (w' : World) :
  trace w' = trace w ++ further -> since w w' = further.
Proof. intros E. unfold since. now rewrite E, drop_app_length. Qed.

Lemma answers_refusal {D} label prefix w msg :
  @answers D label prefix w (Returned (badReply msg), w).
Proof.
  eexists. split; [reflexivity|]. left. exists msg. split; reflexivity.
Qed.

Lemma answers_crash {D} label prefix w w1 further e :
  thrownByRuntime e -> trace w1 = trace w ++ further ->
  @answers D label prefix w (next e w1).
Proof.
  intros He Ht. rewrite (next_crash e w1 He).
  eexists. split; [reflexivity|]. right. right.
  exists e, further. split; [exact He|]. split; [reflexivity|].
  apply since_trace. unfold reported, emit. cbn [snd trace].
  now rewrite Ht, <- app_assoc.
Qed.

(** The answer of a handler once it has called the service. *)
Lemma answers_service {A D} label prefix w w1 further
    (res : Outcome A * World) (k : A -> D) :
  prefix <> [] -> trace w1 = trace w ++ further ->
  (exists a w2, res = (Returned a, w2)) \/
  serviceFails label prefix w1 res \/
  (exists e, thrownByRuntime e /\ res = (Thrown e, w1)) ->
  answers label prefix w
    (match res with
     | (Returned a, w2) => (Returned (SentData (k a)), w2)
     | (Thrown e, w2) => next e w2
     end).
Proof.
  intros Hp Ht [(a & w2 & ->)|[(cause & ->)|(e & He & ->)]].
  - eexists. split; [reflexivity|]. exact I.
  - rewrite (next_wrapped prefix cause _ Hp).
    eexists. split; [reflexivity|]. right. left.
    exists cause, further. split; [reflexivity|].
    apply since_trace. unfold failureLog, emit. cbn [snd trace].
    now rewrite Ht, <- !app_assoc.
  - now apply (answers_crash label prefix w w1 further e).
Qed.

Section OtherRoutes.
Context {assistant : Assistant} {engine : Engine}.

Lemma postAnalyzeTopics_steps reqBody w :
  JsValue.nullish reqBody = false ->
  postAnalyzeTopics reqBody w =
  match JsValue.blank "content" (JsValue.get "content" reqBody) with
  | inl e => next e w
  | inr true =>
      (Returned (badReply (lit "Content is required for topic analysis")), w)
  | inr false =>
      match analyzeTopics (JsValue.text (JsValue.get "content" reqBody)) w
      with
      | (Returned topics, w2) => (Returned (SentData topics), w2)
      | (Thrown e, w2) => next e w2
      end
  end.
Proof.
  intros Hn. unfold postAnalyzeTopics.
  rewrite tryCatch_liftLib, destructure_object by exact Hn.
  cbv beta zeta. rewrite tryCatch_liftLib.
  destruct (JsValue.blank "content" _) as [e|[|]]; [reflexivity|reflexivity|].
  unfold tryCatch, bind, ret.
  destruct (analyzeTopics _ w) as [[topics|e] w2]; reflexivity.
Qed.

Lemma postAiHelp_steps reqBody w :
  JsValue.nullish reqBody = false ->
  postAiHelp reqBody w =
  if negb (JsValue.truthy (JsValue.get "question" reqBody)) ||
     negb (JsValue.truthy (JsValue.get "correctAnswer" reqBody))
  then (Returned (badReply (lit "Question and correct answer are required")),
        w)
  else
    match JsValue.toStr (JsValue.or (JsValue.get "topic" reqBody)
                                    (VStr (lit "general topic"))) with
    | inl e => next e w
    | inr shown =>
        match getDetailedExplanation
                {| Help.question := JsValue.get "question" reqBody;
                   Help.correctAnswer := JsValue.get "correctAnswer" reqBody;
                   Help.userAnswer := JsValue.get "userAnswer" reqBody;
                   Help.explanation := JsValue.get "explanation" reqBody;
                   Help.topic := JsValue.get "topic" reqBody |}
                (snd (emit (ConsoleLog
                   (Sign.robot ++
                    lit " Generating AI help for question about: " ++
                    shown)) w)) with
        | (Returned detailedHelp, w2) => (Returned (SentData detailedHelp), w2)
        | (Thrown e, w2) => next e w2
        end
    end.
Proof.
  intros Hn. unfold postAiHelp.
  rewrite tryCatch_liftLib, destructure_object by exact Hn.
  cbv beta zeta. rewrite tryCatch_if.
  destruct (_ || _); [reflexivity|].
  rewrite tryCatch_liftLib.
  destruct (JsValue.toStr _) as [e|shown]; [reflexivity|].
  unfold tryCatch, bind, emit, ret. cbn [snd].
  match goal with
  | |- context [getDetailedExplanation ?d ?w0] =>
      destruct (getDetailedExplanation d w0) as [[help|e] w2]
  end; reflexivity.
Qed.

Lemma postAiChat_steps reqBody w :
  JsValue.nullish reqBody = false ->
  postAiChat reqBody w =
  if negb (JsValue.truthy (JsValue.get "question" reqBody)) ||
     negb (JsValue.truthy (JsValue.get "correctAnswer" reqBody)) ||
     negb (JsValue.truthy (JsValue.get "userMessage" reqBody))
  then (Returned (badReply
          (lit "Question, correct answer, and user message are required")),
        w)
  else
    match JsValue.substringOf "userMessage" 50
            (JsValue.get "userMessage" reqBody) with
    | inl e => next e w
    | inr start =>
        match chatWithTutor
                {| Tutor.question := JsValue.get "question" reqBody;
                   Tutor.correctAnswer := JsValue.get "correctAnswer" reqBody;
                   Tutor.chatHistory := JsValue.get "chatHistory" reqBody;
                   Tutor.userMessage := JsValue.get "userMessage" reqBody;
                   Tutor.topic := JsValue.get "topic" reqBody |}
                (snd (emit (ConsoleLog
                   (Sign.bubble ++ lit " AI Chat: " ++ start ++ lit "..."))
                   w)) with
        | (Returned response, w2) => (Returned (SentData response), w2)
        | (Thrown e, w2) => next e w2
        end
    end.
Proof.
  intros Hn. unfold postAiChat.
  rewrite tryCatch_liftLib, destructure_object by exact Hn.
  cbv beta zeta. rewrite tryCatch_if.
  destruct (_ || _ || _); [reflexivity|].
  rewrite tryCatch_liftLib.
  destruct (JsValue.substringOf _ _ _) as [e|start]; [reflexivity|].
  unfold tryCatch, bind, emit, ret. cbn [snd].
  match goal with
  | |- context [chatWithTutor ?d ?w0] =>
      destruct (chatWithTutor d w0) as [[response|e] w2]
  end; reflexivity.
Qed.

Lemma blank_error name v e :
  JsValue.blank name v = inl e -> thrownByRuntime e.
Proof.
  unfold JsValue.blank, andThen. destruct (negb _); [discriminate|].
  destruct (JsValue.trimOf name v) as [e0|t] eqn:E; [|discriminate].
  intros [= <-]. now apply trimOf_error in E.
Qed.

(** X16: the four routes of the quiz always answer, whatever the body of
    the request holds and whatever the model does.  The answer is the
    data; or a refusal with status 400 that has no effect; or the failure
    of the service, whether of the client of the model or of the parsing of
    its answer, with status 500, whatever status the cause carried, and
    the message of the cause behind the prefix of the service, the cause
    and the error being the last two lines written on the console; or an
    error of the runtime, with status 500 and its bare message, the error
    being the last line written on the console. *)
Theorem quiz_routes_answer (reqBody : Value) (w : World) :
  (forall isoTime,
     answers (lit "Quiz generation error:") (lit "Failed to generate quiz: ")
       w (postGenerate reqBody isoTime w)) /\
  answers (lit "Topic analysis error:") (lit "Failed to analyze topics: ")
    w (postAnalyzeTopics reqBody w) /\
  answers (lit "AI Help error:") (lit "Failed to get AI help: ")
    w (postAiHelp reqBody w) /\
  answers (lit "Chat error:") (lit "Failed to chat with AI: ")
    w (postAiChat reqBody w).
Proof.
  destruct (JsValue.nullish reqBody) eqn:Hn.
  { unfold postGenerate, postAnalyzeTopics, postAiHelp, postAiChat.
    rewrite !tryCatch_liftLib, !destructure_nullish by exact Hn.
    repeat split; intros;
      apply (answers_crash _ _ w w []); auto with runtime;
      now rewrite app_nil_r. }
  split; [|split; [|split]].
  - intros isoTime. rewrite (postGenerate_steps reqBody isoTime w Hn).
    destruct (JsValue.blank "content" _) as [e|[|]] eqn:Eb.
    { apply blank_error in Eb. apply (answers_crash _ _ w w []); auto.
      now rewrite app_nil_r. }
    { apply answers_refusal. }
    destruct (andThen _ _) as [e|[|]] eqn:Er.
    { apply (answers_crash _ _ w w []); [|now rewrite app_nil_r].
      unfold andThen in Er.
      destruct (JsValue.lessThan _ _) as [e0|[|]] eqn:El;
        [injection Er as <-; apply lessThan_error in El; subst;
         auto with runtime|discriminate|].
      apply greaterThan_error in Er. subst. auto with runtime. }
    { apply answers_refusal. }
    destruct (negb _); [apply answers_refusal|].
    destruct (JsValue.arrayOf _ _ _) as [e|types] eqn:Ea.
    { apply arrayOf_error in Ea. apply (answers_crash _ _ w w []); auto.
      now rewrite app_nil_r. }
    cbv zeta. destruct (0 <? _)%nat.
    { destruct (JsValue.joinValues _ _) as [e|listed] eqn:Ej;
        [|apply answers_refusal].
      apply joinValues_error in Ej. subst.
      apply (answers_crash _ _ w w []); auto with runtime.
      now rewrite app_nil_r. }
    destruct (JsValue.toStr (askedNumber reqBody)) as [e|number] eqn:En.
    { apply toStr_error in En. subst.
      apply (answers_crash _ _ w w []); auto with runtime.
      now rewrite app_nil_r. }
    destruct (JsValue.toStr (askedDifficulty reqBody)) as [e|level] eqn:El.
    { apply toStr_error in El. subst.
      apply (answers_crash _ _ w w []); auto with runtime.
      now rewrite app_nil_r. }
    eapply (answers_service _ _ w (snd (emit (ConsoleLog _) w)) [_] _
              (fun quiz => quiz));
      [discriminate|unfold emit; cbn [snd trace]; reflexivity|].
    match goal with
    | |- context [generateQuiz ?o ?t ?w0] =>
        destruct (generateQuiz_cases o t w0)
          as [(e & Eb' & ->)|(userPrompt & _ &
                [(quiz & count & _ & ->)|Hf])]
    end.
    + right. right. exists e. split; [|reflexivity].
      now apply buildUserPrompt_error in Eb'.
    + left. now eexists _, _.
    + right. now left.
  - rewrite (postAnalyzeTopics_steps reqBody w Hn).
    destruct (JsValue.blank "content" _) as [e|[|]] eqn:Eb.
    { apply blank_error in Eb. apply (answers_crash _ _ w w []); auto.
      now rewrite app_nil_r. }
    { apply answers_refusal. }
    apply (answers_service _ _ w w [] _ (fun topics => topics));
      [discriminate|now rewrite app_nil_r|].
    destruct (analyzeTopics_cases
                (JsValue.text (JsValue.get "content" reqBody)) w)
      as [(topics & ->)|Hf].
    + left. now eexists _, _.
    + right. now left.
  - rewrite (postAiHelp_steps reqBody w Hn).
    destruct (_ || _); [apply answers_refusal|].
    destruct (JsValue.toStr _) as [e|shown] eqn:Es.
    { apply toStr_error in Es. subst.
      apply (answers_crash _ _ w w []); auto with runtime.
      now rewrite app_nil_r. }
    eapply (answers_service _ _ w (snd (emit (ConsoleLog _) w)) [_] _
              (fun help => help));
      [discriminate|unfold emit; cbn [snd trace]; reflexivity|].
    match goal with
    | |- context [getDetailedExplanation ?d ?w0] =>
        destruct (getDetailedExplanation_cases d w0)
          as [(e & Eb' & ->)|(prompt & _ &
                [(answer & shown' & _ & ->)|Hf])]
    end.
    + right. right. exists e. split; [|reflexivity].
      apply helpPrompt_error in Eb'. subst. auto with runtime.
    + left. now eexists _, _.
    + right. now left.
  - rewrite (postAiChat_steps reqBody w Hn).
    destruct (_ || _ || _); [apply answers_refusal|].
    destruct (JsValue.substringOf _ _ _) as [e|start] eqn:Es.
    { apply substringOf_error in Es.
      apply (answers_crash _ _ w w []); auto. now rewrite app_nil_r. }
    eapply (answers_service _ _ w (snd (emit (ConsoleLog _) w)) [_] _
              (fun response => response));
      [discriminate|unfold emit; cbn [snd trace]; reflexivity|].
    match goal with
    | |- context [chatWithTutor ?d ?w0] =>
        destruct (chatWithTutor_cases d w0)
          as [(e & Eb' & ->)|(sent & _ & [(answer & ->)|Hf])]
    end.
    + right. right. exists e. split; [|reflexivity].
      now apply tutorMessages_error in Eb'.
    + left. now eexists _, _.
    + right. now left.
Qed.

End OtherRoutes.

Section OtherRoutes.
Context {assistant : Assistant} {engine : Engine}.

(** X17: the other three routes check their request before anything else.
    [POST /analyze-topics] refuses a content that is falsy or a string of
    white space; [POST /ai-help] refuses a request whose question or
    correct answer is falsy; [POST /ai-chat] refuses one whose question,
    correct answer or message is falsy.  A refusal has status 400, its own
    message, and no effect; no other request is answered 400.  A content
    that is truthy and no string, and a message that is truthy and no
    string, make the runtime throw, and so does a body that is [null] or
    [undefined]: the answer is 500 with the message of the runtime, and
    nothing else is written on the console.  An accepted request for help
    is announced with its topic, "general topic" when the topic is falsy,
    and its data repeat the question, the correct answer and the topic as
    the request gave them; an accepted message is announced with its
    first fifty characters. *)
Theorem quiz_routes_validate (reqBody : Value) (w : World) :
  let content := JsValue.get "content" reqBody in
  let question := JsValue.get "question" reqBody in
  let correctAnswer := JsValue.get "correctAnswer" reqBody in
  let userMessage := JsValue.get "userMessage" reqBody in
  let topic := JsValue.get "topic" reqBody in
  let crash {D} (e : JsError) : Outcome (Reply D) * World :=
    (Returned (Sent (crashResponse e)), reported e w) in
  (JsValue.nullish reqBody = true ->
   postAnalyzeTopics reqBody w =
     crash (TypeError.cannotDestructure "content" "req.body" reqBody) /\
   postAiHelp reqBody w =
     crash (TypeError.cannotDestructure "question" "req.body" reqBody) /\
   postAiChat reqBody w =
     crash (TypeError.cannotDestructure "question" "req.body" reqBody)) /\
  (JsValue.nullish reqBody = false ->
   ((isBlankText content ->
     postAnalyzeTopics reqBody w =
     (Returned (badReply (lit "Content is required for topic analysis")),
      w)) /\
    (truthyNonString content ->
     postAnalyzeTopics reqBody w =
     crash (TypeError.notAFunction "content.trim")) /\
    (hasText content ->
     forall msg,
       fst (postAnalyzeTopics reqBody w) <> Returned (badReply msg))) /\
   ((JsValue.truthy question && JsValue.truthy correctAnswer = false ->
     postAiHelp reqBody w =
     (Returned (badReply (lit "Question and correct answer are required")),
      w)) /\
    (JsValue.truthy question && JsValue.truthy correctAnswer = true ->
     (forall e,
        JsValue.toStr (JsValue.or topic (VStr (lit "general topic"))) = inl e ->
        postAiHelp reqBody w = crash e) /\
     (forall shown,
        JsValue.toStr (JsValue.or topic (VStr (lit "general topic")))
          = inr shown ->
        (exists further,
           since w (snd (postAiHelp reqBody w)) =
           ConsoleLog (Sign.robot ++
                       lit " Generating AI help for question about: " ++
                       shown) :: further) /\
        (forall msg, fst (postAiHelp reqBody w) <> Returned (badReply msg)) /\
        (forall data,
           fst (postAiHelp reqBody w) = Returned (SentData data) ->
           Help.resultQuestion data = question /\
           Help.resultCorrectAnswer data = correctAnswer /\
           Help.resultTopic data = topic)))) /\
   ((JsValue.truthy question && JsValue.truthy correctAnswer &&
     JsValue.truthy userMessage = false ->
     postAiChat reqBody w =
     (Returned (badReply
        (lit "Question, correct answer, and user message are required")),
      w)) /\
    (JsValue.truthy question && JsValue.truthy correctAnswer &&
     JsValue.truthy userMessage = true ->
     ((forall s, userMessage <> VStr s) ->
      postAiChat reqBody w =
      crash (TypeError.notAFunction "userMessage.substring")) /\
     (forall s, userMessage = VStr s ->
      (exists further,
         since w (snd (postAiChat reqBody w)) =
         ConsoleLog (Sign.bubble ++ lit " AI Chat: " ++ take 50 s ++
                     lit "...") :: further) /\
      (forall msg,
         fst (postAiChat reqBody w) <> Returned (badReply msg)))))).
Proof.
  cbv zeta. split.
  { intros Hn. unfold postAnalyzeTopics, postAiHelp, postAiChat.
    rewrite !tryCatch_liftLib, !destructure_nullish by exact Hn.
    repeat split; apply next_crash; auto with runtime. }
  intros Hn. split; [|split].
  - rewrite (postAnalyzeTopics_steps reqBody w Hn). split; [|split].
    + intros Hc. now rewrite (blank_isBlankText _ _ Hc).
    + intros Hc. rewrite (blank_truthyNonString _ _ Hc).
      apply next_crash. auto with runtime.
    + intros Hc msg. rewrite (blank_hasText _ _ Hc).
      destruct (analyzeTopics_cases
                  (JsValue.text (JsValue.get "content" reqBody)) w)
        as [(topics & ->)|(cause & ->)]; [discriminate|].
      rewrite next_wrapped by discriminate. discriminate.
  - rewrite (postAiHelp_steps reqBody w Hn).
    destruct (JsValue.truthy (JsValue.get "question" reqBody));
      destruct (JsValue.truthy (JsValue.get "correctAnswer" reqBody));
      cbn [negb orb andb]; (split; [intros H|intros H]);
      try discriminate H; try reflexivity.
    split.
    + intros e Es. rewrite Es. apply toStr_error in Es. subst e.
      apply next_crash. auto with runtime.
    + intros shown Es. rewrite Es.
      match goal with
      | |- context [getDetailedExplanation ?d ?w0] =>
          destruct (getDetailedExplanation_cases d w0)
            as [(e & Eb & ->)|(prompt & _ &
                  [(answer & shown' & _ & ->)|(cause & ->)])]
      end.
      * apply helpPrompt_error in Eb. subst e.
        rewrite next_crash by auto with runtime.
        split; [|split; [discriminate|discriminate]].
        eexists. apply since_trace. unfold reported, emit.
        cbn [snd trace]. rewrite <- app_assoc. reflexivity.
      * split; [|split; [discriminate|]].
        -- eexists. apply since_trace. unfold emit. cbn [snd trace].
           rewrite <- app_assoc. reflexivity.
        -- intros data [= <-]. now repeat split.
      * rewrite next_wrapped by discriminate.
        split; [|split; [discriminate|discriminate]].
        eexists. apply since_trace. unfold emit. cbn [snd trace].
        rewrite <- !app_assoc. reflexivity.
  - rewrite (postAiChat_steps reqBody w Hn).
    destruct (JsValue.truthy (JsValue.get "question" reqBody));
      destruct (JsValue.truthy (JsValue.get "correctAnswer" reqBody));
      destruct (JsValue.truthy (JsValue.get "userMessage" reqBody)) eqn:Hm;
      cbn [negb orb andb]; (split; [intros H|intros H]);
      try discriminate H; try reflexivity.
    split.
    + intros Hs.
      destruct (JsValue.get "userMessage" reqBody) as [| |b|x|s|items|fields];
        try discriminate Hm; try (now contradiction (Hs s));
        cbn [JsValue.substringOf]; apply next_crash; auto with runtime.
    + intros s Es. rewrite Es. cbn [JsValue.substringOf].
      match goal with
      | |- context [chatWithTutor ?d ?w0] =>
          destruct (chatWithTutor_cases d w0)
            as [(e & Eb & ->)|(sent & _ & [(answer & ->)|(cause & ->)])]
      end.
      * apply tutorMessages_error in Eb.
        rewrite next_crash by exact Eb.
        split; [|discriminate].
        eexists. apply since_trace. unfold reported, emit.
        cbn [snd trace]. rewrite <- app_assoc. reflexivity.
      * split; [|discriminate].
        eexists. apply since_trace. unfold emit. cbn [snd trace].
        reflexivity.
      * rewrite next_wrapped by discriminate.
        split; [|discriminate].
        eexists. apply since_trace. unfold emit. cbn [snd trace].
        rewrite <- !app_assoc. reflexivity.
Qed.

End OtherRoutes.

(** ** What the service reads of a content *)

Section Prefix.
Context {assistant : Assistant} {engine : Engine}.

Lemma buildUserPrompt_take (o : Generate.Options) (c c' : jsstring) :
  take (N.to_nat 12000) c = take (N.to_nat 12000) c' ->
  buildUserPrompt (withContent c o) = buildUserPrompt (withContent c' o).
Proof.
  intros E. unfold buildUserPrompt, withContent.
  cbn [Generate.content Generate.numberOfQuestions Generate.difficulty
       Generate.questionTypes Generate.specificTopics
       Generate.prioritizeImportant].
  unfold andThen.
  destruct (JsValue.toStr (Generate.numberOfQuestions o)); [reflexivity|].
  destruct (topicsLine (Generate.specificTopics o)); [reflexivity|].
  now rewrite E.
Qed.

Lemma buildUserPrompt_same (o : Generate.Options) :
  buildUserPrompt (withContent (Generate.content o) o) = buildUserPrompt o.
Proof. reflexivity. Qed.

Lemma buildUserPrompt_prefix (o : Generate.Options) :
  buildUserPrompt
    (withContent (take (N.to_nat 12000) (Generate.content o)) o) =
  buildUserPrompt o.
Proof.
  transitivity (buildUserPrompt (withContent (Generate.content o) o));
    [|reflexivity].
  apply buildUserPrompt_take. now rewrite take_take, Nat.min_id.
Qed.

Lemma generateQuiz_prompt (o o' : Generate.Options) (isoTime : jsstring) :
  buildUserPrompt o = buildUserPrompt o' ->
  Generate.difficulty o = Generate.difficulty o' ->
  Generate.questionTypes o = Generate.questionTypes o' ->
  generateQuiz o isoTime = generateQuiz o' isoTime.
Proof.
  intros Ep Ed Et. unfold generateQuiz. now rewrite Ep, Ed, Et.
Qed.

(** X18: the service reads a bounded prefix of the content.  The quiz is
    generated from the first 12000 characters of the content, and the
    topics are analysed from the first 8000: what follows them changes
    neither what is sent to the model nor the outcome. *)
Theorem service_reads_prefix (o : Generate.Options) (content : jsstring)
    (isoTime : jsstring) :
  buildUserPrompt
    (withContent (take (N.to_nat 12000) (Generate.content o)) o) =
  buildUserPrompt o /\
  generateQuiz
    (withContent (take (N.to_nat 12000) (Generate.content o)) o) isoTime =
  generateQuiz o isoTime /\
  analyzeTopics (take (N.to_nat 8000) content) = analyzeTopics content /\
  (forall more,
     (N.to_nat 12000 <= length (Generate.content o))%nat ->
     generateQuiz (withContent (Generate.content o ++ more) o) isoTime =
     generateQuiz o isoTime).
Proof.
  split; [apply buildUserPrompt_prefix|]. split; [|split].
  - apply generateQuiz_prompt; [apply buildUserPrompt_prefix| |]; reflexivity.
  - unfold analyzeTopics. now rewrite take_take, Nat.min_id.
  - intros more Hlen. apply generateQuiz_prompt; [| |]; try reflexivity.
    transitivity (buildUserPrompt (withContent (Generate.content o) o));
      [|reflexivity].
    apply buildUserPrompt_take. now rewrite take_app_le.
Qed.

End Prefix.

(** ** What the prompts hold *)

Lemma startsWith_app_l needle u v :
  startsWith needle u = true -> startsWith needle (u ++ v) = true.
Proof.
  revert u. induction needle as [|a needle IH]; [reflexivity|].
  intros [|b u]; [discriminate|]. cbn [startsWith app].
  intros H. apply andb_prop in H as [-> H]. now rewrite IH.
Qed.

Lemma startsWith_refl s : startsWith s s = true.
Proof.
  induction s as [|a s IH]; [reflexivity|].
  cbn [startsWith]. now rewrite N.eqb_refl, IH.
Qed.

Lemma includesStr_refl s : includesStr s s = true.
Proof. destruct s; cbn [includesStr]; now rewrite startsWith_refl. Qed.

Lemma includesStr_app_l needle u v :
  includesStr needle u = true -> includesStr needle (u ++ v) = true.
Proof.
  induction u as [|a u IH].
  - cbn [includesStr]. rewrite orb_false_r || rewrite orb_diag.
    destruct needle; [|discriminate]. now destruct v.
  - cbn [includesStr app]. intros H. apply orb_prop in H as [H|H].
    + change (a :: u ++ v) with ((a :: u) ++ v).
      now rewrite startsWith_app_l.
    + rewrite IH by exact H. apply orb_true_r.
Qed.

Lemma includesStr_skip needle u v :
  includesStr needle v = true -> includesStr needle (u ++ v) = true.
Proof.
  intros H. destruct (includesStr needle (u ++ v)) eqn:E; [reflexivity|].
  apply includesStr_app_r in E. congruence.
Qed.

Lemma includesStr_line l ls : In l ls -> includesStr l (lines ls) = true.
Proof.
  unfold lines. induction ls as [|l0 rest IH]; [contradiction|].
  destruct rest as [|h t].
  - intros [->|[]]. apply includesStr_refl.
  - rewrite join_cons. intros [->|H].
    + apply includesStr_app_l, includesStr_refl.
    + now apply includesStr_skip, includesStr_skip, IH.
Qed.

Section Prompts.
Context {assistant : Assistant} {engine : Engine}.

(** X20: what the prompt of [getDetailedExplanation] holds.  Whenever it
    can be built, it names the question and the correct answer as the
    runtime prints them.  The answer of the student is named when it is
    truthy, and replaced by "(No answer provided)" when it is falsy.  The
    explanation is printed as it is, and an absent explanation is written
    "undefined".  The topic has a line when it is truthy.  The prompt
    cannot be built only when a field has no primitive value; it can
    always be built from fields that are strings or absent. *)
Theorem helpPrompt_fields (d : Help.Data) :
  match helpPrompt d with
  | inl e => e = TypeError.cannotConvert
  | inr prompt =>
      (exists asked,
         JsValue.toStr (Help.question d) = inr asked /\
         includesStr (lit "QUESTION: " ++ asked) prompt = true) /\
      (exists expected,
         JsValue.toStr (Help.correctAnswer d) = inr expected /\
         includesStr (lit "CORRECT ANSWER: " ++ expected) prompt = true) /\
      (JsValue.truthy (Help.userAnswer d) = true ->
       exists answered,
         JsValue.toStr (Help.userAnswer d) = inr answered /\
         includesStr (lit "STUDENT'S ANSWER: " ++ answered) prompt = true) /\
      (JsValue.truthy (Help.userAnswer d) = false ->
       includesStr (lit "STUDENT'S ANSWER: (No answer provided)") prompt
         = true) /\
      (exists explained,
         JsValue.toStr (Help.explanation d) = inr explained /\
         includesStr (lit "ORIGINAL EXPLANATION: " ++ explained) prompt
           = true) /\
      (Help.explanation d = VUndefined ->
       includesStr (lit "ORIGINAL EXPLANATION: undefined") prompt = true) /\
      (JsValue.truthy (Help.topic d) = true ->
       exists named,
         JsValue.toStr (Help.topic d) = inr named /\
         includesStr (lit "TOPIC: " ++ named) prompt = true)
  end /\
  (Forall (fun v => v = VUndefined \/ exists s, v = VStr s)
          [ Help.question d; Help.correctAnswer d; Help.userAnswer d;
            Help.explanation d; Help.topic d ] ->
   exists prompt, helpPrompt d = inr prompt).
Proof.
  split.
  - destruct (helpPrompt d) as [e|prompt] eqn:E;
      [now apply helpPrompt_error in E|].
    unfold helpPrompt, andThen in E.
    destruct (JsValue.toStr (Help.question d)) as [|asked] eqn:E1;
      [discriminate|].
    destruct (JsValue.toStr (Help.correctAnswer d)) as [|expected] eqn:E2;
      [discriminate|].
    destruct (JsValue.toStr (JsValue.or (Help.userAnswer d) _))
      as [|answered] eqn:E3; [discriminate|].
    destruct (JsValue.toStr (Help.explanation d)) as [|explained] eqn:E4;
      [discriminate|].
    assert (Hline : forall l ls, prompt = lines ls -> In l ls ->
                                 includesStr l prompt = true).
    { intros l ls -> Hl. now apply includesStr_line. }
    unfold JsValue.or in E3.
    destruct (JsValue.truthy (Help.topic d)) eqn:Ht.
    + destruct (JsValue.toStr (Help.topic d)) as [|named] eqn:E5;
        [discriminate|].
      injection E as E. symmetry in E.
      repeat apply conj.
      * exists asked. split; [reflexivity|].
        apply (Hline _ _ E). do 4 right. now left.
      * exists expected. split; [reflexivity|].
        apply (Hline _ _ E). do 6 right. now left.
      * intros Hu. rewrite Hu in E3. exists answered. split; [exact E3|].
        apply (Hline _ _ E). do 8 right. now left.
      * intros Hu. rewrite Hu in E3. injection E3 as <-.
        apply (Hline _ _ E). do 8 right. now left.
      * exists explained. split; [reflexivity|].
        apply (Hline _ _ E). do 10 right. now left.
      * intros Hx. rewrite Hx in E4. injection E4 as <-.
        apply (Hline _ _ E). do 10 right. now left.
      * intros _. exists named. split; [reflexivity|].
        apply (Hline _ _ E). do 12 right. now left.
    + injection E as E. symmetry in E.
      repeat apply conj.
      * exists asked. split; [reflexivity|].
        apply (Hline _ _ E). do 4 right. now left.
      * exists expected. split; [reflexivity|].
        apply (Hline _ _ E). do 6 right. now left.
      * intros Hu. rewrite Hu in E3. exists answered. split; [exact E3|].
        apply (Hline _ _ E). do 8 right. now left.
      * intros Hu. rewrite Hu in E3. injection E3 as <-.
        apply (Hline _ _ E). do 8 right. now left.
      * exists explained. split; [reflexivity|].
        apply (Hline _ _ E). do 10 right. now left.
      * intros Hx. rewrite Hx in E4. injection E4 as <-.
        apply (Hline _ _ E). do 10 right. now left.
      * discriminate.
  - intros Hall.
    assert (Hp : forall v, (v = VUndefined \/ exists s, v = VStr s) ->
                           exists s, JsValue.toStr v = inr s).
    { intros v [->|[s ->]]; eexists; reflexivity. }
    inversion Hall as [|? ? H1 Hall1]; subst.
    inversion Hall1 as [|? ? H2 Hall2]; subst.
    inversion Hall2 as [|? ? H3 Hall3]; subst.
    inversion Hall3 as [|? ? H4 Hall4]; subst.
    inversion Hall4 as [|? ? H5 _]; subst.
    unfold helpPrompt, andThen.
    destruct (Hp _ H1) as [s1 ->]. destruct (Hp _ H2) as [s2 ->].
    assert (H3' : exists s, JsValue.toStr
                    (JsValue.or (Help.userAnswer d)
                                (VStr (lit "(No answer provided)"))) = inr s).
    { unfold JsValue.or. destruct (JsValue.truthy _); [now apply Hp|].
      eexists. reflexivity. }
    destruct H3' as [s3 ->]. destruct (Hp _ H4) as [s4 ->].
    destruct (JsValue.truthy (Help.topic d)); [|eexists; reflexivity].
    destruct (Hp _ H5) as [s5 ->]. eexists. reflexivity.
Qed.

End Prompts.

Lemma greaterThan_size `{Engine} (n : N) :
  JsValue.greaterThan (VNum (Double.ofN n)) (Double.ofZ 0) =
  inr (negb (n =? 0)).
Proof.
  unfold JsValue.greaterThan, andThen. cbn [JsValue.toNumber].
  unfold Double.ofN. rewrite ltb_ofZ. f_equal. now destruct n.
Qed.

Section Prompts.
Context {assistant : Assistant} {engine : Engine}.

Lemma copyHistory_objects items :
  Forall (fun msg => JsValue.nullish msg = false) items ->
  copyHistory items =
  inr (map (fun msg => {| Chat.role := JsValue.get "role" msg;
                          Chat.content := JsValue.get "content" msg |})
           items).
Proof.
  induction 1 as [|msg rest Hm _ IH]; [reflexivity|].
  cbn [copyHistory map]. unfold JsValue.read, andThen.
  now rewrite Hm, IH.
Qed.

Lemma copyHistory_nullish before msg after :
  Forall (fun msg => JsValue.nullish msg = false) before ->
  JsValue.nullish msg = true ->
  copyHistory (before ++ msg :: after) = inl (TypeError.cannotRead msg "role").
Proof.
  intros Hb Hm. induction Hb as [|first rest Hf _ IH].
  - cbn [app copyHistory]. unfold JsValue.read, andThen. now rewrite Hm.
  - cbn [app copyHistory]. unfold JsValue.read, andThen. now rewrite Hf, IH.
Qed.

(** X19: what [chatWithTutor] sends to the model.  When the messages can
    be built, they are the system prompt, then the history of the chat,
    then the message of the user with the role user: two messages more
    than the history.  The system prompt names the question, the correct
    answer and the topic, "General" when the topic is falsy, as the runtime
    prints them.  The history is empty when the request gives none or an
    empty one; of an array it holds, for each element in its order, the
    properties [role] and [content] of the element, whatever they are;
    the outcome is the answer of the model to this request, the world
    untouched, or the failure of the service.  When the messages cannot
    be built, as with a history that holds [null] or is a string, the
    error of the runtime is thrown bare, before the model is called and
    with nothing written on the console. *)
Theorem chatWithTutor_messages (o : Tutor.Options) (w : World) :
  match tutorMessages o with
  | inl e => thrownByRuntime e /\ chatWithTutor o w = (Thrown e, w)
  | inr sent =>
      exists systemPrompt history,
        sent =
          {| Chat.role := VStr (lit "system");
             Chat.content := VStr systemPrompt |} ::
          history ++
          [ {| Chat.role := VStr (lit "user");
               Chat.content := Tutor.userMessage o |} ] /\
        length sent = (length history + 2)%nat /\
        (exists asked,
           JsValue.toStr (Tutor.question o) = inr asked /\
           includesStr (lit "- Question: " ++ asked) systemPrompt = true) /\
        (exists expected,
           JsValue.toStr (Tutor.correctAnswer o) = inr expected /\
           includesStr (lit "- Correct Answer: " ++ expected) systemPrompt
             = true) /\
        (exists named,
           JsValue.toStr (JsValue.or (Tutor.topic o) (VStr (lit "General")))
             = inr named /\
           includesStr (lit "- Topic: " ++ named) systemPrompt = true) /\
        (JsValue.truthy (Tutor.chatHistory o) = false -> history = []) /\
        (forall items, Tutor.chatHistory o = VArr items ->
                       copyHistory items = inr history) /\
        chatWithTutor o w =
        match createCompletion
                {| Chat.model := lit "gpt-4o";
                   Chat.messages := sent;
                   Chat.temperature := QArith_base.Qmake 8 10;
                   Chat.max_tokens := 1000;
                   Chat.response_format := None |} with
        | inr answer => (Returned answer, w)
        | inl cause =>
            (Thrown (newError (lit "Failed to chat with AI: " ++
                               message cause)),
             snd (emit (ConsoleError (lit "Chat error:") cause) w))
        end
  end /\
  (forall items,
     Forall (fun msg => JsValue.nullish msg = false) items ->
     copyHistory items =
     inr (map (fun msg => {| Chat.role := JsValue.get "role" msg;
                             Chat.content := JsValue.get "content" msg |})
              items)) /\
  (forall before msg after,
     Forall (fun msg => JsValue.nullish msg = false) before ->
     JsValue.nullish msg = true ->
     copyHistory (before ++ msg :: after) =
     inl (TypeError.cannotRead msg "role")) /\
  (forall s, Tutor.chatHistory o = VStr s -> s <> [] ->
   match tutorMessages o with
   | inl e => e = TypeError.cannotConvert \/
              e = TypeError.notAFunction "chatHistory.forEach"
   | inr _ => False
   end).
Proof.
  split; [|split; [apply copyHistory_objects|split;
                   [apply copyHistory_nullish|]]].
  - destruct (tutorMessages o) as [e|sent] eqn:E.
    { split; [now apply tutorMessages_error in E|].
      unfold chatWithTutor. now rewrite bind_liftLib, E. }
    assert (Hrun : chatWithTutor o w =
      match createCompletion
              {| Chat.model := lit "gpt-4o";
                 Chat.messages := sent;
                 Chat.temperature := QArith_base.Qmake 8 10;
                 Chat.max_tokens := 1000;
                 Chat.response_format := None |} with
      | inr answer => (Returned answer, w)
      | inl cause =>
          (Thrown (newError (lit "Failed to chat with AI: " ++ message cause)),
           snd (emit (ConsoleError (lit "Chat error:") cause) w))
      end).
    { unfold chatWithTutor. rewrite bind_liftLib, E.
      unfold tryCatch, bind, liftLib, throw, ret, emit.
      destruct (createCompletion _); reflexivity. }
    unfold tutorMessages, andThen in E.
    destruct (JsValue.toStr (Tutor.question o)) as [|asked] eqn:E1;
      [discriminate|].
    destruct (JsValue.toStr (Tutor.correctAnswer o)) as [|expected] eqn:E2;
      [discriminate|].
    destruct (JsValue.toStr (JsValue.or _ _)) as [|named] eqn:E3;
      [discriminate|].
    match type of E with
    | context [VStr (lines ?ls)] => set (systemPrompt := lines ls) in E;
        assert (Hline : forall l, In l ls ->
                                  includesStr l systemPrompt = true)
          by (intros l Hl; now apply includesStr_line)
    end.
    assert (Hprompt :
      includesStr (lit "- Question: " ++ asked) systemPrompt = true /\
      includesStr (lit "- Correct Answer: " ++ expected) systemPrompt = true /\
      includesStr (lit "- Topic: " ++ named) systemPrompt = true).
    { split; [|split]; apply Hline.
      - do 3 right. now left.
      - do 4 right. now left.
      - do 5 right. now left. }
    destruct Hprompt as (Hq & Ha & Ht).
    clearbody systemPrompt. clear Hline.
    exists systemPrompt.
    destruct (JsValue.truthy (Tutor.chatHistory o)) eqn:Hh.
    + destruct (JsValue.lengthOf (Tutor.chatHistory o)) as [|size] eqn:El;
        [discriminate|].
      destruct (JsValue.greaterThan size _) as [|some] eqn:Eg; [discriminate|].
      destruct some.
      * destruct (JsValue.arrayOf _ _ _) as [|items] eqn:Ea; [discriminate|].
        destruct (copyHistory items) as [|copied] eqn:Ec; [discriminate|].
        injection E as <-. exists copied.
        split; [reflexivity|].
        split; [cbn [length]; rewrite length_app; cbn [length app]; lia|].
        split; [now exists asked|]. split; [now exists expected|].
        split; [now exists named|].
        split; [discriminate|]. split; [|exact Hrun].
        intros items' Ei. rewrite Ei in Ea. cbn [JsValue.arrayOf] in Ea.
        now injection Ea as ->.
      * injection E as <-. exists [].
        split; [reflexivity|]. split; [reflexivity|].
        split; [now exists asked|]. split; [now exists expected|].
        split; [now exists named|].
        split; [reflexivity|]. split; [|exact Hrun].
        intros items Ei. rewrite Ei in El. cbn [JsValue.lengthOf] in El.
        injection El as <-. rewrite greaterThan_size in Eg.
        injection Eg as Eg. apply negb_false_iff, N.eqb_eq in Eg.
        destruct items; [reflexivity|discriminate Eg].
    + injection E as <-. exists [].
      split; [reflexivity|]. split; [reflexivity|].
      split; [now exists asked|]. split; [now exists expected|].
      split; [now exists named|].
      split; [reflexivity|]. split; [|exact Hrun].
      intros items Ei. rewrite Ei in Hh. discriminate Hh.
  - intros s Es Hs. unfold tutorMessages, andThen.
    destruct (JsValue.toStr (Tutor.question o)) as [e|asked] eqn:E1;
      [left; now apply toStr_error in E1|].
    destruct (JsValue.toStr (Tutor.correctAnswer o)) as [e|expected] eqn:E2;
      [left; now apply toStr_error in E2|].
    destruct (JsValue.toStr (JsValue.or _ _)) as [e|named] eqn:E3;
      [left; now apply toStr_error in E3|].
    rewrite Es. cbn [JsValue.truthy JsValue.lengthOf].
    destruct s as [|c s]; [congruence|]. cbn [length Nat.eqb negb].
    unfold jsLength. rewrite greaterThan_size. cbn [length].
    now right.
Qed.

End Prompts.

(** The client of the model refuses with status 429: the route answers
    with status 500. *)
Example postAiChat_busy :
  fst (@postAiChat busyAssistant digitsEngine
         (bodyOf [("question"%string, VStr (lit "What is a cell?"));
                  ("correctAnswer"%string, VStr (lit "The unit of life"));
                  ("userMessage"%string, VStr (lit "Why?"))])
         emptyWorld) =
  Returned (serverError (lit "Failed to chat with AI: Rate limit exceeded")).
Proof. reflexivity. Qed.

(** A history that holds [null] stops the service before it calls the
    model. *)
Example postAiChat_history_null :
  fst (@postAiChat echoAssistant digitsEngine
         (bodyOf [("question"%string, VStr (lit "What is a cell?"));
                  ("correctAnswer"%string, VStr (lit "The unit of life"));
                  ("chatHistory"%string, VArr [VNull]);
                  ("userMessage"%string, VStr (lit "Why?"))])
         emptyWorld) =
  Returned (serverError
              (lit "Cannot read properties of null (reading 'role')")).
Proof. reflexivity. Qed.

(** A message that is a number passes the check and fails at
    [substring]. *)
Example postAiChat_message_number :
  @postAiChat echoAssistant digitsEngine
    (bodyOf [("question"%string, VStr (lit "What is a cell?"));
             ("correctAnswer"%string, VStr (lit "The unit of life"));
             ("userMessage"%string, VNum (Double.ofZ 123))])
    emptyWorld =
  (Returned (serverError (lit "userMessage.substring is not a function")),
   {| files := ∅; protected := ∅;
      trace := [ ConsoleError (lit "Error:")
                   (TypeError.notAFunction "userMessage.substring") ] |}).
Proof. reflexivity. Qed.

(** A question that is the number zero is refused. *)
Example postAiHelp_question_zero :
  @postAiHelp echoAssistant digitsEngine
    (bodyOf [("question"%string, VNum (Double.ofZ 0));
             ("correctAnswer"%string, VStr (lit "The unit of life"))])
    emptyWorld =
  (Returned (badReply (lit "Question and correct answer are required")),
   emptyWorld).
Proof. reflexivity. Qed.

(** ** The clean-up, call by call *)

Section CleanContentCalls.
Context {engine : Engine}.

Lemma mapItems_trimLine (l : list jsstring) :
  Untyped.mapItems Untyped.trimLine (map VStr l) =
  inr (map VStr (map trim l)).
Proof.
  induction l as [|s l IH]; [reflexivity|].
  cbn [map Untyped.mapItems]. rewrite IH. reflexivity.
Qed.

Lemma joinValues_strings (sep : jsstring) (l : list jsstring) :
  JsValue.joinValues sep (map VStr l) = inr (join sep l).
Proof. unfold JsValue.joinValues. now rewrite printItems_strings. Qed.

(** On a string no call of the chain fails, and the chain computes the
    cleaned text. *)
Lemma cleanContent_string (s : jsstring) :
  Untyped.cleanContent (VStr s) = inr (VStr (cleanContent (Some s))).
Proof.
  destruct s as [|c s]; [reflexivity|].
  unfold Untyped.cleanContent. cbn [JsValue.truthy length Nat.eqb negb].
  unfold Untyped.replaceOf, Untyped.splitOf, Untyped.mapOf, Untyped.joinOf.
  cbn [andThen JsValue.arrayOf].
  rewrite mapItems_trimLine. cbn [andThen JsValue.arrayOf].
  rewrite joinValues_strings. reflexivity.
Qed.

(** C9: [cleanContent] never fails on a text.  For every string, the
    empty one included, each call of the chain finds its method and the
    function returns a string, the cleaned text; for an absent text,
    [null] or [undefined], and for every other falsy value it returns the
    empty string.  The values on which it returns a string are exactly the
    strings and the falsy values, and it throws on the others, which are
    no text. *)
Theorem cleanContent_total (content : Value) :
  (JsValue.truthy content = false ->
   Untyped.cleanContent content = inr (VStr [])) /\
  (forall s, content = VStr s ->
     Untyped.cleanContent content = inr (VStr (cleanContent (Some s)))) /\
  ((exists out, Untyped.cleanContent content = inr (VStr out)) <->
   JsValue.truthy content = false \/ exists s, content = VStr s) /\
  ((exists e, Untyped.cleanContent content = inl e) <->
   JsValue.truthy content = true /\ forall s, content <> VStr s).
Proof.
  assert (Hfalsy : JsValue.truthy content = false ->
                   Untyped.cleanContent content = inr (VStr [])).
  { intros H. unfold Untyped.cleanContent. now rewrite H. }
  assert (Hother : JsValue.truthy content = true ->
                   (forall s, content <> VStr s) ->
                   exists e, Untyped.cleanContent content = inl e).
  { intros Ht Hs. unfold Untyped.cleanContent. rewrite Ht. cbn [negb].
    destruct content; try discriminate Ht; try (eexists; reflexivity).
    now contradiction (Hs s). }
  split; [|split; [|split]].
  - exact Hfalsy.
  - intros s ->. apply cleanContent_string.
  - split.
    + intros [out Hout]. destruct (JsValue.truthy content) eqn:Ht;
        [|now left]. right.
      destruct content as [| | b|x|s|items|fields];
        try (destruct (Hother eq_refl) as [e He]; [discriminate|];
             rewrite He in Hout; discriminate Hout).
      now exists s.
    + intros [Hf|[s ->]].
      * eexists. now apply Hfalsy.
      * eexists. apply cleanContent_string.
  - split.
    + intros [e He]. destruct (JsValue.truthy content) eqn:Ht.
      * split; [reflexivity|]. intros s ->.
        rewrite cleanContent_string in He. discriminate He.
      * rewrite (Hfalsy eq_refl) in He. discriminate He.
    + intros [Ht Hs]. now apply Hother.
Qed.

End CleanContentCalls.

(** A number has no method [replace]. *)
Example cleanContent_number :
  @Untyped.cleanContent digitsEngine (VNum (Double.ofZ 123)) =
  inl (newError (lit "content.replace is not a function")).
Proof. reflexivity. Qed.

(** Lines that end in a carriage return, and an absent text. *)
Example cleanContent_calls :
  @Untyped.cleanContent digitsEngine
    (VStr (lit "a  b" ++ [13; LF; 13; LF; 13; LF] ++ lit " c ")) =
    inr (VStr (lit "a b" ++ [LF; LF; LF] ++ lit "c")) /\
  @Untyped.cleanContent digitsEngine VNull = inr (VStr []) /\
  @Untyped.cleanContent digitsEngine VUndefined = inr (VStr []).
Proof. repeat split. Qed.
